(** * Food log: record store, form controller and list filter

    A shallow embedding of the persistence logic of the food-logging
    application:

    - [src/app/(food)/food-form.tsx]: [ensureDirectoryExists], [loadFoods],
      [saveFoods], [validateForm], [handleSubmit], [handleDelete];
    - the list screen ([CategoryScreen]): its own [loadFoods],
      [filteredFoods] and [deleteFood].

    Modelling conventions.

    - A JavaScript string is a Rocq [string]: a sequence of bytes, the UTF-8
      encoding of the text. White space is that of ECMA-262 (WhiteSpace and
      LineTerminator), recognised through its UTF-8 bytes.
    - [String.prototype.toLowerCase] follows the Unicode tables of the engine:
      it is a member of the environment, and what is proved of [filteredFoods]
      holds for every lower-casing.
    - The device file system, the clock, the console, the alert boxes and the
      router are explicit state, threaded by an error monad: an [await] is a
      bind, a rejected promise is [Throw].
    - [JSON.parse] and [JSON.stringify] are modelled on documents of the
      declared type [FoodData[]]: arrays of objects whose members are strings.
*)

From stdpp Require Import gmap strings list.
From Stdlib Require Import Ascii String ZArith Lia DecimalString DecimalN.

Open Scope string_scope.
#[local] Arguments String.append !s1 s2 : simpl nomatch.

(** ** JavaScript string built-ins *)

Module JS.

(** Truthiness of a string: only the empty string is falsy. *)
Definition truthy (s : string) : bool :=
  match s with "" => false | _ => true end.

(** [a || b] on strings. *)
Definition or_else (a b : string) : string := if truthy a then a else b.

(** *** White space

    WhiteSpace and LineTerminator of ECMA-262, the characters that
    [String.prototype.trim] and [Number] strip: U+0009 to U+000D, U+0020,
    U+00A0, U+1680, U+2000 to U+200A, U+2028, U+2029, U+202F, U+205F, U+3000
    and U+FEFF. In UTF-8 they take one, two or three bytes. *)

Definition is_space1 (a : ascii) : bool :=
  let x := nat_of_ascii a in
  (9 <=? x)%nat && (x <=? 13)%nat || (x =? 32)%nat.

(** U+00A0. *)
Definition is_space2 (a b : ascii) : bool :=
  (nat_of_ascii a =? 194)%nat && (nat_of_ascii b =? 160)%nat.

(** U+1680; U+2000 to U+200A, U+2028, U+2029, U+202F; U+205F; U+3000;
    U+FEFF. *)
Definition is_space3 (a b c : ascii) : bool :=
  let x := nat_of_ascii a in
  let y := nat_of_ascii b in
  let z := nat_of_ascii c in
  (x =? 225)%nat && (y =? 154)%nat && (z =? 128)%nat
  || (x =? 226)%nat && (y =? 128)%nat
     && ((128 <=? z)%nat && (z <=? 138)%nat
         || (z =? 168)%nat || (z =? 169)%nat || (z =? 175)%nat)
  || (x =? 226)%nat && (y =? 129)%nat && (z =? 159)%nat
  || (x =? 227)%nat && (y =? 128)%nat && (z =? 128)%nat
  || (x =? 239)%nat && (y =? 187)%nat && (z =? 191)%nat.

(** The text after its first character, when that is white space. *)
Definition strip (s : string) : option string :=
  match s with
  | String a r =>
      if is_space1 a then Some r
      else
        match r with
        | String b r' =>
            if is_space2 a b then Some r'
            else
              match r' with
              | String c r'' => if is_space3 a b c then Some r'' else None
              | "" => None
              end
        | "" => None
        end
  | "" => None
  end.

Fixpoint trimStart (s : string) : string :=
  match s with
  | String a r =>
      if is_space1 a then trimStart r
      else
        match r with
        | String b r' =>
            if is_space2 a b then trimStart r'
            else
              match r' with
              | String c r'' => if is_space3 a b c then trimStart r'' else s
              | "" => s
              end
        | "" => s
        end
  | "" => ""
  end.

(** The text is white space throughout. *)
Definition blank (s : string) : bool := negb (truthy (trimStart s)).

Fixpoint trimEnd (s : string) : string :=
  match s with
  | String a r => if blank s then "" else String a (trimEnd r)
  | "" => ""
  end.

(** [String.prototype.trim]. *)
Definition trim (s : string) : string := trimEnd (trimStart s).

(** [q] starts [s]. *)
Fixpoint startsWith (q s : string) : bool :=
  match q, s with
  | "", _ => true
  | String a q', String b s' => if Ascii.eqb a b then startsWith q' s' else false
  | String _ _, "" => false
  end.

(** [String.prototype.includes]: [q] occurs in [s] at some position. *)
Fixpoint includes (s q : string) : bool :=
  if startsWith q s then true
  else match s with
       | String _ r => includes r q
       | "" => false
       end.

(** [Number.prototype.toString] on a non-negative integer. *)
Definition toString (n : N) : string := NilZero.string_of_uint (N.to_uint n).

(** *** [Number(s)] is not [NaN]

    [Number] applied to a string yields [NaN] exactly when the string is not
    a StringNumericLiteral (ECMA-262, StringToNumber). *)

Definition is_digit (c : ascii) : bool :=
  let n := nat_of_ascii c in (48 <=? n)%nat && (n <=? 57)%nat.

Definition is_hex_digit (c : ascii) : bool :=
  let n := nat_of_ascii c in
  is_digit c || ((65 <=? n)%nat && (n <=? 70)%nat)
  || ((97 <=? n)%nat && (n <=? 102)%nat).

Definition is_octal_digit (c : ascii) : bool :=
  let n := nat_of_ascii c in (48 <=? n)%nat && (n <=? 55)%nat.

Definition is_binary_digit (c : ascii) : bool :=
  let n := nat_of_ascii c in (n =? 48)%nat || (n =? 49)%nat.

Fixpoint all_chars (p : ascii -> bool) (s : string) : bool :=
  match s with
  | String c r => p c && all_chars p r
  | "" => true
  end.

(** One or more characters, all satisfying [p]. *)
Definition some_chars (p : ascii -> bool) (s : string) : bool :=
  truthy s && all_chars p s.

Fixpoint skip_digits (s : string) : string :=
  match s with
  | String c r => if is_digit c then skip_digits r else s
  | "" => ""
  end.

Definition starts_with_digit (s : string) : bool :=
  match s with String c _ => is_digit c | "" => false end.

Definition drop_sign (s : string) : string :=
  match s with
  | String "+" r => r
  | String "-" r => r
  | _ => s
  end.

(** Optional ExponentPart, then the end of the literal. *)
Definition exponent_opt (s : string) : bool :=
  match s with
  | "" => true
  | String c r =>
      (Ascii.eqb c "e" || Ascii.eqb c "E") && some_chars is_digit (drop_sign r)
  end.

Definition unsigned_decimal (s : string) : bool :=
  if String.eqb s "Infinity" then true
  else if starts_with_digit s then
    match skip_digits s with
    | String "." r => exponent_opt (skip_digits r)
    | r => exponent_opt r
    end
  else
    match s with
    | String "." r => starts_with_digit r && exponent_opt (skip_digits r)
    | _ => false
    end.

Definition non_decimal (s : string) : bool :=
  match s with
  | String "0" (String c r) =>
      if Ascii.eqb c "x" || Ascii.eqb c "X" then some_chars is_hex_digit r
      else if Ascii.eqb c "o" || Ascii.eqb c "O" then some_chars is_octal_digit r
      else if Ascii.eqb c "b" || Ascii.eqb c "B" then some_chars is_binary_digit r
      else false
  | _ => false
  end.

Definition is_numeric_literal (s : string) : bool :=
  let t := trim s in
  match t with
  | "" => true
  | _ => non_decimal t || unsigned_decimal (drop_sign t)
  end.

(** [isNaN(Number(s))]. *)
Definition isNaN_Number (s : string) : bool := negb (is_numeric_literal s).

(** [Array.prototype.findIndex]: the index of the first element satisfying
    [p], or [-1]. *)
Fixpoint findIndex {A} (p : A -> bool) (l : list A) : Z :=
  match l with
  | [] => (-1)%Z
  | x :: r =>
      if p x then 0%Z
      else let i := findIndex p r in
           if (i =? -1)%Z then (-1)%Z else (i + 1)%Z
  end.

End JS.

(** ** Data model *)

(** [interface FoodData]. The form declares [id] and [imageUri] optional; a
    record on disk carries whatever members were written. [category] is one
    of [FOOD_CATEGORIES] in the form and a plain string on the list screen. *)
Record FoodData := mkFood {
  id : option string;
  foodName : string;
  category : string;
  calories : string;
  weight : string;
  protein : string;
  carbs : string;
  fat : string;
  fiber : string;
  imageUri : option string
}.

#[global] Instance FoodData_eq_dec : EqDecision FoodData.
Proof. solve_decision. Defined.

(** The first entry of [FOOD_CATEGORIES], the initial value of the
    [category] state. *)
Definition default_category : string := "主食".

(** ** JSON documents of type [FoodData[]] *)

Module JSON.

(** A parsed object: its members in document order. *)
Definition members := list (string * string).

(** *** [JSON.stringify] *)

Definition hex_digit (n : nat) : ascii :=
  if (n <? 10)%nat then ascii_of_nat (48 + n) else ascii_of_nat (87 + n).

(** QuoteJSONString, one code unit. *)
Definition quote_char (c : ascii) : string :=
  let n := nat_of_ascii c in
  if (n =? 34)%nat then String "\" (String c "")
  else if (n =? 92)%nat then "\\"
  else if (n =? 8)%nat then "\b"
  else if (n =? 9)%nat then "\t"
  else if (n =? 10)%nat then "\n"
  else if (n =? 12)%nat then "\f"
  else if (n =? 13)%nat then "\r"
  else if (n <? 32)%nat then
    String "\" (String "u" (String "0" (String "0"
      (String (hex_digit (n / 16)) (String (hex_digit (n mod 16)) "")))))
  else String c "".

Fixpoint quote_chars (s : string) : string :=
  match s with
  | String c r => quote_char c ++ quote_chars r
  | "" => ""
  end.

Definition dquote : ascii := ascii_of_nat 34.
Definition newline : string := String (ascii_of_nat 10) "".

Definition quote (s : string) : string :=
  String dquote (quote_chars s ++ String dquote "").

(** Members of a record, in the order the form writes them; a member whose
    value is [undefined] is left out. *)
Definition opt_member (k : string) (v : option string) : members :=
  match v with Some s => [(k, s)] | None => [] end.

Definition encode (f : FoodData) : members :=
  (opt_member "id" (id f)
   ++ [("foodName", foodName f); ("category", category f);
       ("calories", calories f); ("weight", weight f);
       ("protein", protein f); ("carbs", carbs f); ("fat", fat f);
       ("fiber", fiber f)]
   ++ opt_member "imageUri" (imageUri f))%list.

(** [items] joined with [sep]. *)
Fixpoint join (sep : string) (items : list string) : string :=
  match items with
  | [] => ""
  | [x] => x
  | x :: r => x ++ sep ++ join sep r
  end.

(** SerializeJSONObject / SerializeJSONArray: [gap] is the indentation unit
    (empty for the compact form), [indent] the current indentation. *)
Definition bracket (opening closing gap indent : string)
    (items : list string) : string :=
  match items with
  | [] => opening ++ closing
  | _ =>
      if JS.truthy gap then
        opening ++ newline ++ (indent ++ gap)
        ++ join ("," ++ newline ++ (indent ++ gap)) items
        ++ newline ++ indent ++ closing
      else opening ++ join "," items ++ closing
  end.

Definition print_member (gap : string) (m : string * string) : string :=
  quote (fst m) ++ (if JS.truthy gap then ": " else ":") ++ quote (snd m).

Definition print_object (gap indent : string) (o : members) : string :=
  bracket "{" "}" gap indent (map (print_member gap) o).

Definition print_array (gap : string) (l : list members) : string :=
  bracket "[" "]" gap "" (map (print_object gap gap) l).

(** [JSON.stringify(foods)] with [gap = ""], [JSON.stringify(foods, null, 2)]
    with [gap] two spaces. *)
Definition stringify_gap (gap : string) (foods : list FoodData) : string :=
  print_array gap (map encode foods).

Definition stringify (foods : list FoodData) : string := stringify_gap "" foods.
Definition stringify2 (foods : list FoodData) : string := stringify_gap "  " foods.

(** *** [JSON.parse] *)

(** JSON white space. *)
Definition is_ws (c : ascii) : bool :=
  let n := nat_of_ascii c in
  (n =? 9)%nat || (n =? 10)%nat || (n =? 13)%nat || (n =? 32)%nat.

Fixpoint skip_ws (s : string) : string :=
  match s with
  | String c r => if is_ws c then skip_ws r else s
  | "" => ""
  end.

Definition hex_value (c : ascii) : option nat :=
  let n := nat_of_ascii c in
  if JS.is_digit c then Some (n - 48)
  else if (65 <=? n)%nat && (n <=? 70)%nat then Some (n - 55)
  else if (97 <=? n)%nat && (n <=? 102)%nat then Some (n - 87)
  else None.

(** The UTF-8 bytes of a code unit given by a [\u] escape; a surrogate has
    none of its own. *)
Definition utf8 (n : nat) : option string :=
  if (n <? 128)%nat then Some (String (ascii_of_nat n) "")
  else if (n <? 2048)%nat then
    Some (String (ascii_of_nat (192 + n / 64))
            (String (ascii_of_nat (128 + n mod 64)) ""))
  else if (216 * 256 <=? n)%nat && (n <? 224 * 256)%nat then None
  else
    Some (String (ascii_of_nat (224 + n / 4096))
            (String (ascii_of_nat (128 + (n / 64) mod 64))
               (String (ascii_of_nat (128 + n mod 64)) ""))).

(** Surrogates: U+D800 to U+DBFF lead a pair, U+DC00 to U+DFFF end it. *)
Definition is_high_surrogate (n : nat) : bool :=
  (216 * 256 <=? n)%nat && (n <? 220 * 256)%nat.

Definition is_low_surrogate (n : nat) : bool :=
  (220 * 256 <=? n)%nat && (n <? 224 * 256)%nat.

(** The UTF-8 bytes of the character that a surrogate pair encodes. *)
Definition utf8_pair (high low : nat) : string :=
  let cp := (65536 + (N.of_nat high - 55296) * 1024
             + (N.of_nat low - 56320))%N in
  String (ascii_of_N (240 + cp / 262144))
    (String (ascii_of_N (128 + (cp / 4096) mod 64))
       (String (ascii_of_N (128 + (cp / 64) mod 64))
          (String (ascii_of_N (128 + cp mod 64)) ""))).

Definition unescape (c : ascii) : option ascii :=
  let n := nat_of_ascii c in
  if (n =? 34)%nat then Some c
  else if (n =? 92)%nat then Some c
  else if (n =? 47)%nat then Some c
  else if (n =? 98)%nat then Some (ascii_of_nat 8)
  else if (n =? 102)%nat then Some (ascii_of_nat 12)
  else if (n =? 110)%nat then Some (ascii_of_nat 10)
  else if (n =? 114)%nat then Some (ascii_of_nat 13)
  else if (n =? 116)%nat then Some (ascii_of_nat 9)
  else None.

Definition hex4 (a b c d : ascii) : option nat :=
  x ← hex_value a; y ← hex_value b; z ← hex_value c; w ← hex_value d;
  Some (((x * 16 + y) * 16 + z) * 16 + w).

(** The characters of a string literal after its opening quote, up to and
    including the closing quote; the rest of the input is returned. Two
    [\u] escapes that form a surrogate pair give one character; a surrogate
    on its own has no UTF-8 text and is not read. *)
Fixpoint parse_chars (s : string) : option (string * string) :=
  match s with
  | "" => None
  | String c r =>
      if Ascii.eqb c dquote then Some ("", r)
      else if Ascii.eqb c "\" then
        match r with
        | String e r' =>
            if Ascii.eqb e "u" then
              match r' with
              | String h1 (String h2 (String h3 (String h4 r''))) =>
                  n ← hex4 h1 h2 h3 h4;
                  if is_high_surrogate n then
                    match r'' with
                    | String b (String u (String l1 (String l2
                        (String l3 (String l4 r3))))) =>
                        if Ascii.eqb b "\" && Ascii.eqb u "u" then
                          m ← hex4 l1 l2 l3 l4;
                          if is_low_surrogate m then
                            '(t, rest) ← parse_chars r3;
                            Some (utf8_pair n m ++ t, rest)
                          else None
                        else None
                    | _ => None
                    end
                  else
                    bytes ← utf8 n;
                    '(t, rest) ← parse_chars r'';
                    Some (bytes ++ t, rest)
              | _ => None
              end
            else
              ch ← unescape e;
              '(t, rest) ← parse_chars r';
              Some (String ch t, rest)
        | "" => None
        end
      else if (nat_of_ascii c <? 32)%nat then None
      else
        '(t, rest) ← parse_chars r;
        Some (String c t, rest)
  end.

Definition parse_string (s : string) : option (string * string) :=
  match s with
  | String c r => if Ascii.eqb c dquote then parse_chars r else None
  | "" => None
  end.

(** One or more members, then the closing brace. *)
Fixpoint parse_members (fuel : nat) (s : string) : option (members * string) :=
  match fuel with
  | O => None
  | S fuel =>
      '(k, s1) ← parse_string s;
      match skip_ws s1 with
      | String ":" s2 =>
          '(v, s3) ← parse_string (skip_ws s2);
          match skip_ws s3 with
          | String "," s4 =>
              '(ms, rest) ← parse_members fuel (skip_ws s4);
              Some ((k, v) :: ms, rest)
          | String "}" rest => Some ([(k, v)], rest)
          | _ => None
          end
      | _ => None
      end
  end.

Definition parse_object (fuel : nat) (s : string) : option (members * string) :=
  match s with
  | String "{" r =>
      match skip_ws r with
      | String "}" rest => Some ([], rest)
      | r' => parse_members fuel r'
      end
  | _ => None
  end.

(** The value of member [k]; of two members with one key the later wins. *)
Fixpoint get (k : string) (o : members) : option string :=
  match o with
  | [] => None
  | (k', v) :: r =>
      match get k r with
      | Some v' => Some v'
      | None => if String.eqb k k' then Some v else None
      end
  end.

Definition field_names : list string :=
  ["id"; "foodName"; "category"; "calories"; "weight"; "protein"; "carbs";
   "fat"; "fiber"; "imageUri"].

Definition known (k : string) : bool :=
  existsb (String.eqb k) field_names.

(** An object of the shape [FoodData]: the eight required members present,
    no member outside the interface. *)
Definition decode (o : members) : option FoodData :=
  if forallb (fun m => known (fst m)) o then
    n ← get "foodName" o; ca ← get "category" o; cal ← get "calories" o;
    w ← get "weight" o; p ← get "protein" o; cb ← get "carbs" o;
    fa ← get "fat" o; fi ← get "fiber" o;
    Some (mkFood (get "id" o) n ca cal w p cb fa fi (get "imageUri" o))
  else None.

(** One or more elements, then the closing bracket. *)
Fixpoint parse_elements (fuel : nat) (s : string)
    : option (list FoodData * string) :=
  match fuel with
  | O => None
  | S fuel =>
      '(o, s1) ← parse_object (String.length s) s;
      f ← decode o;
      match skip_ws s1 with
      | String "," s2 =>
          '(fs, rest) ← parse_elements fuel (skip_ws s2);
          Some (f :: fs, rest)
      | String "]" rest => Some ([f], rest)
      | _ => None
      end
  end.

(** [JSON.parse] at type [FoodData[]]; [None] is a thrown [SyntaxError] (or
    a value that is not an array of [FoodData]). *)
Definition parse (doc : string) : option (list FoodData) :=
  match skip_ws doc with
  | String "[" r =>
      match skip_ws r with
      | String "]" rest =>
          if String.eqb (skip_ws rest) "" then Some [] else None
      | r' =>
          '(l, rest) ← parse_elements (String.length doc) r';
          if String.eqb (skip_ws rest) "" then Some l else None
      end
  | _ => None
  end.

(** The layout of [JSON.stringify]: what stands before each item, before the
    closing bracket, and between a member name and its value. *)
Definition pad (gap indent : string) : string :=
  if JS.truthy gap then newline ++ (indent ++ gap) else "".
Definition pad_end (gap indent : string) : string :=
  if JS.truthy gap then newline ++ indent else "".
Definition colon (gap : string) : string :=
  if JS.truthy gap then ": " else ":".
Definition sp (gap : string) : string :=
  if JS.truthy gap then " " else "".

(** A string of JSON white space only. *)
Definition ws_only (w : string) : Prop := JS.all_chars is_ws w = true.

End JSON.

(** ** The device: file system, clock, console, dialogs, router *)

(** Calls of [expo-file-system]. *)
Inductive FsCall :=
  | GetInfo (path : string)
  | MakeDirectory (path : string)
  | WriteAsString (path content : string)
  | ReadAsString (path : string)
  | Copy (from to : string).

(** A rejected promise or a thrown exception. *)
Inductive Error :=
  | FsError (call : FsCall)
  | SyntaxError.

Inductive Result (A : Type) :=
  | Ok (a : A)
  | Throw (e : Error).
Arguments Ok {A} a.
Arguments Throw {A} e.

Inductive ConsoleEntry :=
  | ConsoleLog (label : string) (value : option string)
  | ConsoleError (label : string) (e : Error).

Inductive Dialog :=
  | Plain (message : string)
  | Titled (title message : string).

(** What the environment decides: where the documents live, which call of
    the file system fails (by its position among the calls made so far),
    what the clock reads at each reading, and how the engine lower-cases a
    text ([String.prototype.toLowerCase]). *)
Record Env := mkEnv {
  documentDirectory : string;
  faulty : nat -> FsCall -> bool;
  clock : nat -> N;
  toLowerCase : string -> string
}.

Record State := mkState {
  dirExists : bool;
  files : gmap string string;
  trace : list FsCall;
  clockReads : nat;
  console : list ConsoleEntry;
  dialogs : list Dialog;
  isLoading : bool;
  routerBack : nat
}.

Definition M (A : Type) : Type := State -> Result A * State.

#[global] Instance M_ret : MRet M := fun A a st => (Ok a, st).
#[global] Instance M_bind : MBind M := fun A B k m st =>
  match m st with
  | (Ok a, st') => k a st'
  | (Throw e, st') => (Throw e, st')
  end.

Notation "m1 ;;; m2" := (mbind (fun _ : unit => m2) m1)
  (at level 100, m2 at level 200, right associativity).

(** [try { body } catch (error) { handler }]. *)
Definition try_catch {A} (body : M A) (handler : Error -> M A) : M A :=
  fun st =>
    match body st with
    | (Ok a, st') => (Ok a, st')
    | (Throw e, st') => handler e st'
    end.

(** [try { body } finally { cleanup }]. *)
Definition try_finally {A} (body : M A) (cleanup : M unit) : M A :=
  fun st =>
    match body st with
    | (r, st') =>
        match cleanup st' with
        | (Ok _, st'') => (r, st'')
        | (Throw e, st'') => (Throw e, st'')
        end
    end.

(** [throw error]. *)
Definition throw {A} (e : Error) : M A := fun st => (Throw e, st).

Definition modify (f : State -> State) : M unit := fun st => (Ok tt, f st).

Definition console_log (label : string) (value : option string) : M unit :=
  modify (fun st => mkState (dirExists st) (files st) (trace st) (clockReads st)
    (console st ++ [ConsoleLog label value])%list (dialogs st) (isLoading st)
    (routerBack st)).

Definition console_error (label : string) (e : Error) : M unit :=
  modify (fun st => mkState (dirExists st) (files st) (trace st) (clockReads st)
    (console st ++ [ConsoleError label e])%list (dialogs st) (isLoading st)
    (routerBack st)).

Definition show (d : Dialog) : M unit :=
  modify (fun st => mkState (dirExists st) (files st) (trace st) (clockReads st)
    (console st) (dialogs st ++ [d])%list (isLoading st) (routerBack st)).

(** [alert(message)]. *)
Definition alert (message : string) : M unit := show (Plain message).

Definition setIsLoading (b : bool) : M unit :=
  modify (fun st => mkState (dirExists st) (files st) (trace st) (clockReads st)
    (console st) (dialogs st) b (routerBack st)).

(** [router.back()]. *)
Definition router_back : M unit :=
  modify (fun st => mkState (dirExists st) (files st) (trace st) (clockReads st)
    (console st) (dialogs st) (isLoading st) (S (routerBack st))).

Definition with_fs (d : bool) (fl : gmap string string) (st : State) : State :=
  mkState d fl (trace st) (clockReads st) (console st) (dialogs st)
    (isLoading st) (routerBack st).

Definition record_call (c : FsCall) (st : State) : State :=
  mkState (dirExists st) (files st) (trace st ++ [c])%list (clockReads st)
    (console st) (dialogs st) (isLoading st) (routerBack st).

Module FileSystem.
Section WithEnv.
Variable env : Env.

(** [DATA_DIRECTORY] and [FOODS_FILE_PATH]. *)
Definition DATA_DIRECTORY : string := documentDirectory env ++ "foods/".
Definition FOODS_FILE_PATH : string := DATA_DIRECTORY ++ "foods.json".

(** A file can be created only in a directory that exists; the one
    directory the application creates is [DATA_DIRECTORY]. *)
Definition parent_exists (st : State) (path : string) : bool :=
  if JS.startsWith DATA_DIRECTORY path then dirExists st else true.

(** A call is recorded, then fails if the environment makes it fail or if
    [run] has no result in the current state. *)
Definition call {A} (c : FsCall) (run : State -> option (A * State)) : M A :=
  fun st =>
    let st1 := record_call c st in
    if faulty env (List.length (trace st)) c then (Throw (FsError c), st1)
    else match run st1 with
         | Some (a, st2) => (Ok a, st2)
         | None => (Throw (FsError c), st1)
         end.

(** [(await getInfoAsync(path)).exists]. *)
Definition getInfoAsync (path : string) : M bool :=
  call (GetInfo path) (fun st =>
    Some (if String.eqb path DATA_DIRECTORY then dirExists st
          else bool_decide (is_Some (files st !! path)), st)).

(** [makeDirectoryAsync(path, { intermediates: true })]. *)
Definition makeDirectoryAsync (path : string) : M unit :=
  call (MakeDirectory path) (fun st =>
    Some (tt, if String.eqb path DATA_DIRECTORY
              then with_fs true (files st) st else st)).

Definition writeAsStringAsync (path content : string) : M unit :=
  call (WriteAsString path content) (fun st =>
    if parent_exists st path
    then Some (tt, with_fs (dirExists st) (<[path := content]> (files st)) st)
    else None).

Definition readAsStringAsync (path : string) : M string :=
  call (ReadAsString path) (fun st =>
    content ← files st !! path; Some (content, st)).

Definition copyAsync (from to : string) : M unit :=
  call (Copy from to) (fun st =>
    content ← files st !! from;
    if parent_exists st to
    then Some (tt, with_fs (dirExists st) (<[to := content]> (files st)) st)
    else None).

(** [Date.now()]: the next reading of the clock. *)
Definition Date_now : M N :=
  fun st => (Ok (clock env (clockReads st)),
             mkState (dirExists st) (files st) (trace st) (S (clockReads st))
               (console st) (dialogs st) (isLoading st) (routerBack st)).

(** [JSON.parse(content)]. *)
Definition JSON_parse (content : string) : M (list FoodData) :=
  match JSON.parse content with
  | Some foods => mret foods
  | None => throw SyntaxError
  end.

End WithEnv.
End FileSystem.

(** ** The form screen: [food-form.tsx] *)

Module FoodForm.

(** The [useState] cells of the form that a submission reads. *)
Module Form.
Record Fields := mkFields {
  foodName : string;
  calories : string;
  weight : string;
  protein : string;
  carbs : string;
  fat : string;
  fiber : string;
  imageUri : string;
  category : string
}.
End Form.

(** [initialData?.id]. *)
Definition initial_id (initialData : option FoodData) : option string :=
  initialData ≫= id.

(** Truthiness of [initialData?.id]: [undefined] and the empty string are
    falsy. *)
Definition has_id (initialData : option FoodData) : bool :=
  match initial_id initialData with
  | Some i => JS.truthy i
  | None => false
  end.

(** [food.id === wanted] where [wanted] is a string. *)
Definition id_is (wanted : string) (food : FoodData) : bool :=
  bool_decide (id food = Some wanted).

Section WithEnv.
Variable env : Env.

Abbreviation DATA_DIRECTORY := (FileSystem.DATA_DIRECTORY env).
Abbreviation FOODS_FILE_PATH := (FileSystem.FOODS_FILE_PATH env).

Definition ensureDirectoryExists : M unit :=
  dirInfo_exists ← FileSystem.getInfoAsync env DATA_DIRECTORY;
  if negb dirInfo_exists
  then FileSystem.makeDirectoryAsync env DATA_DIRECTORY
  else mret tt.

Definition loadFoods : M (list FoodData) :=
  try_catch
    (ensureDirectoryExists;;;
     fileInfo_exists ← FileSystem.getInfoAsync env FOODS_FILE_PATH;
     if negb fileInfo_exists then
       FileSystem.writeAsStringAsync env FOODS_FILE_PATH (JSON.stringify []);;;
       mret []
     else
       content ← FileSystem.readAsStringAsync env FOODS_FILE_PATH;
       FileSystem.JSON_parse content)
    (fun error =>
       console_error "Error loading foods:" error;;;
       mret []).

Definition saveFoods (foods : list FoodData) : M unit :=
  try_catch
    (ensureDirectoryExists;;;
     FileSystem.writeAsStringAsync env FOODS_FILE_PATH (JSON.stringify2 foods))
    (fun error =>
       console_error "Error saving foods:" error;;;
       throw error).

Definition validateForm (form : Form.Fields) : M bool :=
  if negb (JS.truthy (JS.trim (Form.foodName form))) then
    alert "請輸入食物名稱";;;
    mret false
  else if negb (JS.truthy (Form.weight form)) || JS.isNaN_Number (Form.weight form) then
    alert "請輸入有效的重量";;;
    mret false
  else mret true.

(** [initialData?.id || Date.now().toString()]: the clock is read only when
    there is no id to reuse. *)
Definition new_id (initialData : option FoodData) : M string :=
  match initial_id initialData with
  | Some i =>
      if JS.truthy i then mret i
      else now ← FileSystem.Date_now env; mret (JS.toString now)
  | None => now ← FileSystem.Date_now env; mret (JS.toString now)
  end.

(** The object literal [newFood]. *)
Definition build (newId : string) (form : Form.Fields) : FoodData :=
  {| id := Some newId;
     foodName := JS.trim (Form.foodName form);
     category := Form.category form;
     calories := JS.or_else (Form.calories form) "0";
     weight := JS.or_else (Form.weight form) "0";
     protein := JS.or_else (Form.protein form) "0";
     carbs := JS.or_else (Form.carbs form) "0";
     fat := JS.or_else (Form.fat form) "0";
     fiber := JS.or_else (Form.fiber form) "0";
     imageUri := Some (Form.imageUri form) |}.

(** [newFood.imageUri = newImagePath]. *)
Definition with_image (food : FoodData) (path : string) : FoodData :=
  mkFood (id food) (foodName food) (category food)
    (calories food) (weight food) (protein food)
    (carbs food) (fat food) (fiber food) (Some path).

(** The picked image is copied into the data directory. *)
Definition store_image (newFood : FoodData) (newId : string) (form : Form.Fields)
    : M FoodData :=
  if JS.truthy (Form.imageUri form) then
    now ← FileSystem.Date_now env;
    let fileName := newId ++ "_" ++ JS.toString now ++ ".jpg" in
    let newImagePath := DATA_DIRECTORY ++ fileName in
    FileSystem.copyAsync env (Form.imageUri form) newImagePath;;;
    mret (with_image newFood newImagePath)
  else mret newFood.

(** The update of [foods] between [loadFoods] and [saveFoods]. *)
Definition upsert (initialData : option FoodData) (newFood : FoodData)
    (foods : list FoodData) : list FoodData :=
  match initial_id initialData with
  | Some wanted =>
      if JS.truthy wanted then
        let index := JS.findIndex (id_is wanted) foods in
        if negb (index =? -1)%Z
        then <[Z.to_nat index := newFood]> foods
        else foods
      else (foods ++ [newFood])%list
  | None => (foods ++ [newFood])%list
  end.

Definition handleSubmit (initialData : option FoodData) (form : Form.Fields)
    : M unit :=
  valid ← validateForm form;
  if negb valid then mret tt
  else
    try_finally
      (try_catch
         (setIsLoading true;;;
          console_log "Submitting with ID:" (initial_id initialData);;;
          newId ← new_id initialData;
          newFood ← store_image (build newId form) newId form;
          foods ← loadFoods;
          saveFoods (upsert initialData newFood foods);;;
          alert "食物已成功儲存！";;;
          router_back)
         (fun error =>
            console_error "Error in handleSubmit:" error;;;
            alert "儲存失敗，請稍後再試"))
      (setIsLoading false).

(** The button of the confirmation dialog the user presses. *)
Inductive Choice := Cancel | Delete.

(** The [onPress] handler of the destructive button. The dialog that
    reports the deletion has one button, which calls [router.back()]; the
    user is taken to press it. *)
Definition confirmDelete (wanted : string) : M unit :=
  try_finally
    (try_catch
       (setIsLoading true;;;
        foods ← loadFoods;
        let updatedFoods := filter (fun food => id food ≠ Some wanted) foods in
        saveFoods updatedFoods;;;
        show (Titled "成功" "食物已成功刪除！");;;
        router_back)
       (fun error =>
          console_error "Error deleting food:" error;;;
          show (Titled "錯誤" "刪除失敗，請稍後再試")))
    (setIsLoading false).

Definition handleDelete (initialData : option FoodData) (choice : Choice)
    : M unit :=
  match initial_id initialData with
  | Some wanted =>
      if JS.truthy wanted then
        try_catch
          (show (Titled "確認刪除" "確定要刪除這個食物嗎？");;;
           match choice with
           | Cancel => mret tt
           | Delete => confirmDelete wanted
           end)
          (fun error =>
             console_error "Error in handleDelete:" error;;;
             show (Titled "錯誤" "操作失敗，請稍後再試"))
      else mret tt
  | None => mret tt
  end.

End WithEnv.

(** [FOOD_CATEGORIES], the values of the picker. *)
Definition FOOD_CATEGORIES : list string :=
  ["主食"; "肉蛋魚"; "果蔬"; "奶製品"; "豆製品"; "飲料"; "堅果"; "零食點心"].

(** The [useState] cells when the screen opens. *)
Definition initial_fields : Form.Fields :=
  Form.mkFields "" "" "" "" "" "" "" "" default_category.

(** The [useEffect] that runs once the screen is mounted: the cells take
    the members of [initialData], an absent or empty member giving the
    empty text and an absent or empty category the first one. *)
Definition populate (initialData : option FoodData) : Form.Fields :=
  match initialData with
  | Some data =>
      Form.mkFields
        (JS.or_else (foodName data) "")
        (JS.or_else (calories data) "")
        (JS.or_else (weight data) "")
        (JS.or_else (protein data) "")
        (JS.or_else (carbs data) "")
        (JS.or_else (fat data) "")
        (JS.or_else (fiber data) "")
        (match imageUri data with Some uri => JS.or_else uri "" | None => "" end)
        (JS.or_else (category data) default_category)
  | None => initial_fields
  end.

(** What [launchImageLibraryAsync] resolves to: cancelled, or the uri of
    the first asset. *)
Inductive ImagePickerResult :=
  | Canceled
  | Picked (uri : string).

(** [pickImage]: [setImageUri] is called unless the picker was cancelled. *)
Definition pickImage (result : ImagePickerResult) (form : Form.Fields)
    : Form.Fields :=
  match result with
  | Canceled => form
  | Picked uri =>
      Form.mkFields (Form.foodName form) (Form.calories form)
        (Form.weight form) (Form.protein form) (Form.carbs form)
        (Form.fat form) (Form.fiber form) uri (Form.category form)
  end.

End FoodForm.

(** ** The list screen: [CategoryScreen] *)

Module CategoryScreen.
Section WithEnv.
Variable env : Env.

(** The list screen has a reader of its own: no directory check, nothing
    written. *)
Definition loadFoods : M (list FoodData) :=
  let DATA_DIRECTORY := documentDirectory env ++ "foods/" in
  let FOODS_FILE_PATH := DATA_DIRECTORY ++ "foods.json" in
  try_catch
    (fileInfo_exists ← FileSystem.getInfoAsync env FOODS_FILE_PATH;
     if negb fileInfo_exists then mret []
     else
       content ← FileSystem.readAsStringAsync env FOODS_FILE_PATH;
       FileSystem.JSON_parse content)
    (fun error =>
       console_error "Error loading foods:" error;;;
       mret []).

(** [filteredFoods]: the records shown for the text in the search box. *)
Definition filteredFoods (foods : list FoodData) (searchQuery : string)
    : list FoodData :=
  filter (fun food =>
            JS.includes (toLowerCase env (foodName food))
              (toLowerCase env searchQuery) = true) foods.

(** [deleteFood(id)]; the result is the new value of the [foods] state when
    [setFoods] is reached. *)
Definition deleteFood (wanted : string) : M (option (list FoodData)) :=
  try_catch
    (currentFoods ← loadFoods;
     let updatedFoods :=
       filter (fun food => id food ≠ Some wanted) currentFoods in
     FileSystem.writeAsStringAsync env
       (documentDirectory env ++ "foods/foods.json")
       (JSON.stringify updatedFoods);;;
     mret (Some updatedFoods))
    (fun error =>
       console_error "Error deleting food:" error;;;
       alert "刪除失敗，請稍後再試";;;
       mret None).

End WithEnv.

(** The object literal [colors] of [getCategoryColor]. *)
Definition colors : gmap string string :=
  list_to_map
    [("主食", "#FF9800"); ("肉蛋魚", "#F44336"); ("果蔬", "#4CAF50");
     ("奶製品", "#2196F3"); ("豆製品", "#9C27B0"); ("飲料", "#00BCD4");
     ("堅果", "#795548"); ("零食點心", "#FF4081")].

(** The names every object literal inherits from [Object.prototype]: read
    through [colors[name]] they give a function or an object, not
    [undefined]. *)
Definition Object_prototype : list string :=
  ["constructor"; "__defineGetter__"; "__defineSetter__"; "hasOwnProperty";
   "__lookupGetter__"; "__lookupSetter__"; "isPrototypeOf";
   "propertyIsEnumerable"; "toString"; "valueOf"; "__proto__";
   "toLocaleString"].

(** What [getCategoryColor] returns: a colour, or the inherited member of
    that name. *)
Inductive Looked :=
  | Color (hex : string)
  | Inherited (name : string).

(** [colors[category] || '#757575']. *)
Definition getCategoryColor (category : string) : Looked :=
  match colors !! category with
  | Some hex => Color (JS.or_else hex "#757575")
  | None =>
      if bool_decide (category ∈ Object_prototype) then Inherited category
      else Color "#757575"
  end.

End CategoryScreen.

(** ** Vocabulary of the properties *)

(** No call of the file system is made to fail by the environment. *)
Definition fault_free (env : Env) : Prop :=
  forall (n : nat) (c : FsCall), faulty env n c = false.

(** The collection the document holds; no document stands for the empty
    collection, a document that is no array of [FoodData] for none. *)
Definition persisted (env : Env) (st : State) : option (list FoodData) :=
  match files st !! FileSystem.FOODS_FILE_PATH env with
  | Some doc => JSON.parse doc
  | None => Some []
  end.

(** Nothing is stored in a directory that does not exist. *)
Definition consistent (env : Env) (st : State) : Prop :=
  dirExists st = false ->
  forall path : string,
    JS.startsWith (FileSystem.DATA_DIRECTORY env) path = true ->
    files st !! path = None.

(** The screen is as it was: console, dialogs, busy flag, navigation. *)
Definition same_screen (st st' : State) : Prop :=
  console st' = console st /\ dialogs st' = dialogs st
  /\ isLoading st' = isLoading st /\ routerBack st' = routerBack st.

(** The picked image, if there is one, can be copied: its file is there and
    so is the data directory. *)
Definition image_ready (env : Env) (st : State) (form : FoodForm.Form.Fields)
    : bool :=
  negb (JS.truthy (FoodForm.Form.imageUri form))
  || (dirExists st
      && bool_decide (is_Some (files st !! FoodForm.Form.imageUri form))).

(** The id of the record a submission writes. *)
Definition submitted_id (env : Env) (st : State)
    (initialData : option FoodData) : string :=
  match FoodForm.initial_id initialData with
  | Some i => if JS.truthy i then i else JS.toString (clock env (clockReads st))
  | None => JS.toString (clock env (clockReads st))
  end.

(** The record a submission writes: [newFood] when [saveFoods] is called. *)
Definition submitted (env : Env) (st : State) (initialData : option FoodData)
    (form : FoodForm.Form.Fields) : FoodData :=
  let newId := submitted_id env st initialData in
  let reads := if FoodForm.has_id initialData then clockReads st
               else S (clockReads st) in
  let newFood := FoodForm.build newId form in
  if JS.truthy (FoodForm.Form.imageUri form) then
    FoodForm.with_image newFood
      (FileSystem.DATA_DIRECTORY env
       ++ (newId ++ "_" ++ JS.toString (clock env reads) ++ ".jpg"))
  else newFood.

(** The file the picked image of a submission is copied to: in the data
    directory, named by the id of the record and the reading of the clock
    that follows the minting of the id. *)
Definition image_copy (env : Env) (st : State) (initialData : option FoodData)
    : string :=
  let reads := if FoodForm.has_id initialData then clockReads st
               else S (clockReads st) in
  FileSystem.DATA_DIRECTORY env
  ++ (submitted_id env st initialData ++ "_"
      ++ JS.toString (clock env reads) ++ ".jpg").

(** The record bears what the form holds: the name trimmed, the category,
    and each numeric field as typed, [0] standing for one left empty. *)
Definition written_from (form : FoodForm.Form.Fields) (food : FoodData) : Prop :=
  foodName food = JS.trim (FoodForm.Form.foodName form)
  /\ category food = FoodForm.Form.category form
  /\ calories food = JS.or_else (FoodForm.Form.calories form) "0"
  /\ weight food = JS.or_else (FoodForm.Form.weight form) "0"
  /\ protein food = JS.or_else (FoodForm.Form.protein form) "0"
  /\ carbs food = JS.or_else (FoodForm.Form.carbs form) "0"
  /\ fat food = JS.or_else (FoodForm.Form.fat form) "0"
  /\ fiber food = JS.or_else (FoodForm.Form.fiber form) "0".

(** The ids of a collection, in order. *)
Definition ids (foods : list FoodData) : list (option string) := id <$> foods.

(** The collection after the records with id [wanted] are taken out. *)
Definition without (wanted : string) (foods : list FoodData) : list FoodData :=
  filter (fun food => id food <> Some wanted) foods.

(** How many records bear the id [wanted]. *)
Definition occurrences (wanted : string) (foods : list FoodData) : nat :=
  List.length (filter (fun food => id food = Some wanted) foods).

(** The form passes [validateForm]: a name is left after trimming, a weight
    is given and it reads as a number. *)
Definition valid_input (form : FoodForm.Form.Fields) : bool :=
  JS.truthy (JS.trim (FoodForm.Form.foodName form))
  && JS.truthy (FoodForm.Form.weight form)
  && negb (JS.isNaN_Number (FoodForm.Form.weight form)).


(** The calls made from [st] to [st'] that the environment made fail show
    in [r]: a computation that reports the failures of the file system. *)
Definition reports_faults (env : Env) {A : Type} (st : State)
    (r : Result A) (st' : State) : Prop :=
  exists calls : list FsCall,
    trace st' = (trace st ++ calls)%list
    /\ forall (k : nat) (c : FsCall),
         calls !! k = Some c ->
         faulty env (List.length (trace st) + k) c = true ->
         r = Throw (FsError c).

(** A computation that leaves console and dialogs alone and reports the
    failed calls. *)
Definition fs_only (env : Env) {A : Type} (m : M A) : Prop :=
  forall (st : State) (r : Result A) (st' : State),
    m st = (r, st') ->
    console st' = console st /\ dialogs st' = dialogs st
    /\ reports_faults env st r st'.

(** A record as the form writes it: a non-empty id, a non-empty trimmed
    name, a category, a weight that reads as a number, no numeric member
    left empty, an image member. *)
Definition kept (food : FoodData) : Prop :=
  (exists i : string, id food = Some i /\ i <> "")
  /\ foodName food <> "" /\ JS.trim (foodName food) = foodName food
  /\ category food <> ""
  /\ weight food <> "" /\ JS.isNaN_Number (weight food) = false
  /\ calories food <> "" /\ protein food <> "" /\ carbs food <> ""
  /\ fat food <> "" /\ fiber food <> ""
  /\ is_Some (imageUri food).

(** A computation that shows no dialog and does not navigate. *)
Definition quiet {A : Type} (m : M A) : Prop :=
  forall (st : State) (r : Result A) (st' : State),
    m st = (r, st') ->
    dialogs st' = dialogs st /\ routerBack st' = routerBack st.

(** A computation that either succeeds, showing [done] and navigating back
    once, or throws, having shown nothing and navigated nowhere. *)
Definition reports (done : Dialog) (m : M unit) : Prop :=
  forall (st : State) (r : Result unit) (st' : State),
    m st = (r, st') ->
    (r = Ok tt /\ dialogs st' = (dialogs st ++ [done])%list
     /\ routerBack st' = S (routerBack st))
    \/ (exists e : Error, r = Throw e /\ dialogs st' = dialogs st
                          /\ routerBack st' = routerBack st).

(** A computation that leaves every file as it is. *)
Definition keeps_files {A : Type} (m : M A) : Prop :=
  forall (st : State) (r : Result A) (st' : State),
    m st = (r, st') -> files st' = files st.

(** Of the calls of the file system, only reads and copies may fail. *)
Definition writes_reliable (env : Env) : Prop :=
  forall (n : nat) (c : FsCall),
    faulty env n c = true ->
    (exists path : string, c = ReadAsString path)
    \/ (exists from to : string, c = Copy from to).

(** The texts of the dialogs that report a failed submission and the
    steps of a deletion. *)
Definition failed_message : string := "儲存失敗，請稍後再試".
Definition confirm_dialog : Dialog := Titled "確認刪除" "確定要刪除這個食物嗎？".
Definition deleted_dialog : Dialog := Titled "成功" "食物已成功刪除！".
Definition delete_failed_dialog : Dialog := Titled "錯誤" "刪除失敗，請稍後再試".

(** ** Sample data *)

Module Sample.

(** The lower-casing of the sample environments, on the letters the samples
    are written with: the capitals of ASCII, of Latin-1 (U+00C0 to U+00DE)
    and of Greek (U+0391 to U+03A9). A capital sigma that follows a letter
    and is followed by none becomes the final sigma (the Final_Sigma rule of
    Unicode). *)
Definition ascii_letter (x : nat) : bool :=
  (65 <=? x)%nat && (x <=? 90)%nat || (97 <=? x)%nat && (x <=? 122)%nat.

Definition starts_with_letter (s : string) : bool :=
  match s with
  | String a r =>
      let x := nat_of_ascii a in
      if (x <? 128)%nat then ascii_letter x
      else
        match r with
        | String b _ =>
            let y := nat_of_ascii b in
            if (x =? 195)%nat then negb (y =? 151)%nat && negb (y =? 183)%nat
            else if (x =? 206)%nat then
              (145 <=? y)%nat && (y <=? 169)%nat && negb (y =? 162)%nat
              || (177 <=? y)%nat
            else if (x =? 207)%nat then (y <=? 137)%nat
            else false
        | "" => false
        end
  | "" => false
  end.

Fixpoint lower_from (after_letter : bool) (s : string) : string :=
  match s with
  | String a r =>
      let x := nat_of_ascii a in
      if (x <? 128)%nat then
        String (if (65 <=? x)%nat && (x <=? 90)%nat
                then ascii_of_nat (x + 32) else a)
          (lower_from (ascii_letter x) r)
      else
        match r with
        | String b r' =>
            let y := nat_of_ascii b in
            if (x =? 195)%nat && (y <=? 158)%nat && negb (y =? 151)%nat then
              String a (String (ascii_of_nat (y + 32)) (lower_from true r'))
            else if (x =? 206)%nat && (y =? 163)%nat then
              String (ascii_of_nat 207)
                (String (if after_letter && negb (starts_with_letter r')
                         then ascii_of_nat 130 else ascii_of_nat 131)
                   (lower_from true r'))
            else if (x =? 206)%nat && (145 <=? y)%nat && (y <=? 159)%nat then
              String a (String (ascii_of_nat (y + 32)) (lower_from true r'))
            else if (x =? 206)%nat && (160 <=? y)%nat && (y <=? 169)%nat
                    && negb (y =? 162)%nat then
              String (ascii_of_nat 207)
                (String (ascii_of_nat (y - 32)) (lower_from true r'))
            else if starts_with_letter s then
              String a (String b (lower_from true r'))
            else String a (lower_from false r)
        | "" => String a ""
        end
  | "" => ""
  end.

Definition lower (s : string) : string := lower_from false s.

Definition env : Env :=
  mkEnv "file:///data/" (fun _ _ => false) (fun n => (1000 + N.of_nat n)%N)
    lower.

(** The environment in which every read of a file fails. *)
Definition env_unreadable : Env :=
  mkEnv "file:///data/"
    (fun _ c => match c with ReadAsString _ => true | _ => false end)
    (fun n => (1000 + N.of_nat n)%N) lower.

(** The environment in which every write of a file fails. *)
Definition env_unwritable : Env :=
  mkEnv "file:///data/"
    (fun _ c => match c with WriteAsString _ _ => true | _ => false end)
    (fun n => (1000 + N.of_nat n)%N) lower.

(** The environment in which reads and writes of files fail. *)
Definition env_broken : Env :=
  mkEnv "file:///data/"
    (fun _ c =>
       match c with
       | ReadAsString _ | WriteAsString _ _ => true
       | _ => false
       end)
    (fun n => (1000 + N.of_nat n)%N) lower.

(** A fresh installation: no directory, no document. *)
Definition fresh : State := mkState false ∅ [] 0 [] [] false 0.

(** The data directory holding the document of [foods]. *)
Definition holding (foods : list FoodData) : State :=
  mkState true {[ FileSystem.FOODS_FILE_PATH env := JSON.stringify2 foods ]}
    [] 0 [] [] false 0.

Definition food (i name : string) : FoodData :=
  mkFood (Some i) name default_category "0" "100" "0" "0" "0" "0" (Some "").

Definition apple_pie : FoodData := food "1000" "Apple Pie".
Definition banana : FoodData := food "999" "banana".
Definition cherry : FoodData := food "998" "Cherry".

(** White space outside ASCII: the no-break space U+00A0 and the
    ideographic space U+3000. *)
Definition nbsp : string := String (ascii_of_nat 194) (String (ascii_of_nat 160) "").
Definition wide_space : string :=
  String (ascii_of_nat 227) (String (ascii_of_nat 128) (String (ascii_of_nat 128) "")).

Definition form (name weight : string) : FoodForm.Form.Fields :=
  FoodForm.Form.mkFields name "" weight "" "" "" "" "" default_category.

(** A picked photo in the cache of the picker, beside the document. *)
Definition photo : string := "file:///cache/photo.jpg".

Definition holding_photo (foods : list FoodData) : State :=
  mkState true
    (<[ photo := "JPEG" ]>
       {[ FileSystem.FOODS_FILE_PATH env := JSON.stringify2 foods ]})
    [] 0 [] [] false 0.

(** A fresh installation after a photo was picked: the photo is in the
    cache of the picker, the data directory is not there yet. *)
Definition fresh_photo : State :=
  mkState false {[ photo := "JPEG" ]} [] 0 [] [] false 0.

(** A form whose image is a file that is no longer there. *)
Definition form_lost_image (name weight : string) : FoodForm.Form.Fields :=
  FoodForm.pickImage (FoodForm.Picked "file:///cache/gone.jpg")
    (form name weight).

(** A stored record whose image file is no longer there, and the form
    opened on it after the name was typed anew. *)
Definition stale_pie : FoodData :=
  mkFood (Some "1000") "Apple Pie" default_category "0" "100" "0" "0" "0" "0"
    (Some "file:///gone/foods/1000_1.jpg").

Definition retitled (name : string) (form : FoodForm.Form.Fields)
    : FoodForm.Form.Fields :=
  FoodForm.Form.mkFields name (FoodForm.Form.calories form)
    (FoodForm.Form.weight form) (FoodForm.Form.protein form)
    (FoodForm.Form.carbs form) (FoodForm.Form.fat form)
    (FoodForm.Form.fiber form) (FoodForm.Form.imageUri form)
    (FoodForm.Form.category form).

End Sample.

(** The text of the dialog that reports a saved record. *)
Definition saved_message : string := "食物已成功儲存！".

(** * Properties *)

(** ** Facts on strings *)

Lemma append_assoc (a b c : string) : (a ++ b) ++ c = a ++ (b ++ c).
Proof. induction a as [|x a IH]; [reflexivity | simpl; f_equal; exact IH]. Qed.

Lemma append_nil_r (a : string) : a ++ "" = a.
Proof. induction a as [|x a IH]; [reflexivity | simpl; f_equal; exact IH]. Qed.

Lemma length_append (a b : string) :
  String.length (a ++ b) = (String.length a + String.length b)%nat.
Proof. induction a as [|x a IH]; [reflexivity | simpl; f_equal; exact IH]. Qed.

Ltac reduce := cbn [mbind option_bind].

Module JSONFacts.
Import JSON.

(** Reading back one quoted character. *)
Lemma parse_chars_quote_char (c : ascii) (tail : string) :
  parse_chars (quote_char c ++ tail) =
  match parse_chars tail with
  | Some (t, rest) => Some (String c t, rest)
  | None => None
  end.
Proof.
  destruct c as [[] [] [] [] [] [] [] []]; simpl; destruct (parse_chars tail) as [[t rest]|]; reflexivity.
Qed.

Lemma parse_chars_quote_chars (s rest : string) :
  parse_chars (quote_chars s ++ String dquote rest) = Some (s, rest).
Proof.
  induction s as [|c s IH]; simpl.
  - reflexivity.
  - rewrite append_assoc, parse_chars_quote_char, IH. reflexivity.
Qed.

Lemma parse_string_quote (s rest : string) :
  parse_string (quote s ++ rest) = Some (s, rest).
Proof.
  unfold quote. cbn. rewrite append_assoc. apply parse_chars_quote_chars.
Qed.


Lemma skip_ws_append (w s : string) : ws_only w -> skip_ws (w ++ s) = skip_ws s.
Proof.
  unfold ws_only. induction w as [|c w IH]; simpl; [reflexivity |].
  intros [Hc Hw]%andb_prop. rewrite Hc. auto.
Qed.

Lemma skip_ws_quote (s t : string) : skip_ws (quote s ++ t) = quote s ++ t.
Proof. reflexivity. Qed.

Lemma ws_only_append (a b : string) : ws_only a -> ws_only b -> ws_only (a ++ b).
Proof.
  unfold ws_only. induction a as [|c a IH]; simpl; [auto |].
  intros [Hc Ha]%andb_prop Hb. rewrite Hc. simpl. auto.
Qed.

Lemma bracket_cons (o c gap indent x : string) (r : list string) :
  bracket o c gap indent (x :: r) =
  o ++ pad gap indent ++ join ("," ++ pad gap indent) (x :: r)
    ++ pad_end gap indent ++ c.
Proof.
  unfold bracket, pad, pad_end. destruct (JS.truthy gap).
  - now rewrite !append_assoc.
  - reflexivity.
Qed.

Lemma ws_only_pad gap indent : ws_only gap -> ws_only indent -> ws_only (pad gap indent).
Proof.
  intros Hg Hi. unfold pad. destruct (JS.truthy gap); [|reflexivity].
  apply ws_only_append; [reflexivity |]. now apply ws_only_append.
Qed.

Lemma ws_only_pad_end gap indent : ws_only indent -> ws_only (pad_end gap indent).
Proof.
  intros Hi. unfold pad_end. destruct (JS.truthy gap); [|reflexivity].
  now apply ws_only_append.
Qed.

Lemma join_cons2 (sep x y : string) (r : list string) :
  join sep (x :: y :: r) = x ++ sep ++ join sep (y :: r).
Proof. reflexivity. Qed.

Section Members.
Variables (gap p pe : string).
Hypothesis Hp : ws_only p.
Hypothesis Hpe : ws_only pe.

Lemma parse_members_S (fuel : nat) (s : string) :
  parse_members (S fuel) s =
  '(k, s1) ← parse_string s;
  match skip_ws s1 with
  | String ":" s2 =>
      '(v, s3) ← parse_string (skip_ws s2);
      match skip_ws s3 with
      | String "," s4 =>
          '(ms, rest) ← parse_members fuel (skip_ws s4);
          Some ((k, v) :: ms, rest)
      | String "}" rest => Some ([(k, v)], rest)
      | _ => None
      end
  | _ => None
  end.
Proof. reflexivity. Qed.

Lemma print_member_eq (k v : string) :
  print_member gap (k, v) = quote k ++ colon gap ++ quote v.
Proof. reflexivity. Qed.

Lemma skip_ws_colon (t : string) : skip_ws (colon gap ++ t) = String ":" (sp gap ++ t).
Proof. unfold colon, sp. destruct (JS.truthy gap); reflexivity. Qed.

Lemma skip_ws_sp (v t : string) : skip_ws (sp gap ++ quote v ++ t) = quote v ++ t.
Proof. unfold sp. destruct (JS.truthy gap); reflexivity. Qed.

#[local] Arguments quote : simpl never.
#[local] Arguments skip_ws : simpl never.
#[local] Arguments parse_string : simpl never.
#[local] Arguments parse_members : simpl never.
#[local] Arguments print_member : simpl never.

Lemma skip_ws_join_members (m : string * string) (items : list string)
    (sep tail : string) :
  skip_ws (join sep (print_member gap m :: items) ++ tail)
  = join sep (print_member gap m :: items) ++ tail.
Proof.
  destruct m as [k v].
  destruct items; cbn [join]; now rewrite print_member_eq, !append_assoc.
Qed.

Lemma parse_members_join (ms : members) (m : string * string) (fuel : nat)
    (rest : string) :
  (List.length ms < fuel)%nat ->
  parse_members fuel
    (join ("," ++ p) (map (print_member gap) (m :: ms)) ++ pe ++ String "}" rest)
  = Some (m :: ms, rest).
Proof.
  revert m fuel. induction ms as [|m' ms IH]; intros [k v] fuel Hfuel;
    (destruct fuel as [|fuel]; [simpl in Hfuel; lia |]);
    rewrite parse_members_S.
  - cbn [map join].
    rewrite print_member_eq, !append_assoc, parse_string_quote. reduce.
    rewrite skip_ws_colon. reduce.
    rewrite skip_ws_sp, parse_string_quote. reduce.
    rewrite skip_ws_append by assumption. reflexivity.
  - cbn [map] in IH |- *. rewrite join_cons2.
    rewrite print_member_eq, !append_assoc, parse_string_quote. reduce.
    rewrite skip_ws_colon. reduce.
    rewrite skip_ws_sp, parse_string_quote. reduce.
    change (skip_ws ("," ++ ?t)) with (String "," t). reduce.
    rewrite skip_ws_append by assumption.
    rewrite skip_ws_join_members, IH by (simpl in Hfuel; lia).
    reflexivity.
Qed.

End Members.

Lemma length_join_comma (p x : string) (r : list string) :
  (List.length r <= String.length (join ("," ++ p) (x :: r)))%nat.
Proof.
  revert x. induction r as [|y r IH]; intros x; [simpl; lia |].
  rewrite join_cons2, !length_append. specialize (IH y).
  simpl List.length. simpl (String.length ","). lia.
Qed.

Section Layout.
Variable gap : string.
Hypothesis Hgap : ws_only gap.

#[local] Arguments skip_ws : simpl never.
#[local] Arguments parse_members : simpl never.
#[local] Arguments print_member : simpl never.

Lemma parse_object_members (fuel : nat) (r t : string) :
  skip_ws r = String dquote t ->
  parse_object fuel (String "{" r) = parse_members fuel (String dquote t).
Proof. intros H. unfold parse_object. now rewrite H. Qed.

Lemma parse_object_print (indent : string) (o : members) (fuel : nat)
    (rest : string) :
  ws_only indent ->
  (List.length o <= fuel)%nat ->
  parse_object fuel (print_object gap indent o ++ rest) = Some (o, rest).
Proof.
  intros Hi Hfuel. unfold print_object. destruct o as [|[k v] ms].
  - reflexivity.
  - change (map (print_member gap) ((k, v) :: ms))
      with (print_member gap (k, v) :: map (print_member gap) ms).
    rewrite bracket_cons, !append_assoc.
    change ("{" ++ ?t) with (String "{" t).
    assert (Hq : exists t, join ("," ++ pad gap indent)
               (print_member gap (k, v) :: map (print_member gap) ms)
               ++ pad_end gap indent ++ "}" ++ rest = String dquote t).
    { destruct (map (print_member gap) ms); cbn [join]; eexists;
        rewrite print_member_eq, !append_assoc; reflexivity. }
    destruct Hq as [t Ht].
    rewrite (parse_object_members _ _ t)
      by (rewrite skip_ws_append by (now apply ws_only_pad);
          now rewrite skip_ws_join_members).
    rewrite <- Ht.
    apply (parse_members_join gap _ _ (ws_only_pad _ _ Hgap Hi)
             (ws_only_pad_end _ _ Hi)).
    simpl in Hfuel. lia.
Qed.

Lemma length_print_object (indent : string) (o : members) :
  (List.length o <= String.length (print_object gap indent o))%nat.
Proof.
  unfold print_object. destruct o as [|m ms]; [simpl; lia |].
  change (map (print_member gap) (m :: ms))
    with (print_member gap m :: map (print_member gap) ms).
  rewrite bracket_cons, !length_append.
  pose proof (length_join_comma (pad gap indent) (print_member gap m)
                (map (print_member gap) ms)) as H.
  rewrite length_map in H. simpl in *. lia.
Qed.

Lemma decode_encode (f : FoodData) : decode (encode f) = Some f.
Proof. destruct f as [[i|] n ca cal w p cb fa fi [u|]]; reflexivity. Qed.

Lemma print_object_head (indent : string) (o : members) :
  exists t, print_object gap indent o = String "{" t.
Proof.
  unfold print_object, bracket.
  destruct (map (print_member gap) o); [| destruct (JS.truthy gap)];
    eexists; reflexivity.
Qed.

Lemma join_objects_head (sep indent tail : string) (o : members)
    (items : list string) :
  exists t, join sep (print_object gap indent o :: items) ++ tail = String "{" t.
Proof.
  destruct (print_object_head indent o) as [t Ht].
  destruct items; cbn [join]; rewrite Ht; eexists; reflexivity.
Qed.

Lemma parse_elements_S (fuel : nat) (s : string) :
  parse_elements (S fuel) s =
  '(o, s1) ← parse_object (String.length s) s;
  f ← decode o;
  match skip_ws s1 with
  | String "," s2 =>
      '(fs, rest) ← parse_elements fuel (skip_ws s2);
      Some (f :: fs, rest)
  | String "]" rest => Some ([f], rest)
  | _ => None
  end.
Proof. reflexivity. Qed.

#[local] Arguments parse_object : simpl never.
#[local] Arguments parse_elements : simpl never.
#[local] Arguments print_object : simpl never.
#[local] Arguments decode : simpl never.
#[local] Arguments encode : simpl never.

Lemma parse_elements_join (p pe : string) (fs : list FoodData) (f : FoodData)
    (fuel : nat) (rest : string) :
  ws_only p -> ws_only pe ->
  (List.length fs < fuel)%nat ->
  parse_elements fuel
    (join ("," ++ p) (map (fun x => print_object gap gap (encode x)) (f :: fs))
       ++ pe ++ String "]" rest)
  = Some (f :: fs, rest).
Proof.
  intros Hp Hpe. revert f fuel.
  induction fs as [|f' fs IH]; intros f fuel Hfuel;
    (destruct fuel as [|fuel]; [simpl in Hfuel; lia |]);
    rewrite parse_elements_S.
  - cbn [map join]. rewrite parse_object_print; [| assumption |].
    + reduce. rewrite decode_encode. reduce.
      rewrite skip_ws_append by assumption. reflexivity.
    + rewrite length_append.
      pose proof (length_print_object gap (encode f)). lia.
  - cbn [map] in IH |- *. rewrite join_cons2, !append_assoc.
    rewrite parse_object_print; [| assumption |].
    + reduce. rewrite decode_encode. reduce.
      change (skip_ws ("," ++ ?t)) with (String "," t). reduce.
      rewrite skip_ws_append by assumption.
      destruct (join_objects_head ("," ++ p) gap (pe ++ String "]" rest)
                  (encode f')
                  (map (fun x => print_object gap gap (encode x)) fs))
        as [t Ht].
      assert (Hs : skip_ws (String "{" t) = String "{" t) by reflexivity.
      rewrite Ht, Hs, <- Ht.
      rewrite IH by (simpl in Hfuel; lia). reflexivity.
    + rewrite length_append.
      pose proof (length_print_object gap (encode f)). lia.
Qed.

Lemma parse_array_elements (doc r t : string) :
  skip_ws doc = String "[" r ->
  skip_ws r = String "{" t ->
  parse doc =
  '(l, rest) ← parse_elements (String.length doc) (String "{" t);
  if String.eqb (skip_ws rest) "" then Some l else None.
Proof. intros H1 H2. unfold parse. now rewrite H1, H2. Qed.

(** Reading back what [JSON.stringify] wrote. *)
Lemma parse_stringify_gap (foods : list FoodData) :
  parse (stringify_gap gap foods) = Some foods.
Proof.
  unfold stringify_gap, print_array. destruct foods as [|f fs]; [reflexivity |].
  rewrite map_map.
  change (map (fun x => print_object gap gap (encode x)) (f :: fs))
    with (print_object gap gap (encode f)
            :: map (fun x => print_object gap gap (encode x)) fs).
  rewrite bracket_cons.
  set (items := print_object gap gap (encode f)
                  :: map (fun x => print_object gap gap (encode x)) fs).
  set (p := pad gap "").
  assert (Hp : ws_only p) by (apply ws_only_pad; [assumption | reflexivity]).
  assert (Hpe : ws_only (pad_end gap ""))
    by (apply ws_only_pad_end; reflexivity).
  destruct (join_objects_head ("," ++ p) gap (pad_end gap "" ++ "]")
              (encode f) (map (fun x => print_object gap gap (encode x)) fs))
    as [t Ht]. fold items in Ht.
  rewrite (parse_array_elements _ (p ++ join ("," ++ p) items
                                     ++ pad_end gap "" ++ "]") t).
  - rewrite <- Ht.
    change (pad_end gap "" ++ "]") with (pad_end gap "" ++ String "]" "").
    set (fuel := String.length _).
    assert (Hfuel : (List.length fs < fuel)%nat).
    { subst fuel. rewrite !length_append.
      pose proof (length_join_comma p (print_object gap gap (encode f))
                    (map (fun x => print_object gap gap (encode x)) fs)) as H.
      rewrite length_map in H. fold items in H. change (String.length "[") with 1%nat. lia. }
    pose proof (parse_elements_join p (pad_end gap "") fs f fuel "" Hp Hpe
                  Hfuel) as E.
    cbn [map] in E. fold items in E. rewrite E. reflexivity.
  - reflexivity.
  - rewrite skip_ws_append by assumption. rewrite Ht. reflexivity.
Qed.

End Layout.

Lemma parse_stringify (foods : list FoodData) :
  parse (stringify foods) = Some foods.
Proof. now apply parse_stringify_gap. Qed.

Lemma parse_stringify2 (foods : list FoodData) :
  parse (stringify2 foods) = Some foods.
Proof. now apply parse_stringify_gap. Qed.

End JSONFacts.

(** ** Running the monad *)

Lemma bind_ok {A B} (m : M A) (k : A -> M B) (st st' : State) (a : A) :
  m st = (Ok a, st') -> (m ≫= k) st = k a st'.
Proof. intros H. unfold mbind, M_bind. now rewrite H. Qed.

Lemma bind_throw {A B} (m : M A) (k : A -> M B) (st st' : State) (e : Error) :
  m st = (Throw e, st') -> (m ≫= k) st = (Throw e, st').
Proof. intros H. unfold mbind, M_bind. now rewrite H. Qed.

Lemma try_catch_ok {A} (body : M A) (h : Error -> M A) (st st' : State) (a : A) :
  body st = (Ok a, st') -> try_catch body h st = (Ok a, st').
Proof. intros H. unfold try_catch. now rewrite H. Qed.

Lemma try_catch_throw {A} (body : M A) (h : Error -> M A) (st st' : State)
    (e : Error) :
  body st = (Throw e, st') -> try_catch body h st = h e st'.
Proof. intros H. unfold try_catch. now rewrite H. Qed.

Lemma try_finally_ok {A} (body : M A) (cleanup : M unit) (st st' st'' : State)
    (r : Result A) :
  body st = (r, st') -> cleanup st' = (Ok tt, st'') ->
  try_finally body cleanup st = (r, st'').
Proof. intros H1 H2. unfold try_finally. now rewrite H1, H2. Qed.

(** ** Paths *)

Lemma append_eq_self (a b : string) : a ++ b = a -> b = "".
Proof.
  induction a as [|c a IH]; simpl; [auto |]. intros H. injection H as H. auto.
Qed.

Lemma startsWith_refl (a : string) : JS.startsWith a a = true.
Proof. induction a as [|c a IH]; simpl; [reflexivity |]. now rewrite Ascii.eqb_refl. Qed.

Lemma startsWith_append (a b : string) : JS.startsWith a (a ++ b) = true.
Proof.
  induction a as [|c a IH]; simpl; [reflexivity |]. now rewrite Ascii.eqb_refl.
Qed.


Section Paths.
Variable env : Env.
Abbreviation DATA_DIRECTORY := (FileSystem.DATA_DIRECTORY env).
Abbreviation FOODS_FILE_PATH := (FileSystem.FOODS_FILE_PATH env).

Lemma doc_is_not_dir : String.eqb FOODS_FILE_PATH DATA_DIRECTORY = false.
Proof.
  apply String.eqb_neq. intros H. apply append_eq_self in H. discriminate.
Qed.

(** The path [deleteFood] spells out is [FOODS_FILE_PATH]. *)
Lemma literal_path : documentDirectory env ++ "foods/foods.json" = FOODS_FILE_PATH.
Proof.
  unfold FileSystem.FOODS_FILE_PATH, FileSystem.DATA_DIRECTORY.
  now rewrite append_assoc.
Qed.

Lemma doc_in_dir : JS.startsWith DATA_DIRECTORY FOODS_FILE_PATH = true.
Proof. apply startsWith_append. Qed.

Lemma jpg_is_not_doc (x : string) : x ++ ".jpg" <> "foods.json".
Proof.
  intros H.
  do 10 (destruct x as [|? x]; [discriminate H | injection H as _ H]).
  destruct x; discriminate H.
Qed.

Lemma image_is_not_doc (newId stamp : string) :
  DATA_DIRECTORY ++ (newId ++ "_" ++ stamp ++ ".jpg") <> FOODS_FILE_PATH.
Proof.
  intros H. apply String.app_inj in H.
  apply (jpg_is_not_doc (newId ++ "_" ++ stamp)). now rewrite !append_assoc.
Qed.

End Paths.

(** ** The record store when no call fails *)

Section FaultFree.
Variable env : Env.
Hypothesis Hff : fault_free env.
Abbreviation DATA_DIRECTORY := (FileSystem.DATA_DIRECTORY env).
Abbreviation FOODS_FILE_PATH := (FileSystem.FOODS_FILE_PATH env).

Lemma call_ok {A} (c : FsCall) (run : State -> option (A * State))
    (st st2 : State) (a : A) :
  run (record_call c st) = Some (a, st2) ->
  FileSystem.call env c run st = (Ok a, st2).
Proof. intros H. unfold FileSystem.call. now rewrite Hff, H. Qed.

Lemma call_none {A} (c : FsCall) (run : State -> option (A * State))
    (st : State) :
  run (record_call c st) = None ->
  FileSystem.call env c run st = (Throw (FsError c), record_call c st).
Proof. intros H. unfold FileSystem.call. now rewrite Hff, H. Qed.

Lemma same_screen_refl (st : State) : same_screen st st.
Proof. repeat split. Qed.

Lemma same_screen_trans (st1 st2 st3 : State) :
  same_screen st1 st2 -> same_screen st2 st3 -> same_screen st1 st3.
Proof. unfold same_screen. intuition congruence. Qed.

Lemma ensureDirectoryExists_ok (st : State) :
  exists st',
    FoodForm.ensureDirectoryExists env st = (Ok tt, st')
    /\ dirExists st' = true /\ files st' = files st /\ same_screen st st'.
Proof.
  unfold FoodForm.ensureDirectoryExists.
  erewrite bind_ok
    by (apply call_ok; rewrite String.eqb_refl; reflexivity).
  cbn [record_call dirExists]. destruct (dirExists st) eqn:Hd; cbn [negb].
  - eexists. split; [reflexivity |]. cbn. repeat split. assumption.
  - eexists. split.
    + apply call_ok. rewrite String.eqb_refl. reflexivity.
    + cbn. repeat split.
Qed.

Lemma getInfo_doc (st : State) :
  FileSystem.getInfoAsync env FOODS_FILE_PATH st
  = (Ok (bool_decide (is_Some (files st !! FOODS_FILE_PATH))),
     record_call (GetInfo FOODS_FILE_PATH) st).
Proof. apply call_ok. now rewrite doc_is_not_dir. Qed.

Lemma write_doc (content : string) (st : State) :
  dirExists st = true ->
  FileSystem.writeAsStringAsync env FOODS_FILE_PATH content st
  = (Ok tt,
     with_fs true (<[FOODS_FILE_PATH := content]> (files st))
       (record_call (WriteAsString FOODS_FILE_PATH content) st)).
Proof.
  intros Hd. apply call_ok. unfold FileSystem.parent_exists.
  rewrite doc_in_dir. cbn [record_call dirExists files]. now rewrite Hd.
Qed.

Lemma read_doc (doc : string) (st : State) :
  files st !! FOODS_FILE_PATH = Some doc ->
  FileSystem.readAsStringAsync env FOODS_FILE_PATH st
  = (Ok doc, record_call (ReadAsString FOODS_FILE_PATH) st).
Proof. intros H. apply call_ok. cbn [record_call files]. now rewrite H. Qed.

Lemma persisted_insert (st st' : State) (foods : list FoodData) (gap : string) :
  JSON.ws_only gap ->
  files st' = <[FOODS_FILE_PATH := JSON.stringify_gap gap foods]> (files st) ->
  persisted env st' = Some foods.
Proof.
  intros Hg H. unfold persisted. rewrite H, lookup_insert_eq.
  now apply JSONFacts.parse_stringify_gap.
Qed.

(** Loading returns the collection the document holds and leaves it there. *)
Lemma loadFoods_ok (st : State) (foods : list FoodData) :
  persisted env st = Some foods ->
  exists st',
    FoodForm.loadFoods env st = (Ok foods, st')
    /\ dirExists st' = true
    /\ persisted env st' = Some foods
    /\ (is_Some (files st !! FOODS_FILE_PATH) -> files st' = files st)
    /\ (files st !! FOODS_FILE_PATH = None ->
        files st' = <[FOODS_FILE_PATH := JSON.stringify []]> (files st))
    /\ same_screen st st'.
Proof.
  intros Hp. unfold FoodForm.loadFoods.
  destruct (ensureDirectoryExists_ok st) as (st1 & E1 & Hd1 & Hf1 & Hu1).
  unfold persisted in Hp.
  destruct (files st !! FOODS_FILE_PATH) as [doc|] eqn:Hdoc.
  - exists (record_call (ReadAsString FOODS_FILE_PATH)
              (record_call (GetInfo FOODS_FILE_PATH) st1)).
    split; [| split; [| split; [| split; [| split]]]].
    + apply try_catch_ok. erewrite bind_ok by exact E1.
      erewrite bind_ok by apply getInfo_doc.
      rewrite Hf1, Hdoc, bool_decide_eq_true_2 by (eexists; reflexivity).
      cbn [negb].
      erewrite bind_ok
        by (apply read_doc; cbn [record_call files]; rewrite Hf1; exact Hdoc).
      unfold FileSystem.JSON_parse. now rewrite Hp.
    + exact Hd1.
    + unfold persisted. cbn [record_call files]. now rewrite Hf1, Hdoc.
    + intros _. exact Hf1.
    + discriminate.
    + exact Hu1.
  - injection Hp as <-.
    eexists. split; [| split; [| split; [| split; [| split]]]].
    + apply try_catch_ok. erewrite bind_ok by exact E1.
      erewrite bind_ok by apply getInfo_doc.
      rewrite Hf1, Hdoc, bool_decide_eq_false_2 by (intros [? ?]; discriminate).
      cbn [negb].
      erewrite bind_ok by (apply write_doc; exact Hd1). reflexivity.
    + reflexivity.
    + eapply (persisted_insert _ _ [] ""); [reflexivity |].
      cbn [with_fs record_call files]. rewrite Hf1. reflexivity.
    + intros [? ?]; discriminate.
    + intros _. cbn [with_fs record_call files]. now rewrite Hf1.
    + exact Hu1.
Qed.

(** Saving overwrites the document with the indented text of the collection. *)
Lemma saveFoods_ok (st : State) (foods : list FoodData) :
  exists st',
    FoodForm.saveFoods env foods st = (Ok tt, st')
    /\ dirExists st' = true
    /\ files st' = <[FOODS_FILE_PATH := JSON.stringify2 foods]> (files st)
    /\ persisted env st' = Some foods
    /\ same_screen st st'.
Proof.
  destruct (ensureDirectoryExists_ok st) as (st1 & E1 & Hd1 & Hf1 & Hu1).
  eexists. split; [| split; [| split; [| split]]].
  - unfold FoodForm.saveFoods. apply try_catch_ok.
    erewrite bind_ok by exact E1. apply write_doc. exact Hd1.
  - reflexivity.
  - cbn [with_fs record_call files]. now rewrite Hf1.
  - eapply (persisted_insert _ _ foods "  "); [reflexivity |].
    cbn [with_fs record_call files]. now rewrite Hf1.
  - exact Hu1.
Qed.


Lemma truthy_true (s : string) : JS.truthy s = true <-> s <> "".
Proof. destruct s; simpl; split; intros; congruence. Qed.

Lemma truthy_false (s : string) : JS.truthy s = false <-> s = "".
Proof. destruct s; simpl; split; intros; congruence. Qed.

Lemma validateForm_ok (form : FoodForm.Form.Fields) (st : State) :
  JS.trim (FoodForm.Form.foodName form) <> "" ->
  FoodForm.Form.weight form <> "" ->
  JS.isNaN_Number (FoodForm.Form.weight form) = false ->
  FoodForm.validateForm form st = (Ok true, st).
Proof.
  intros Hn%truthy_true Hw%truthy_true Hnum. unfold FoodForm.validateForm.
  now rewrite Hn, Hw, Hnum.
Qed.

Lemma new_id_ok (initialData : option FoodData) (st : State) :
  exists st',
    FoodForm.new_id env initialData st = (Ok (submitted_id env st initialData), st')
    /\ clockReads st'
       = (if FoodForm.has_id initialData then clockReads st else S (clockReads st))
    /\ dirExists st' = dirExists st /\ files st' = files st
    /\ same_screen st st'.
Proof.
  unfold FoodForm.new_id, submitted_id, FoodForm.has_id.
  destruct (FoodForm.initial_id initialData) as [i|]; [destruct (JS.truthy i) |];
    eexists; (split; [reflexivity |]); cbn; repeat split.
Qed.

Lemma store_image_ok (newId : string) (form : FoodForm.Form.Fields)
    (st : State) (foods : list FoodData) :
  image_ready env st form = true ->
  persisted env st = Some foods ->
  exists st',
    FoodForm.store_image env (FoodForm.build newId form) newId form st
    = (Ok (if JS.truthy (FoodForm.Form.imageUri form)
           then FoodForm.with_image (FoodForm.build newId form)
                  (DATA_DIRECTORY
                   ++ (newId ++ "_" ++ JS.toString (clock env (clockReads st))
                       ++ ".jpg"))
           else FoodForm.build newId form), st')
    /\ persisted env st' = Some foods
    /\ same_screen st st'.
Proof.
  unfold image_ready, FoodForm.store_image. intros Hready Hp.
  destruct (JS.truthy (FoodForm.Form.imageUri form)); cbn [negb orb] in Hready.
  - apply andb_prop in Hready as [Hd Hsrc]. apply bool_decide_eq_true_1 in Hsrc.
    destruct Hsrc as [content Hsrc].
    erewrite bind_ok by reflexivity.
    eexists. split; [| split].
    + erewrite bind_ok; [reflexivity |].
      apply call_ok. cbn [record_call files dirExists]. rewrite Hsrc.
      cbn [mbind option_bind]. unfold FileSystem.parent_exists.
      rewrite startsWith_append. cbn [dirExists]. rewrite Hd. reflexivity.
    + unfold persisted. cbn [with_fs record_call files].
      rewrite lookup_insert_ne by apply image_is_not_doc. exact Hp.
    + repeat split.
  - eexists. split; [reflexivity |]. split; [exact Hp | apply same_screen_refl].
Qed.

(** A valid submission, in a state where the image can be copied: the
    submitted record is put into the collection and the user is told. *)
Lemma handleSubmit_ok (st : State) (initialData : option FoodData)
    (form : FoodForm.Form.Fields) (foods : list FoodData) :
  JS.trim (FoodForm.Form.foodName form) <> "" ->
  FoodForm.Form.weight form <> "" ->
  JS.isNaN_Number (FoodForm.Form.weight form) = false ->
  image_ready env st form = true ->
  persisted env st = Some foods ->
  exists st',
    FoodForm.handleSubmit env initialData form st = (Ok tt, st')
    /\ persisted env st'
       = Some (FoodForm.upsert initialData (submitted env st initialData form)
                 foods)
    /\ dialogs st' = (dialogs st ++ [Plain saved_message])%list
    /\ routerBack st' = S (routerBack st)
    /\ isLoading st' = false
    /\ files st' !! FOODS_FILE_PATH
       = Some (JSON.stringify2
                 (FoodForm.upsert initialData
                    (submitted env st initialData form) foods))
    /\ dirExists st' = true.
Proof.
  intros Hn Hw Hnum Hready Hp. unfold FoodForm.handleSubmit.
  erewrite bind_ok by (now apply validateForm_ok). cbn [negb].
  set (st1 := snd (console_log "Submitting with ID:"
                     (FoodForm.initial_id initialData)
                     (snd (setIsLoading true st)))).
  destruct (new_id_ok initialData st1) as (st2 & E2 & Hc2 & Hd2 & Hf2 & Hu2).
  assert (Hp2 : persisted env st2 = Some foods)
    by (unfold persisted; rewrite Hf2; exact Hp).
  assert (Hready2 : image_ready env st2 form = true)
    by (unfold image_ready; rewrite Hd2, Hf2; exact Hready).
  destruct (store_image_ok (submitted_id env st initialData) form st2 foods
              Hready2 Hp2) as (st3 & E3 & Hp3 & Hu3).
  destruct (loadFoods_ok st3 foods Hp3) as (st4 & E4 & _ & _ & _ & _ & Hu4).
  destruct (saveFoods_ok st4
              (FoodForm.upsert initialData (submitted env st initialData form)
                 foods)) as (st5 & E5 & Hd5 & Hf5 & Hp5 & Hu5).
  eexists. split; [| split; [| split; [| split; [| split; [| split]]]]].
  - eapply try_finally_ok; [| reflexivity]. apply try_catch_ok.
    erewrite bind_ok by reflexivity. erewrite bind_ok by reflexivity.
    erewrite bind_ok by exact E2.
    erewrite bind_ok by exact E3.
    erewrite bind_ok by exact E4.
    assert (Hsub : (if JS.truthy (FoodForm.Form.imageUri form)
           then FoodForm.with_image (FoodForm.build (submitted_id env st initialData) form)
                  (DATA_DIRECTORY
                   ++ (submitted_id env st initialData ++ "_" ++ JS.toString (clock env (clockReads st2))
                       ++ ".jpg"))
           else FoodForm.build (submitted_id env st initialData) form)
            = submitted env st initialData form).
    { unfold submitted. rewrite Hc2. reflexivity. }
    rewrite Hsub.
    erewrite bind_ok by exact E5. reflexivity.
  - exact Hp5.
  - subst st1. unfold same_screen, saved_message in *. cbn in Hu2 |- *.
    destruct Hu2 as (_ & H2 & _), Hu3 as (_ & H3 & _), Hu4 as (_ & H4 & _),
      Hu5 as (_ & H5 & _). now rewrite H5, H4, H3, H2.
  - subst st1. unfold same_screen in *. cbn in Hu2 |- *.
    destruct Hu2 as (_ & _ & _ & H2), Hu3 as (_ & _ & _ & H3),
      Hu4 as (_ & _ & _ & H4), Hu5 as (_ & _ & _ & H5).
    now rewrite H5, H4, H3, H2.
  - reflexivity.
  - cbn [files setIsLoading modify snd]. cbn.
    rewrite Hf5. apply lookup_insert_eq.
  - exact Hd5.
Qed.


(** A confirmed deletion from the form. *)
Lemma handleDelete_ok (st : State) (initialData : option FoodData)
    (wanted : string) (foods : list FoodData) :
  FoodForm.initial_id initialData = Some wanted ->
  wanted <> "" ->
  persisted env st = Some foods ->
  exists st',
    FoodForm.handleDelete env initialData FoodForm.Delete st = (Ok tt, st')
    /\ persisted env st' = Some (without wanted foods)
    /\ isLoading st' = false.
Proof.
  intros Hid Hw%truthy_true Hp. unfold FoodForm.handleDelete.
  rewrite Hid, Hw. unfold FoodForm.confirmDelete.
  set (st1 := snd (setIsLoading true
                     (snd (show (Titled "確認刪除" "確定要刪除這個食物嗎？") st)))).
  assert (Hp1 : persisted env st1 = Some foods) by exact Hp.
  destruct (loadFoods_ok st1 foods Hp1) as (st2 & E2 & _).
  destruct (saveFoods_ok st2 (without wanted foods)) as (st3 & E3 & _ & _ & Hp3 & _).
  eexists. split; [| split].
  - apply try_catch_ok. erewrite bind_ok by reflexivity.
    eapply try_finally_ok; [| reflexivity]. apply try_catch_ok.
    erewrite bind_ok by reflexivity. erewrite bind_ok by exact E2.
    erewrite bind_ok by exact E3. reflexivity.
  - exact Hp3.
  - reflexivity.
Qed.

(** The reader of the list screen. *)
Lemma list_loadFoods_ok (st : State) (foods : list FoodData) :
  persisted env st = Some foods ->
  exists st',
    CategoryScreen.loadFoods env st = (Ok foods, st')
    /\ dirExists st' = dirExists st /\ files st' = files st
    /\ same_screen st st'.
Proof.
  intros Hp. unfold CategoryScreen.loadFoods, persisted in *. cbv zeta.
  change ((documentDirectory env ++ "foods/") ++ "foods.json")
    with FOODS_FILE_PATH.
  destruct (files st !! FOODS_FILE_PATH) as [doc|] eqn:Hdoc.
  - eexists. split.
    + apply try_catch_ok. erewrite bind_ok by apply getInfo_doc.
      rewrite Hdoc, bool_decide_eq_true_2 by (eexists; reflexivity).
      cbn [negb].
      erewrite bind_ok by (apply read_doc; exact Hdoc).
      unfold FileSystem.JSON_parse. now rewrite Hp.
    + repeat split.
  - injection Hp as <-. eexists. split.
    + apply try_catch_ok. erewrite bind_ok by apply getInfo_doc.
      rewrite Hdoc, bool_decide_eq_false_2 by (intros [? ?]; discriminate).
      reflexivity.
    + repeat split.
Qed.

(** A deletion from the list screen, the data directory being there. *)
Lemma deleteFood_ok (st : State) (wanted : string) (foods : list FoodData) :
  dirExists st = true ->
  persisted env st = Some foods ->
  exists st',
    CategoryScreen.deleteFood env wanted st = (Ok (Some (without wanted foods)), st')
    /\ persisted env st' = Some (without wanted foods).
Proof.
  intros Hd Hp. unfold CategoryScreen.deleteFood.
  destruct (list_loadFoods_ok st foods Hp) as (st1 & E1 & Hd1 & Hf1 & _).
  eexists. split.
  - apply try_catch_ok. erewrite bind_ok by exact E1.
    erewrite bind_ok; [reflexivity |].
    rewrite literal_path. apply write_doc. now rewrite Hd1.
  - eapply (persisted_insert _ _ _ ""); [reflexivity |].
    cbn [with_fs record_call files]. now rewrite Hf1.
Qed.

End FaultFree.

(** ** Arrays *)

Section FindIndex.
Context {A : Type} (p : A -> bool).

Lemma findIndex_ge (l : list A) : (-1 <= JS.findIndex p l)%Z.
Proof.
  induction l as [|x l IH]; simpl; [lia |].
  destruct (p x); [lia |]. destruct (Z.eqb_spec (JS.findIndex p l) (-1)); lia.
Qed.

Lemma findIndex_none (l : list A) :
  JS.findIndex p l = (-1)%Z <-> Forall (fun x => p x = false) l.
Proof.
  induction l as [|x l IH]; simpl.
  - split; [constructor | reflexivity].
  - pose proof (findIndex_ge l) as Hge. destruct (p x) eqn:Hx.
    + split; [discriminate | intros H; inversion H; congruence].
    + destruct (Z.eqb_spec (JS.findIndex p l) (-1)) as [He|Hne].
      * split; [intros _; constructor; tauto | reflexivity].
      * split; [lia | intros H; inversion H; tauto].
Qed.

(** When something is found, it is the first element satisfying [p]. *)
Lemma findIndex_found (l : list A) :
  JS.findIndex p l <> (-1)%Z ->
  exists (n : nat) (x : A),
    JS.findIndex p l = Z.of_nat n /\ l !! n = Some x /\ p x = true
    /\ forall (j : nat) (y : A), (j < n)%nat -> l !! j = Some y -> p y = false.
Proof.
  induction l as [|x l IH]; simpl; [congruence |].
  destruct (p x) eqn:Hx.
  - intros _. exists 0%nat, x. repeat split; [assumption | lia].
  - destruct (Z.eqb_spec (JS.findIndex p l) (-1)) as [He|Hne]; [congruence |].
    intros _. destruct (IH Hne) as (n & y & Hi & Hl & Hy & Hfirst).
    exists (S n), y. repeat split; [lia | assumption | assumption |].
    intros [|j] z Hj Hz; simpl in Hz; [congruence |].
    apply (Hfirst j); [lia | assumption].
Qed.

End FindIndex.

(** ** The collection *)

Lemma id_is_true (wanted : string) (food : FoodData) :
  FoodForm.id_is wanted food = true <-> id food = Some wanted.
Proof. unfold FoodForm.id_is. apply bool_decide_eq_true. Qed.

Lemma id_is_false (wanted : string) (food : FoodData) :
  FoodForm.id_is wanted food = false <-> id food <> Some wanted.
Proof. unfold FoodForm.id_is. apply bool_decide_eq_false. Qed.

Section Upsert.
Variables (initialData : option FoodData) (newFood : FoodData).

Lemma upsert_new (foods : list FoodData) :
  FoodForm.has_id initialData = false ->
  FoodForm.upsert initialData newFood foods = (foods ++ [newFood])%list.
Proof.
  unfold FoodForm.has_id, FoodForm.upsert.
  destruct (FoodForm.initial_id initialData) as [i|]; [| reflexivity].
  now intros ->.
Qed.

Lemma upsert_absent (wanted : string) (foods : list FoodData) :
  FoodForm.initial_id initialData = Some wanted -> wanted <> "" ->
  Forall (fun food => id food <> Some wanted) foods ->
  FoodForm.upsert initialData newFood foods = foods.
Proof.
  intros Hid Hw%truthy_true Habs. unfold FoodForm.upsert. rewrite Hid, Hw.
  assert (H : JS.findIndex (FoodForm.id_is wanted) foods = (-1)%Z).
  { apply findIndex_none. eapply Forall_impl; [exact Habs |].
    intros f Hf. now apply id_is_false. }
  now rewrite H.
Qed.

Lemma upsert_present (wanted : string) (foods : list FoodData) :
  FoodForm.initial_id initialData = Some wanted -> wanted <> "" ->
  Exists (fun food => id food = Some wanted) foods ->
  exists (n : nat) (old : FoodData),
    foods !! n = Some old /\ id old = Some wanted
    /\ (forall (j : nat) (y : FoodData),
          (j < n)%nat -> foods !! j = Some y -> id y <> Some wanted)
    /\ FoodForm.upsert initialData newFood foods = <[n := newFood]> foods.
Proof.
  intros Hid Hw%truthy_true Hex. unfold FoodForm.upsert. rewrite Hid, Hw.
  assert (H : JS.findIndex (FoodForm.id_is wanted) foods <> (-1)%Z).
  { intros Hn%findIndex_none. apply Exists_exists in Hex as (f & Hin & Hf).
    rewrite Forall_forall in Hn. specialize (Hn f Hin).
    apply id_is_false in Hn. contradiction. }
  destruct (findIndex_found _ _ H) as (n & old & Hi & Hl & Hold & Hfirst).
  exists n, old. repeat split.
  - assumption.
  - now apply id_is_true.
  - intros j y Hj Hy. apply id_is_false. eauto.
  - rewrite Hi. destruct (Z.eqb_spec (Z.of_nat n) (-1)); [lia |].
    cbn [negb]. now rewrite Nat2Z.id.
Qed.

End Upsert.

Lemma ids_insert_same (foods : list FoodData) (n : nat) (old new : FoodData) :
  foods !! n = Some old -> id new = id old ->
  ids (<[n := new]> foods) = ids foods.
Proof.
  intros Hl Hid. unfold ids. rewrite list_fmap_insert. apply list_insert_id.
  rewrite list_lookup_fmap, Hl. simpl. now rewrite Hid.
Qed.

Lemma ids_without (wanted : string) (foods : list FoodData) :
  NoDup (ids foods) -> NoDup (ids (without wanted foods)).
Proof.
  intros H. eapply sublist_NoDup; [exact H |].
  unfold ids, without. apply fmap_sublist, sublist_filter.
Qed.

Lemma without_gone (wanted : string) (foods : list FoodData) :
  Forall (fun food => id food <> Some wanted) (without wanted foods).
Proof.
  apply Forall_forall. intros f Hin. unfold without in Hin.
  apply list_elem_of_filter in Hin. tauto.
Qed.

Lemma without_length (wanted : string) (foods : list FoodData) :
  (List.length (without wanted foods) + occurrences wanted foods
   = List.length foods)%nat.
Proof.
  unfold without, occurrences. induction foods as [|f foods IH]; [reflexivity |].
  rewrite !filter_cons. destruct (decide (id f <> Some wanted)) as [Hne|Heq];
    destruct (decide (id f = Some wanted)) as [He|Hn]; simpl; try lia.
  - contradiction.
  - destruct (decide (id f = Some wanted)); tauto.
Qed.

Lemma occurrences_absent (wanted : string) (foods : list FoodData) :
  Forall (fun food => id food <> Some wanted) foods ->
  occurrences wanted foods = 0%nat.
Proof.
  unfold occurrences. induction 1 as [|f foods Hf _ IH]; [reflexivity |].
  rewrite filter_cons. destruct (decide (id f = Some wanted)); [contradiction | exact IH].
Qed.

Lemma occurrences_unique (wanted : string) (foods : list FoodData) :
  NoDup (ids foods) ->
  Exists (fun food => id food = Some wanted) foods ->
  occurrences wanted foods = 1%nat.
Proof.
  unfold occurrences, ids. induction foods as [|f foods IH]; intros Hnd Hex.
  - inversion Hex.
  - rewrite fmap_cons in Hnd. apply NoDup_cons in Hnd as [Hnotin Hnd].
    rewrite filter_cons. destruct (decide (id f = Some wanted)) as [He|Hn].
    + simpl. f_equal. apply occurrences_absent. apply Forall_forall.
      intros g Hg Hgid. apply Hnotin. rewrite He, <- Hgid.
      apply list_elem_of_fmap. exists g. split; [reflexivity | assumption].
    + apply IH; [assumption |]. inversion Hex; [contradiction | assumption].
Qed.

(** ** Minted ids *)

Lemma toString_inj (a b : N) : JS.toString a = JS.toString b -> a = b.
Proof.
  unfold JS.toString. intros H.
  assert (Hnn : forall n, N.to_uint n <> Decimal.Nil).
  { intros n Hn. pose proof (DecimalN.Unsigned.of_to n) as Hof.
    rewrite Hn in Hof. simpl in Hof. subst n. discriminate Hn. }
  apply DecimalN.Unsigned.to_uint_inj.
  pose proof (NilZero.usu _ (Hnn a)) as Ha.
  pose proof (NilZero.usu _ (Hnn b)) as Hb.
  rewrite H in Ha. congruence.
Qed.

(** ** Searching *)





(** The searches of the specification: of Apple Pie and banana, the text pp
    keeps the first only and the empty text both; letters outside ASCII are
    matched whatever their case. *)
Example filteredFoods_pp :
  CategoryScreen.filteredFoods Sample.env [Sample.apple_pie; Sample.banana] "pp"
  = [Sample.apple_pie]
  /\ CategoryScreen.filteredFoods Sample.env
       [Sample.apple_pie; Sample.banana] "PIE"
     = [Sample.apple_pie]
  /\ CategoryScreen.filteredFoods Sample.env
       [Sample.apple_pie; Sample.banana] ""
     = [Sample.apple_pie; Sample.banana]
  /\ CategoryScreen.filteredFoods Sample.env
       [Sample.food "1" "CAFÉ au lait"; Sample.banana] "café"
     = [Sample.food "1" "CAFÉ au lait"].
Proof. repeat split; vm_compute; reflexivity. Qed.

(** ** Validation *)

Lemma valid_input_spec (form : FoodForm.Form.Fields) :
  valid_input form = true
  <-> JS.trim (FoodForm.Form.foodName form) <> ""
      /\ FoodForm.Form.weight form <> ""
      /\ JS.isNaN_Number (FoodForm.Form.weight form) = false.
Proof.
  unfold valid_input. rewrite !andb_true_iff, negb_true_iff, !truthy_true.
  tauto.
Qed.

(** C6. A form whose name is empty after trimming, or whose weight is
    missing or does not read as a number, is turned down with a message,
    about the name when that is empty and about the weight otherwise: no
    call of the file system is made and nothing else changes. *)
Theorem invalid_submission_rejected (env : Env) (st : State)
    (initialData : option FoodData) (form : FoodForm.Form.Fields) :
  JS.trim (FoodForm.Form.foodName form) = ""
  \/ FoodForm.Form.weight form = ""
  \/ JS.isNaN_Number (FoodForm.Form.weight form) = true ->
  exists message : string,
    FoodForm.handleSubmit env initialData form st
    = (Ok tt,
       mkState (dirExists st) (files st) (trace st) (clockReads st)
         (console st) (dialogs st ++ [Plain message])%list (isLoading st)
         (routerBack st))
    /\ message = (if String.eqb (JS.trim (FoodForm.Form.foodName form)) ""
                  then "請輸入食物名稱" else "請輸入有效的重量").
Proof.
  intros H. unfold FoodForm.handleSubmit, FoodForm.validateForm.
  destruct (JS.trim (FoodForm.Form.foodName form)) as [|c name] eqn:Hn;
    cbn [JS.truthy negb String.eqb].
  - eexists. split; reflexivity.
  - destruct H as [H | [H | H]].
    + discriminate H.
    + rewrite H. eexists. split; reflexivity.
    + rewrite H, orb_true_r. eexists. split; reflexivity.
Qed.

Lemma invalid_submission_rejected_witness :
  let blank := " " ++ Sample.wide_space ++ Sample.nbsp in
  let st := Sample.holding [Sample.banana] in
  FoodForm.handleSubmit Sample.env None (Sample.form blank "100") st
  = (Ok tt, mkState true (files st) [] 0 [] [Plain "請輸入食物名稱"] false 0)
  /\ FoodForm.handleSubmit Sample.env (Some Sample.banana)
       (Sample.form "Apple Pie" "12 kg") st
     = (Ok tt, mkState true (files st) [] 0 [] [Plain "請輸入有效的重量"] false 0).
Proof.
  split.
  - destruct (invalid_submission_rejected Sample.env
                (Sample.holding [Sample.banana]) None
                (Sample.form (" " ++ Sample.wide_space ++ Sample.nbsp) "100"))
      as (message & E & ->); [left; reflexivity | exact E].
  - destruct (invalid_submission_rejected Sample.env
                (Sample.holding [Sample.banana]) (Some Sample.banana)
                (Sample.form "Apple Pie" "12 kg"))
      as (message & E & ->); [right; right; reflexivity | exact E].
Defined.

(** The examples of the specification: an empty name, then a weight that is
    no number, leave an empty collection empty and reach no file. *)
Example rejected_examples :
  (let st' := snd (FoodForm.handleSubmit Sample.env None
                     (Sample.form "" "100") (Sample.holding [])) in
   persisted Sample.env st' = Some [] /\ trace st' = [])
  /\ (let st' := snd (FoodForm.handleSubmit Sample.env None
                        (Sample.form "Apple Pie" "abc") (Sample.holding [])) in
      persisted Sample.env st' = Some [] /\ trace st' = []).
Proof. repeat split; vm_compute; reflexivity. Qed.

(** White space is that of Unicode: a name of ideographic spaces is empty
    once trimmed, such spaces around a name are taken off, and a weight
    written after a no-break space or before an ideographic space reads as
    a number. *)
Example white_space_examples :
  JS.trim Sample.wide_space = ""
  /\ JS.trim (Sample.wide_space ++ "Apple" ++ Sample.nbsp) = "Apple"
  /\ valid_input (Sample.form Sample.wide_space "100") = false
  /\ JS.isNaN_Number (Sample.nbsp ++ "100") = false
  /\ JS.isNaN_Number ("100" ++ Sample.wide_space) = false
  /\ valid_input (Sample.form "Apple" (Sample.nbsp ++ "100")) = true
  /\ JS.isNaN_Number "1e3" = false
  /\ JS.isNaN_Number "0x1F" = false
  /\ JS.isNaN_Number "12 kg" = true
  /\ JS.isNaN_Number "1,5" = true.
Proof. repeat split; vm_compute; reflexivity. Qed.

(** ** Load and save *)

(** C7. On a well-formed document, saving what was just loaded leaves a
    document that reads back as the same sequence of records, and touches no
    other file. *)
Theorem save_load_roundtrip (env : Env) (st : State) (doc : string)
    (foods : list FoodData) :
  fault_free env ->
  files st !! FileSystem.FOODS_FILE_PATH env = Some doc ->
  JSON.parse doc = Some foods ->
  exists (st' : State) (doc' : string),
    (FoodForm.loadFoods env ≫= FoodForm.saveFoods env) st = (Ok tt, st')
    /\ files st' !! FileSystem.FOODS_FILE_PATH env = Some doc'
    /\ JSON.parse doc' = JSON.parse doc
    /\ forall path : string,
         path <> FileSystem.FOODS_FILE_PATH env ->
         files st' !! path = files st !! path.
Proof.
  intros Hff Hdoc Hparse.
  assert (Hp : persisted env st = Some foods)
    by (unfold persisted; now rewrite Hdoc).
  destruct (loadFoods_ok env Hff st foods Hp) as (st1 & E1 & _ & _ & Hf1 & _).
  destruct (saveFoods_ok env Hff st1 foods) as (st2 & E2 & _ & Hf2 & _).
  exists st2, (JSON.stringify2 foods). repeat split.
  - erewrite bind_ok by exact E1. exact E2.
  - rewrite Hf2. apply lookup_insert_eq.
  - rewrite Hparse. apply JSONFacts.parse_stringify2.
  - intros path Hne. rewrite Hf2, lookup_insert_ne by congruence.
    rewrite Hf1 by (rewrite Hdoc; eexists; reflexivity). reflexivity.
Qed.

Lemma save_load_roundtrip_witness :
  exists (st' : State) (doc' : string),
    (FoodForm.loadFoods Sample.env ≫= FoodForm.saveFoods Sample.env)
      (Sample.holding [Sample.apple_pie]) = (Ok tt, st')
    /\ files st' !! FileSystem.FOODS_FILE_PATH Sample.env = Some doc'
    /\ JSON.parse doc' = JSON.parse (JSON.stringify2 [Sample.apple_pie])
    /\ forall path : string,
         path <> FileSystem.FOODS_FILE_PATH Sample.env ->
         files st' !! path = files (Sample.holding [Sample.apple_pie]) !! path.
Proof.
  apply (save_load_roundtrip Sample.env (Sample.holding [Sample.apple_pie])
           (JSON.stringify2 [Sample.apple_pie]) [Sample.apple_pie]).
  - intros n c. reflexivity.
  - vm_compute. reflexivity.
  - vm_compute. reflexivity.
Defined.

(** Escapes are read as the characters they stand for, a surrogate pair as
    one character. *)
Example escapes_are_read :
  JSON.parse_chars ("caf\u00e9 \ud83d\ude00\n" ++ String JSON.dquote "]")
  = Some ("café 😀" ++ JSON.newline, "]").
Proof. vm_compute. reflexivity. Qed.

(** The text itself may change: a document in the compact layout comes back
    indented. *)
Example save_load_reindents :
  let compact := JSON.stringify [Sample.apple_pie] in
  JSON.parse compact = Some [Sample.apple_pie]
  /\ JSON.stringify2 [Sample.apple_pie] <> compact.
Proof. split; [vm_compute; reflexivity | vm_compute; discriminate]. Qed.

(** C5 (as amended). Where the document is missing, the reader of the form
    creates the directory and an empty document and returns the empty
    collection; the reader of the list screen returns the empty collection
    and creates nothing. *)
Theorem load_without_document (env : Env) (st : State) :
  fault_free env ->
  consistent env st ->
  dirExists st = false \/ files st !! FileSystem.FOODS_FILE_PATH env = None ->
  (exists st' : State,
     FoodForm.loadFoods env st = (Ok [], st')
     /\ dirExists st' = true
     /\ files st' = <[FileSystem.FOODS_FILE_PATH env := "[]"]> (files st))
  /\ (exists st' : State,
        CategoryScreen.loadFoods env st = (Ok [], st')
        /\ dirExists st' = dirExists st
        /\ files st' = files st).
Proof.
  intros Hff Hcons Hmiss.
  assert (Hnone : files st !! FileSystem.FOODS_FILE_PATH env = None).
  { destruct Hmiss as [Hd | Hn]; [| exact Hn].
    apply (Hcons Hd). apply doc_in_dir. }
  assert (Hp : persisted env st = Some [])
    by (unfold persisted; now rewrite Hnone).
  split.
  - destruct (loadFoods_ok env Hff st [] Hp) as (st' & E & Hd & _ & _ & Hf & _).
    exists st'. repeat split; [exact E | exact Hd | now apply Hf].
  - destruct (list_loadFoods_ok env Hff st [] Hp) as (st' & E & Hd & Hf & _).
    exists st'. repeat split; assumption.
Qed.

Lemma load_without_document_witness :
  (exists st' : State,
     FoodForm.loadFoods Sample.env Sample.fresh = (Ok [], st')
     /\ dirExists st' = true
     /\ files st'
        = <[FileSystem.FOODS_FILE_PATH Sample.env := "[]"]> (files Sample.fresh))
  /\ (exists st' : State,
        CategoryScreen.loadFoods Sample.env Sample.fresh = (Ok [], st')
        /\ dirExists st' = dirExists Sample.fresh
        /\ files st' = files Sample.fresh).
Proof.
  apply (load_without_document Sample.env Sample.fresh).
  - intros n c. reflexivity.
  - intros _ path _. reflexivity.
  - left. reflexivity.
Defined.

(** C5, the claim as stated, fails on the list screen: on a fresh
    installation its reader returns the empty collection and leaves neither
    a document nor a directory behind. *)
Lemma list_load_creates_no_document :
  dirExists Sample.fresh = false
  /\ fst (CategoryScreen.loadFoods Sample.env Sample.fresh) = Ok []
  /\ files (snd (CategoryScreen.loadFoods Sample.env Sample.fresh))
       !! FileSystem.FOODS_FILE_PATH Sample.env = None
  /\ dirExists (snd (CategoryScreen.loadFoods Sample.env Sample.fresh)) = false
  /\ ~ (exists content : string,
          In (WriteAsString (FileSystem.FOODS_FILE_PATH Sample.env) content)
            (trace (snd (CategoryScreen.loadFoods Sample.env Sample.fresh)))).
Proof.
  repeat split; try (vm_compute; reflexivity).
  intros [content H]. vm_compute in H. destruct H as [H | []]. discriminate H.
Qed.

(** ** Creating *)

Lemma valid_input_parts (form : FoodForm.Form.Fields) :
  valid_input form = true ->
  JS.trim (FoodForm.Form.foodName form) <> ""
  /\ FoodForm.Form.weight form <> ""
  /\ JS.isNaN_Number (FoodForm.Form.weight form) = false.
Proof. apply valid_input_spec. Qed.

Lemma submitted_has_id (env : Env) (st : State) (initialData : option FoodData)
    (form : FoodForm.Form.Fields) :
  id (submitted env st initialData form)
  = Some (submitted_id env st initialData).
Proof.
  unfold submitted. now destruct (JS.truthy (FoodForm.Form.imageUri form)).
Qed.

Lemma submitted_id_new (env : Env) (st : State) (initialData : option FoodData) :
  FoodForm.has_id initialData = false ->
  submitted_id env st initialData = JS.toString (clock env (clockReads st)).
Proof.
  unfold FoodForm.has_id, submitted_id.
  destruct (FoodForm.initial_id initialData) as [i|]; [| reflexivity].
  now intros ->.
Qed.

Lemma submitted_id_edit (env : Env) (st : State) (initialData : option FoodData)
    (wanted : string) :
  FoodForm.initial_id initialData = Some wanted -> wanted <> "" ->
  submitted_id env st initialData = wanted.
Proof.
  intros Hid Hw%truthy_true. unfold submitted_id. now rewrite Hid, Hw.
Qed.

(** The fields of the submitted record come from the form. *)
Lemma submitted_fields (env : Env) (st : State) (initialData : option FoodData)
    (form : FoodForm.Form.Fields) :
  written_from form (submitted env st initialData form).
Proof.
  unfold submitted, written_from.
  destruct (JS.truthy (FoodForm.Form.imageUri form)); repeat split.
Qed.

(** Its image is the copy, when an image was picked. *)
Lemma submitted_image (env : Env) (st : State) (initialData : option FoodData)
    (form : FoodForm.Form.Fields) :
  imageUri (submitted env st initialData form)
  = Some (if JS.truthy (FoodForm.Form.imageUri form)
          then image_copy env st initialData else "").
Proof.
  unfold submitted, image_copy.
  destruct (JS.truthy (FoodForm.Form.imageUri form)) eqn:E; [reflexivity |].
  apply truthy_false in E. cbn [FoodForm.build imageUri]. now rewrite E.
Qed.

(** ** Operations that save nothing *)

Section Submission.
Variable env : Env.
Hypothesis Hff : fault_free env.

Lemma valid_input_false (form : FoodForm.Form.Fields) :
  valid_input form = false ->
  JS.trim (FoodForm.Form.foodName form) = ""
  \/ FoodForm.Form.weight form = ""
  \/ JS.isNaN_Number (FoodForm.Form.weight form) = true.
Proof.
  unfold valid_input. rewrite !andb_false_iff, negb_false_iff, !truthy_false.
  tauto.
Qed.

(** A form that does not pass validation: one message, nothing else. *)
Lemma handleSubmit_rejected (st : State) (initialData : option FoodData)
    (form : FoodForm.Form.Fields) :
  valid_input form = false ->
  exists message : string,
    FoodForm.handleSubmit env initialData form st
    = (Ok tt,
       mkState (dirExists st) (files st) (trace st) (clockReads st)
         (console st) (dialogs st ++ [Plain message])%list (isLoading st)
         (routerBack st)).
Proof.
  intros H%valid_input_false. unfold FoodForm.handleSubmit, FoodForm.validateForm.
  destruct (JS.truthy (JS.trim (FoodForm.Form.foodName form))) eqn:Hn;
    cbn [negb].
  - destruct H as [H | [H | H]].
    + apply truthy_false in H. congruence.
    + apply truthy_false in H. rewrite H. eexists. reflexivity.
    + rewrite H, orb_true_r. eexists. reflexivity.
  - eexists. reflexivity.
Qed.

(** A picked image that cannot be copied: the copy is the one call made,
    it throws, and the submission ends with the message of failure. *)
Lemma handleSubmit_copy_fails (st : State) (initialData : option FoodData)
    (form : FoodForm.Form.Fields) :
  valid_input form = true ->
  image_ready env st form = false ->
  exists st' : State,
    FoodForm.handleSubmit env initialData form st = (Ok tt, st')
    /\ dirExists st' = dirExists st /\ files st' = files st
    /\ dialogs st' = (dialogs st ++ [Plain failed_message])%list
    /\ routerBack st' = routerBack st
    /\ isLoading st' = false.
Proof.
  intros (Hn & Hw & Hnum)%valid_input_parts Hready.
  unfold FoodForm.handleSubmit.
  erewrite bind_ok by (now apply validateForm_ok). cbn [negb].
  set (st1 := snd (console_log "Submitting with ID:"
                     (FoodForm.initial_id initialData)
                     (snd (setIsLoading true st)))).
  destruct (new_id_ok env initialData st1) as (st2 & E2 & Hc2 & Hd2 & Hf2 & Hu2).
  unfold image_ready in Hready. apply orb_false_iff in Hready as [Huri Hcopy].
  apply negb_false_iff in Huri.
  set (path := (FileSystem.DATA_DIRECTORY env
            ++ (submitted_id env st1 initialData ++ "_"
                ++ JS.toString (clock env (clockReads st2)) ++ ".jpg"))).
  assert (E3 : FoodForm.store_image env
                 (FoodForm.build (submitted_id env st1 initialData) form)
                 (submitted_id env st1 initialData) form st2
               = (Throw (FsError (Copy (FoodForm.Form.imageUri form) path)),
                  record_call (Copy (FoodForm.Form.imageUri form) path)
                    (snd (FileSystem.Date_now env st2)))).
  { unfold FoodForm.store_image. rewrite Huri.
    erewrite bind_ok by reflexivity.
    erewrite bind_throw; [reflexivity |].
    apply (call_none env Hff). cbn [record_call files dirExists FileSystem.Date_now snd].
    rewrite Hf2. unfold st1. cbn [files console_log setIsLoading modify snd].
    destruct (files st !! FoodForm.Form.imageUri form) as [content|] eqn:Hsrc;
      [| reflexivity].
    cbn [mbind option_bind]. unfold FileSystem.parent_exists.
    rewrite startsWith_append. cbn [dirExists]. rewrite Hd2.
    unfold st1. cbn [dirExists console_log setIsLoading modify snd].
    rewrite bool_decide_eq_true_2 in Hcopy by (eexists; reflexivity).
    rewrite andb_true_r in Hcopy. now rewrite Hcopy. }
  eexists. split; [| split; [| split; [| split; [| split]]]].
  - eapply try_finally_ok; [| reflexivity].
    erewrite try_catch_throw; [reflexivity |].
    erewrite bind_ok by reflexivity. erewrite bind_ok by reflexivity.
    erewrite bind_ok by exact E2. erewrite bind_throw by exact E3.
    reflexivity.
  - cbn. rewrite Hd2. reflexivity.
  - cbn. rewrite Hf2. reflexivity.
  - unfold same_screen, failed_message in *. cbn in Hu2 |- *.
    destruct Hu2 as (_ & H2 & _). now rewrite H2.
  - unfold same_screen in *. cbn in Hu2 |- *.
    destruct Hu2 as (_ & _ & _ & H2). now rewrite H2.
  - reflexivity.
Qed.

(** Whatever the form holds, a submission returns normally: the document
    then holds the collection with the submitted record put in, when the
    form is valid and its image can be copied, and the old collection
    otherwise. *)
Lemma handleSubmit_total (st : State) (initialData : option FoodData)
    (form : FoodForm.Form.Fields) (foods : list FoodData) :
  persisted env st = Some foods ->
  exists st' : State,
    FoodForm.handleSubmit env initialData form st = (Ok tt, st')
    /\ (valid_input form = true /\ image_ready env st form = true
        /\ persisted env st'
           = Some (FoodForm.upsert initialData
                     (submitted env st initialData form) foods)
        \/ (valid_input form = false \/ image_ready env st form = false)
           /\ persisted env st' = Some foods).
Proof.
  intros Hp. destruct (valid_input form) eqn:Hvalid.
  - destruct (image_ready env st form) eqn:Hready.
    + pose proof Hvalid as (Hn & Hw & Hnum)%valid_input_parts.
      destruct (handleSubmit_ok env Hff st initialData form foods Hn Hw Hnum
                  Hready Hp) as (st' & E & Hp' & _).
      exists st'. split; [exact E |]. left. auto.
    + destruct (handleSubmit_copy_fails st initialData form Hvalid Hready)
        as (st' & E & _ & Hf & _).
      exists st'. split; [exact E |]. right. split; [now right |].
      unfold persisted. now rewrite Hf.
  - destruct (handleSubmit_rejected st initialData form Hvalid) as [msg E].
    eexists. split; [exact E |]. right. split; [now left | exact Hp].
Qed.

(** A deletion from the list screen where the data directory is missing:
    the write fails, the user is told, no file changes. *)
Lemma deleteFood_no_directory (st : State) (wanted : string)
    (foods : list FoodData) :
  dirExists st = false ->
  persisted env st = Some foods ->
  exists st' : State,
    CategoryScreen.deleteFood env wanted st = (Ok None, st')
    /\ files st' = files st.
Proof.
  intros Hd Hp. unfold CategoryScreen.deleteFood.
  destruct (list_loadFoods_ok env Hff st foods Hp) as (st1 & E1 & Hd1 & Hf1 & _).
  eexists. split.
  - erewrite try_catch_throw; [reflexivity |].
    erewrite bind_ok by exact E1.
    erewrite bind_throw; [reflexivity |].
    rewrite literal_path. apply (call_none env Hff).
    unfold FileSystem.parent_exists. rewrite doc_in_dir.
    cbn [record_call dirExists]. now rewrite Hd1, Hd.
  - cbn. exact Hf1.
Qed.

(** Whatever the state of the directory, a deletion from the list screen
    returns normally and leaves the collection without the records of that
    id, or as it was. *)
Lemma deleteFood_total (st : State) (wanted : string) (foods : list FoodData) :
  persisted env st = Some foods ->
  exists (st' : State) (r : option (list FoodData)),
    CategoryScreen.deleteFood env wanted st = (Ok r, st')
    /\ (persisted env st' = Some (without wanted foods)
        \/ persisted env st' = Some foods).
Proof.
  intros Hp. destruct (dirExists st) eqn:Hd.
  - destruct (deleteFood_ok env Hff st wanted foods Hd Hp) as (st' & E & Hp').
    eauto.
  - destruct (deleteFood_no_directory st wanted foods Hd Hp) as (st' & E & Hf).
    exists st', None. split; [exact E |]. right.
    unfold persisted. now rewrite Hf.
Qed.

End Submission.

(** C1 (as amended). A valid form submitted without an id, with no image
    or with one that can be copied, appends one record: the saved
    collection is the old one followed by the new record, one longer, and
    the new record bears the fields of the form. Its id is the decimal text
    of the clock reading; it differs from every id already there when those
    are the texts of earlier readings. *)
Theorem submit_new_appends (env : Env) (st : State)
    (initialData : option FoodData) (form : FoodForm.Form.Fields)
    (foods : list FoodData) :
  fault_free env ->
  FoodForm.has_id initialData = false ->
  valid_input form = true ->
  image_ready env st form = true ->
  persisted env st = Some foods ->
  let newFood := submitted env st initialData form in
  exists st' : State,
    FoodForm.handleSubmit env initialData form st = (Ok tt, st')
    /\ persisted env st' = Some (foods ++ [newFood])%list
    /\ List.length (foods ++ [newFood])%list = S (List.length foods)
    /\ written_from form newFood
    /\ id newFood = Some (JS.toString (clock env (clockReads st)))
    /\ (Forall (fun food =>
                  exists t : N,
                    id food = Some (JS.toString t)
                    /\ (t < clock env (clockReads st))%N) foods ->
        Forall (fun food => id food <> id newFood) foods).
Proof.
  intros Hff Hnew (Hn & Hw & Hnum)%valid_input_parts Hready Hp newFood.
  destruct (handleSubmit_ok env Hff st initialData form foods Hn Hw Hnum
              Hready Hp) as (st' & E & Hp' & _).
  rewrite upsert_new in Hp' by assumption.
  assert (Hid : id newFood = Some (JS.toString (clock env (clockReads st))))
    by (unfold newFood; now rewrite submitted_has_id, submitted_id_new).
  exists st'. split; [exact E |]. split; [exact Hp' |].
  split; [rewrite length_app; simpl; lia |].
  split; [apply submitted_fields |]. split; [exact Hid |].
  intros Hearlier. eapply Forall_impl; [exact Hearlier |].
  intros food (t & Ht & Hlt) Heq. rewrite Hid, Ht in Heq.
  injection Heq as Heq. apply toString_inj in Heq. lia.
Qed.

Lemma submit_new_appends_witness :
  let foods := [Sample.banana; Sample.cherry] in
  let st := Sample.holding_photo foods in
  let form := FoodForm.pickImage (FoodForm.Picked Sample.photo)
                (Sample.form "  Apple Pie " "100") in
  let newFood := submitted Sample.env st None form in
  exists st' : State,
    FoodForm.handleSubmit Sample.env None form st = (Ok tt, st')
    /\ persisted Sample.env st' = Some (foods ++ [newFood])%list
    /\ List.length (foods ++ [newFood])%list = 3%nat
    /\ written_from form newFood
    /\ id newFood = Some "1000"
    /\ Forall (fun food => id food <> id newFood) foods.
Proof.
  intros foods st form newFood.
  destruct (submit_new_appends Sample.env st None form foods)
    as (st' & E & Hp & Hlen & Hfields & Hid & Hfresh).
  - intros n c. reflexivity.
  - reflexivity.
  - reflexivity.
  - reflexivity.
  - vm_compute. reflexivity.
  - exists st'. split; [exact E |]. split; [exact Hp |].
    split; [exact Hlen |]. split; [exact Hfields |]. split; [exact Hid |].
    apply Hfresh. repeat constructor.
    + exists 999%N. split; [reflexivity | reflexivity].
    + exists 998%N. split; [reflexivity | reflexivity].
Defined.

(** C1, the claim as stated, fails in two ways. When the clock reads a
    value whose text is already the id of a stored record, the new record
    gets that same id. And on a fresh installation a valid form with a
    picked photo appends nothing: the photo is copied before the data
    directory is made, the copy fails and the failure is what the user is
    told. *)
Lemma submit_new_repeats_id :
  (let st := Sample.holding [Sample.apple_pie] in
   let st' := snd (FoodForm.handleSubmit Sample.env None
                     (Sample.form "Apple Tart" "100") st) in
   valid_input (Sample.form "Apple Tart" "100") = true
   /\ persisted Sample.env st = Some [Sample.apple_pie]
   /\ persisted Sample.env st'
      = Some [Sample.apple_pie; Sample.food "1000" "Apple Tart"]
   /\ id (Sample.food "1000" "Apple Tart") = id Sample.apple_pie)
  /\ (let form := FoodForm.pickImage (FoodForm.Picked Sample.photo)
                    (Sample.form "Apple Pie" "100") in
      let st' := snd (FoodForm.handleSubmit Sample.env None form
                        Sample.fresh_photo) in
      valid_input form = true
      /\ persisted Sample.env Sample.fresh_photo = Some []
      /\ persisted Sample.env st' = Some []
      /\ files st' = files Sample.fresh_photo
      /\ dialogs st' = [Plain failed_message]).
Proof. repeat split; vm_compute; reflexivity. Qed.

(** ** Editing *)

(** C2 (as amended). A valid form submitted with the id of a stored
    record, with no image or with one that can be copied, keeps the size of
    the collection and puts the submitted record in the place of the first
    record with that id: it bears that id, the fields of the form and the
    copy of the image. Every other place is as it was; when ids are unique
    that place is the only one with the id. *)
Theorem edit_replaces_matching (env : Env) (st : State)
    (initialData : option FoodData) (form : FoodForm.Form.Fields)
    (wanted : string) (foods : list FoodData) :
  fault_free env ->
  valid_input form = true ->
  image_ready env st form = true ->
  persisted env st = Some foods ->
  FoodForm.initial_id initialData = Some wanted ->
  wanted <> "" ->
  Exists (fun food => id food = Some wanted) foods ->
  let newFood := submitted env st initialData form in
  exists (st' : State) (foods' : list FoodData) (n : nat) (old : FoodData),
    FoodForm.handleSubmit env initialData form st = (Ok tt, st')
    /\ persisted env st' = Some foods'
    /\ List.length foods' = List.length foods
    /\ foods !! n = Some old /\ id old = Some wanted
    /\ foods' !! n = Some newFood /\ id newFood = Some wanted
    /\ written_from form newFood
    /\ imageUri newFood
       = Some (if JS.truthy (FoodForm.Form.imageUri form)
               then image_copy env st initialData else "")
    /\ (forall j : nat, j <> n -> foods' !! j = foods !! j)
    /\ (forall (j : nat) (y : FoodData),
          (j < n)%nat -> foods !! j = Some y -> id y <> Some wanted)
    /\ (NoDup (ids foods) ->
        forall (j : nat) (y : FoodData),
          foods !! j = Some y -> id y = Some wanted -> j = n).
Proof.
  intros Hff (Hn & Hw & Hnum)%valid_input_parts Hready Hp Hid Hne Hex newFood.
  destruct (handleSubmit_ok env Hff st initialData form foods Hn Hw Hnum
              Hready Hp) as (st' & E & Hp' & _).
  destruct (upsert_present initialData newFood wanted foods Hid Hne Hex)
    as (n & old & Hl & Hold & Hfirst & Hup).
  fold newFood in Hp'. rewrite Hup in Hp'.
  exists st', (<[n := newFood]> foods), n, old.
  split; [exact E |]. split; [exact Hp' |].
  split; [apply length_insert |]. split; [exact Hl |]. split; [exact Hold |].
  split; [apply list_lookup_insert_eq; now apply lookup_lt_Some in Hl |].
  split; [unfold newFood;
          now rewrite submitted_has_id, (submitted_id_edit _ _ _ wanted) |].
  split; [apply submitted_fields |]. split; [apply submitted_image |].
  split; [intros j Hj; now apply list_lookup_insert_ne |].
  split; [exact Hfirst |].
  intros Hnd j y Hj Hy.
  apply (NoDup_lookup (ids foods) j n (Some wanted)); [exact Hnd | |];
    unfold ids; rewrite list_lookup_fmap.
  - rewrite Hj. simpl. now rewrite Hy.
  - rewrite Hl. simpl. now rewrite Hold.
Qed.

Lemma edit_replaces_matching_witness :
  let foods := [Sample.banana; Sample.apple_pie; Sample.cherry] in
  let st := Sample.holding_photo foods in
  let form := FoodForm.pickImage (FoodForm.Picked Sample.photo)
                (Sample.form " Apple Tart" "120") in
  exists st' : State,
    FoodForm.handleSubmit Sample.env (Some Sample.apple_pie) form st
    = (Ok tt, st')
    /\ persisted Sample.env st'
       = Some [Sample.banana;
               mkFood (Some "1000") "Apple Tart" default_category "0" "120"
                 "0" "0" "0" "0"
                 (Some "file:///data/foods/1000_1000.jpg");
               Sample.cherry].
Proof.
  intros foods st form.
  destruct (edit_replaces_matching Sample.env st (Some Sample.apple_pie) form
              "1000" foods)
    as (st' & foods' & n & old & E & Hp & Hlen & Hold & Hid & Hnew & Hidn
        & Hfields & Himg & Hother & Hfirst & _).
  - intros k c. reflexivity.
  - reflexivity.
  - reflexivity.
  - vm_compute. reflexivity.
  - reflexivity.
  - discriminate.
  - apply Exists_cons_tl, Exists_cons_hd. reflexivity.
  - exists st'. split; [exact E |]. rewrite Hp. f_equal.
    unfold foods in Hold, Hother, Hfirst, Hlen.
    assert (Hn : n = 1%nat).
    { destruct n as [|[|[|n]]]; cbn in Hold.
      - injection Hold as <-. discriminate Hid.
      - reflexivity.
      - exfalso.
        apply (Hfirst 1%nat Sample.apple_pie); [lia | reflexivity..].
      - discriminate Hold. }
    subst n.
    pose proof (Hother 0%nat ltac:(lia)) as H0.
    pose proof (Hother 2%nat ltac:(lia)) as H2.
    destruct foods' as [|x [|y [|z [|]]]]; try discriminate Hlen.
    cbn in H0, H2, Hnew.
    injection H0 as ->. injection H2 as ->. injection Hnew as ->.
    vm_compute. reflexivity.
Defined.

(** C2, the claim as stated, fails when the image of the form cannot be
    copied. A stored record refers to an image file that is no longer
    there; the form is opened on it, the name is changed and the form
    submitted. The submission is valid and its id is that of a stored
    record, yet the record is not replaced: the collection stays as it was
    and the user is told of a failure. *)
Lemma edit_with_lost_image_replaces_nothing :
  let foods := [Sample.banana; Sample.stale_pie] in
  let st := Sample.holding foods in
  let form := Sample.retitled "Apple Tart"
                (FoodForm.populate (Some Sample.stale_pie)) in
  let st' := snd (FoodForm.handleSubmit Sample.env (Some Sample.stale_pie)
                    form st) in
  valid_input form = true
  /\ persisted Sample.env st = Some foods
  /\ Exists (fun food => id food = id Sample.stale_pie) foods
  /\ fst (FoodForm.handleSubmit Sample.env (Some Sample.stale_pie) form st)
     = Ok tt
  /\ persisted Sample.env st' = Some foods
  /\ Forall (fun food => foodName food <> "Apple Tart") foods
  /\ dialogs st' = [Plain failed_message].
Proof.
  split; [reflexivity |]. split; [vm_compute; reflexivity |].
  split; [apply Exists_cons_tl, Exists_cons_hd; reflexivity |].
  split; [vm_compute; reflexivity |].
  split; [vm_compute; reflexivity |].
  split; [repeat constructor; discriminate | vm_compute; reflexivity].
Qed.

(** C10 (as amended). A valid form submitted with an id that no stored
    record bears, with no image or with one that can be copied, saves the
    collection as it was and reports success: the submitted record is not
    in it. *)
Theorem edit_of_absent_id_saves_unchanged (env : Env) (st : State)
    (initialData : option FoodData) (form : FoodForm.Form.Fields)
    (wanted : string) (foods : list FoodData) :
  fault_free env ->
  valid_input form = true ->
  image_ready env st form = true ->
  persisted env st = Some foods ->
  FoodForm.initial_id initialData = Some wanted ->
  wanted <> "" ->
  Forall (fun food => id food <> Some wanted) foods ->
  exists st' : State,
    FoodForm.handleSubmit env initialData form st = (Ok tt, st')
    /\ persisted env st' = Some foods
    /\ files st' !! FileSystem.FOODS_FILE_PATH env
       = Some (JSON.stringify2 foods)
    /\ dialogs st' = (dialogs st ++ [Plain saved_message])%list
    /\ routerBack st' = S (routerBack st)
    /\ submitted env st initialData form ∉ foods.
Proof.
  intros Hff (Hn & Hw & Hnum)%valid_input_parts Hready Hp Hid Hne Habs.
  destruct (handleSubmit_ok env Hff st initialData form foods Hn Hw Hnum
              Hready Hp) as (st' & E & Hp' & Hdlg & Hback & _ & Hdoc & _).
  rewrite (upsert_absent _ _ wanted) in Hp', Hdoc by assumption.
  exists st'. repeat split; try assumption.
  intros Hin. rewrite Forall_forall in Habs. apply (Habs _ Hin).
  now rewrite submitted_has_id, (submitted_id_edit _ _ _ wanted).
Qed.

Lemma edit_of_absent_id_saves_unchanged_witness :
  let foods := [Sample.banana; Sample.cherry] in
  let st := Sample.holding foods in
  exists st' : State,
    FoodForm.handleSubmit Sample.env (Some Sample.apple_pie)
      (Sample.form "Apple Tart" "120") st = (Ok tt, st')
    /\ persisted Sample.env st' = Some foods
    /\ files st' !! FileSystem.FOODS_FILE_PATH Sample.env
       = Some (JSON.stringify2 foods)
    /\ dialogs st' = (dialogs st ++ [Plain saved_message])%list
    /\ routerBack st' = S (routerBack st)
    /\ submitted Sample.env st (Some Sample.apple_pie)
         (Sample.form "Apple Tart" "120") ∉ foods.
Proof.
  apply (edit_of_absent_id_saves_unchanged Sample.env
           (Sample.holding [Sample.banana; Sample.cherry])
           (Some Sample.apple_pie)
           (Sample.form "Apple Tart" "120") "1000"
           [Sample.banana; Sample.cherry]).
  - intros n c. reflexivity.
  - reflexivity.
  - reflexivity.
  - vm_compute. reflexivity.
  - reflexivity.
  - discriminate.
  - repeat constructor; discriminate.
Defined.

(** C10, the claim as stated, fails when the image of the form cannot be
    copied: the edit of an id that no record bears then reports a failure,
    not success; the document is not written and the screen is not left. *)
Lemma edit_of_absent_id_with_lost_image_fails :
  let foods := [Sample.banana] in
  let st := Sample.holding foods in
  let form := FoodForm.populate (Some Sample.stale_pie) in
  let st' := snd (FoodForm.handleSubmit Sample.env (Some Sample.stale_pie)
                    form st) in
  valid_input form = true
  /\ persisted Sample.env st = Some foods
  /\ Forall (fun food => id food <> id Sample.stale_pie) foods
  /\ fst (FoodForm.handleSubmit Sample.env (Some Sample.stale_pie) form st)
     = Ok tt
  /\ dialogs st' = [Plain failed_message]
  /\ routerBack st' = 0%nat
  /\ trace st'
     = [Copy "file:///gone/foods/1000_1.jpg"
          "file:///data/foods/1000_1000.jpg"].
Proof.
  split; [reflexivity |]. split; [vm_compute; reflexivity |].
  split; [repeat constructor; discriminate |].
  repeat split; vm_compute; reflexivity.
Qed.

(** ** Deleting *)

(** C3 (as amended). Deleting by id, from the form once confirmed or from
    the list screen, saves the collection without the records bearing that
    id: no record left has the id, and the size drops by the number of
    records that had it, which is one when ids are unique and the id is
    there. *)
Theorem delete_removes_matching (env : Env) (st : State) (wanted : string)
    (foods : list FoodData) :
  fault_free env ->
  persisted env st = Some foods ->
  (forall initialData : option FoodData,
     FoodForm.initial_id initialData = Some wanted -> wanted <> "" ->
     exists st' : State,
       FoodForm.handleDelete env initialData FoodForm.Delete st = (Ok tt, st')
       /\ persisted env st' = Some (without wanted foods))
  /\ (dirExists st = true ->
      exists st' : State,
        CategoryScreen.deleteFood env wanted st
        = (Ok (Some (without wanted foods)), st')
        /\ persisted env st' = Some (without wanted foods))
  /\ Forall (fun food => id food <> Some wanted) (without wanted foods)
  /\ (List.length (without wanted foods) + occurrences wanted foods
      = List.length foods)%nat
  /\ (NoDup (ids foods) ->
      Exists (fun food => id food = Some wanted) foods ->
      S (List.length (without wanted foods)) = List.length foods).
Proof.
  intros Hff Hp. split; [| split; [| split; [| split]]].
  - intros initialData Hid Hne.
    destruct (handleDelete_ok env Hff st initialData wanted foods Hid Hne Hp)
      as (st' & E & Hp' & _).
    eauto.
  - intros Hd. now apply deleteFood_ok.
  - apply without_gone.
  - apply without_length.
  - intros Hnd Hex. pose proof (without_length wanted foods) as Hlen.
    rewrite (occurrences_unique wanted foods Hnd Hex) in Hlen. lia.
Qed.

Lemma delete_removes_matching_witness :
  let st := Sample.holding [Sample.banana; Sample.apple_pie] in
  let foods := [Sample.banana; Sample.apple_pie] in
  (forall initialData : option FoodData,
     FoodForm.initial_id initialData = Some "1000" -> "1000" <> "" ->
     exists st' : State,
       FoodForm.handleDelete Sample.env initialData FoodForm.Delete st
       = (Ok tt, st')
       /\ persisted Sample.env st' = Some (without "1000" foods))
  /\ (dirExists st = true ->
      exists st' : State,
        CategoryScreen.deleteFood Sample.env "1000" st
        = (Ok (Some (without "1000" foods)), st')
        /\ persisted Sample.env st' = Some (without "1000" foods))
  /\ Forall (fun food => id food <> Some "1000") (without "1000" foods)
  /\ (List.length (without "1000" foods) + occurrences "1000" foods
      = List.length foods)%nat
  /\ (NoDup (ids foods) ->
      Exists (fun food => id food = Some "1000") foods ->
      S (List.length (without "1000" foods)) = List.length foods).
Proof.
  apply (delete_removes_matching Sample.env
           (Sample.holding [Sample.banana; Sample.apple_pie]) "1000"
           [Sample.banana; Sample.apple_pie]).
  - intros n c. reflexivity.
  - vm_compute. reflexivity.
Defined.

(** C3, the claim as stated, fails for an id that no record bears: the
    collection is saved at its old size. *)
Lemma delete_of_absent_id_keeps_size :
  let st := Sample.holding [Sample.apple_pie] in
  let gone := Sample.food "2000" "Apple Pie" in
  persisted Sample.env st = Some [Sample.apple_pie]
  /\ persisted Sample.env
       (snd (FoodForm.handleDelete Sample.env (Some gone) FoodForm.Delete st))
     = Some [Sample.apple_pie]
  /\ persisted Sample.env (snd (CategoryScreen.deleteFood Sample.env "2000" st))
     = Some [Sample.apple_pie].
Proof. repeat split; vm_compute; reflexivity. Qed.

(** ** Unique ids *)

Lemma upsert_ids (initialData : option FoodData) (newFood : FoodData)
    (wanted : string) (foods : list FoodData) :
  FoodForm.initial_id initialData = Some wanted -> wanted <> "" ->
  id newFood = Some wanted ->
  ids (FoodForm.upsert initialData newFood foods) = ids foods.
Proof.
  intros Hid Hne Hnew.
  destruct (decide (Exists (fun food => id food = Some wanted) foods))
    as [Hex | Hnex].
  - destruct (upsert_present initialData newFood wanted foods Hid Hne Hex)
      as (n & old & Hl & Hold & _ & ->).
    apply (ids_insert_same _ _ old); congruence.
  - rewrite (upsert_absent _ _ wanted); [reflexivity | assumption.. |].
    apply Forall_forall. intros f Hf Heq. apply Hnex.
    apply Exists_exists. eauto.
Qed.

(** C9 (as amended). An edit saves its record under the id it was given
    and leaves the ids of the collection as they were, whatever the form
    holds; edits and deletions keep the ids unique; a creation keeps them
    unique when the text of the clock reading is not yet an id of the
    collection. *)
Theorem operations_keep_ids_unique (env : Env) (st : State)
    (foods : list FoodData) :
  fault_free env ->
  persisted env st = Some foods ->
  NoDup (ids foods) ->
  (forall (initialData : option FoodData) (form : FoodForm.Form.Fields)
          (wanted : string),
     FoodForm.initial_id initialData = Some wanted -> wanted <> "" ->
     exists (st' : State) (foods' : list FoodData),
       FoodForm.handleSubmit env initialData form st = (Ok tt, st')
       /\ persisted env st' = Some foods'
       /\ ids foods' = ids foods
       /\ NoDup (ids foods')
       /\ id (submitted env st initialData form) = Some wanted
       /\ (valid_input form = true -> image_ready env st form = true ->
           Some wanted ∈ ids foods ->
           submitted env st initialData form ∈ foods'))
  /\ (forall (initialData : option FoodData) (wanted : string),
        FoodForm.initial_id initialData = Some wanted -> wanted <> "" ->
        exists (st' : State) (foods' : list FoodData),
          FoodForm.handleDelete env initialData FoodForm.Delete st = (Ok tt, st')
          /\ persisted env st' = Some foods'
          /\ NoDup (ids foods'))
  /\ (forall wanted : string,
        exists (st' : State) (r : option (list FoodData))
               (foods' : list FoodData),
          CategoryScreen.deleteFood env wanted st = (Ok r, st')
          /\ persisted env st' = Some foods'
          /\ NoDup (ids foods'))
  /\ (forall (initialData : option FoodData) (form : FoodForm.Form.Fields),
        FoodForm.has_id initialData = false ->
        Some (JS.toString (clock env (clockReads st))) ∉ ids foods ->
        exists (st' : State) (foods' : list FoodData),
          FoodForm.handleSubmit env initialData form st = (Ok tt, st')
          /\ persisted env st' = Some foods'
          /\ NoDup (ids foods')).
Proof.
  intros Hff Hp Hnd. split; [| split; [| split]].
  - intros initialData form wanted Hid Hne.
    assert (Hsub : id (submitted env st initialData form) = Some wanted)
      by now rewrite submitted_has_id, (submitted_id_edit _ _ _ wanted).
    destruct (handleSubmit_total env Hff st initialData form foods Hp)
      as (st' & E & [(Hvalid & Hready & Hp') | (Hnot & Hp')]).
    + pose proof (upsert_ids initialData _ wanted foods Hid Hne Hsub) as Hids.
      eexists st', _. split; [exact E |]. split; [exact Hp' |].
      split; [exact Hids |]. split; [now rewrite Hids |].
      split; [exact Hsub |]. intros _ _ Hin.
      assert (Hex : Exists (fun food => id food = Some wanted) foods).
      { unfold ids in Hin. apply list_elem_of_fmap in Hin as (f & Hf & Hin).
        apply Exists_exists. eauto. }
      destruct (upsert_present initialData
                  (submitted env st initialData form) wanted foods Hid Hne Hex)
        as (n & old & Hl & _ & _ & ->).
      apply list_elem_of_lookup. exists n.
      apply list_lookup_insert_eq. now apply lookup_lt_Some in Hl.
    + exists st', foods. split; [exact E |]. split; [exact Hp' |].
      split; [reflexivity |]. split; [exact Hnd |]. split; [exact Hsub |].
      intros Hv Hr. destruct Hnot; congruence.
  - intros initialData wanted Hid Hne.
    destruct (handleDelete_ok env Hff st initialData wanted foods Hid Hne Hp)
      as (st' & E & Hp' & _).
    eexists st', _. split; [exact E |]. split; [exact Hp' |].
    now apply ids_without.
  - intros wanted.
    destruct (deleteFood_total env Hff st wanted foods Hp)
      as (st' & r & E & [Hp' | Hp']);
      eexists st', r, _; (split; [exact E |]); (split; [exact Hp' |]).
    + now apply ids_without.
    + exact Hnd.
  - intros initialData form Hnew Hfresh.
    destruct (handleSubmit_total env Hff st initialData form foods Hp)
      as (st' & E & [(Hvalid & Hready & Hp') | (Hnot & Hp')]).
    + rewrite upsert_new in Hp' by assumption.
      eexists st', _. split; [exact E |]. split; [exact Hp' |].
      unfold ids. rewrite fmap_app. apply NoDup_app. split; [exact Hnd |].
      split; [| apply NoDup_singleton].
      intros i Hi Hi'. apply list_elem_of_singleton in Hi'. subst i.
      rewrite submitted_has_id, submitted_id_new in Hi by assumption.
      contradiction.
    + exists st', foods. split; [exact E |]. split; [exact Hp' | exact Hnd].
Qed.

Lemma operations_keep_ids_unique_witness :
  let foods := [Sample.banana; Sample.apple_pie; Sample.cherry] in
  let st := Sample.holding foods in
  (exists (st' : State) (foods' : list FoodData),
     FoodForm.handleSubmit Sample.env (Some Sample.apple_pie)
       (Sample.form "Apple Tart" "120") st = (Ok tt, st')
     /\ persisted Sample.env st' = Some foods'
     /\ ids foods' = [Some "999"; Some "1000"; Some "998"]
     /\ NoDup (ids foods')
     /\ submitted Sample.env st (Some Sample.apple_pie)
          (Sample.form "Apple Tart" "120") ∈ foods')
  /\ (exists (st' : State) (foods' : list FoodData),
        FoodForm.handleSubmit Sample.env (Some Sample.apple_pie)
          (Sample.form_lost_image "Apple Tart" "120") st = (Ok tt, st')
        /\ persisted Sample.env st' = Some foods'
        /\ NoDup (ids foods'))
  /\ (exists (st' : State) (foods' : list FoodData),
        FoodForm.handleDelete Sample.env (Some Sample.apple_pie)
          FoodForm.Delete st = (Ok tt, st')
        /\ persisted Sample.env st' = Some foods'
        /\ NoDup (ids foods'))
  /\ (exists (st' : State) (r : option (list FoodData))
             (foods' : list FoodData),
        CategoryScreen.deleteFood Sample.env "998" st = (Ok r, st')
        /\ persisted Sample.env st' = Some foods'
        /\ NoDup (ids foods'))
  /\ (exists (st' : State) (foods' : list FoodData),
        FoodForm.handleSubmit Sample.env None (Sample.form "Date" "30")
          (Sample.holding [Sample.banana; Sample.cherry]) = (Ok tt, st')
        /\ persisted Sample.env st' = Some foods'
        /\ NoDup (ids foods')).
Proof.
  intros foods st.
  assert (Hnd : NoDup (ids foods)).
  { apply (bool_decide_unpack _). vm_compute. exact I. }
  destruct (operations_keep_ids_unique Sample.env st foods)
    as (Hedit & Hdel & Hlist & _);
    [intros n c; reflexivity | vm_compute; reflexivity | exact Hnd |].
  split; [| split; [| split; [| split]]].
  - destruct (Hedit (Some Sample.apple_pie) (Sample.form "Apple Tart" "120")
                "1000")
      as (st' & foods' & E & Hp & Hids & Hnd' & _ & Hin);
      [reflexivity | discriminate |].
    exists st', foods'. split; [exact E |]. split; [exact Hp |].
    split; [exact Hids |]. split; [exact Hnd' |].
    apply Hin; [reflexivity | reflexivity |].
    apply list_elem_of_further, list_elem_of_here.
  - destruct (Hedit (Some Sample.apple_pie)
                (Sample.form_lost_image "Apple Tart" "120") "1000")
      as (st' & foods' & E & Hp & _ & Hnd' & _);
      [reflexivity | discriminate |].
    exists st', foods'. auto.
  - apply (Hdel (Some Sample.apple_pie) "1000"); [reflexivity | discriminate].
  - apply (Hlist "998").
  - destruct (operations_keep_ids_unique Sample.env
                (Sample.holding [Sample.banana; Sample.cherry])
                [Sample.banana; Sample.cherry])
      as (_ & _ & _ & Hnew);
      [intros n c; reflexivity | vm_compute; reflexivity | |].
    + apply NoDup_cons. split; [| apply NoDup_singleton].
      intros H%list_elem_of_singleton. discriminate H.
    + apply (Hnew None (Sample.form "Date" "30")); [reflexivity |].
      apply (bool_decide_unpack _). vm_compute. exact I.
Defined.

(** C9, the claim as stated, fails for a creation: with unique ids stored
    and the clock reading a value whose text is one of them, the saved
    collection holds that id twice. *)
Lemma create_breaks_unique_ids :
  let st := Sample.holding [Sample.apple_pie; Sample.banana] in
  let st' := snd (FoodForm.handleSubmit Sample.env None
                    (Sample.form "Cherry" "100") st) in
  persisted Sample.env st = Some [Sample.apple_pie; Sample.banana]
  /\ NoDup (ids [Sample.apple_pie; Sample.banana])
  /\ persisted Sample.env st'
     = Some [Sample.apple_pie; Sample.banana; Sample.food "1000" "Cherry"]
  /\ ~ NoDup (ids [Sample.apple_pie; Sample.banana;
                   Sample.food "1000" "Cherry"]).
Proof.
  split; [vm_compute; reflexivity |].
  split.
  { apply NoDup_cons. split; [| apply NoDup_singleton].
    intros H%list_elem_of_singleton. discriminate H. }
  split; [vm_compute; reflexivity |].
  intros [Hnotin _]%NoDup_cons. apply Hnotin. right. left.
Qed.

(** ** Failures of the file system *)

Section Faults.
Variable env : Env.

Lemma fs_only_ret {A} (a : A) : fs_only env (mret a).
Proof.
  intros st r st' [= <- <-]. repeat split. exists []. split.
  - now rewrite app_nil_r.
  - intros k c Hk. discriminate Hk.
Qed.

Lemma fs_only_throw {A} (e : Error) : fs_only env (@throw A e).
Proof.
  intros st r st' [= <- <-]. repeat split. exists []. split.
  - now rewrite app_nil_r.
  - intros k c Hk. discriminate Hk.
Qed.

Lemma fs_only_bind {A B} (m : M A) (k : A -> M B) :
  fs_only env m -> (forall a : A, fs_only env (k a)) -> fs_only env (m ≫= k).
Proof.
  intros Hm Hk st r st' E. unfold mbind, M_bind in E.
  destruct (m st) as [[a|e] st1] eqn:E1.
  - destruct (Hm _ _ _ E1) as (Hc1 & Hd1 & calls1 & Ht1 & Hf1).
    destruct (Hk a _ _ _ E) as (Hc2 & Hd2 & calls2 & Ht2 & Hf2).
    split; [congruence |]. split; [congruence |].
    exists (calls1 ++ calls2)%list. split.
    + now rewrite Ht2, Ht1, app_assoc.
    + intros j c Hj Hfault.
      destruct (decide (j < List.length calls1)%nat) as [Hlt | Hge].
      * rewrite lookup_app_l in Hj by assumption.
        discriminate (Hf1 j c Hj Hfault).
      * rewrite lookup_app_r in Hj by lia.
        apply (Hf2 _ c Hj). rewrite Ht1, length_app.
        replace (List.length (trace st) + List.length calls1
                 + (j - List.length calls1))%nat
          with (List.length (trace st) + j)%nat by lia.
        exact Hfault.
  - injection E as <- <-.
    destruct (Hm _ _ _ E1) as (Hc1 & Hd1 & calls1 & Ht1 & Hf1).
    split; [exact Hc1 |]. split; [exact Hd1 |].
    exists calls1. split; [exact Ht1 |].
    intros j c Hj Hfault. specialize (Hf1 j c Hj Hfault). congruence.
Qed.

Lemma fs_only_call {A} (c : FsCall) (run : State -> option (A * State)) :
  (forall (st : State) (a : A) (st2 : State),
     run st = Some (a, st2) ->
     console st2 = console st /\ dialogs st2 = dialogs st
     /\ trace st2 = trace st) ->
  fs_only env (FileSystem.call env c run).
Proof.
  intros Hrun st r st' E. unfold FileSystem.call in E.
  assert (Hone : forall (k : nat) (c' : FsCall),
            [c] !! k = Some c' -> k = 0%nat /\ c' = c).
  { intros [|k] c' Hk; [now injection Hk | discriminate Hk]. }
  destruct (faulty env (List.length (trace st)) c) eqn:Hf.
  - injection E as <- <-. repeat split. exists [c]. split; [reflexivity |].
    intros k c' Hk _. now destruct (Hone k c' Hk) as [_ ->].
  - destruct (run (record_call c st)) as [[a st2]|] eqn:Er.
    + injection E as <- <-. destruct (Hrun _ _ _ Er) as (Hc & Hd & Ht).
      split; [exact Hc |]. split; [exact Hd |].
      exists [c]. split; [exact Ht |].
      intros k c' Hk Hfault. destruct (Hone k c' Hk) as [-> ->].
      rewrite Nat.add_0_r in Hfault. congruence.
    + injection E as <- <-. repeat split. exists [c]. split; [reflexivity |].
      intros k c' Hk _. now destruct (Hone k c' Hk) as [_ ->].
Qed.

Lemma fs_only_getInfoAsync (path : string) :
  fs_only env (FileSystem.getInfoAsync env path).
Proof. apply fs_only_call. intros st a st2 [= _ <-]. repeat split. Qed.

Lemma fs_only_makeDirectoryAsync (path : string) :
  fs_only env (FileSystem.makeDirectoryAsync env path).
Proof.
  apply fs_only_call. intros st [] st2 H. injection H as <-.
  destruct (String.eqb path _); repeat split.
Qed.

Lemma fs_only_writeAsStringAsync (path content : string) :
  fs_only env (FileSystem.writeAsStringAsync env path content).
Proof.
  apply fs_only_call. intros st a st2 H.
  destruct (FileSystem.parent_exists env st path); [| discriminate H].
  destruct a. injection H as <-. repeat split.
Qed.

Lemma fs_only_readAsStringAsync (path : string) :
  fs_only env (FileSystem.readAsStringAsync env path).
Proof.
  apply fs_only_call. intros st a st2 H.
  destruct (files st !! path); [| discriminate H].
  injection H as _ <-. repeat split.
Qed.

Lemma fs_only_JSON_parse (content : string) :
  fs_only env (FileSystem.JSON_parse content).
Proof.
  unfold FileSystem.JSON_parse.
  destruct (JSON.parse content); [apply fs_only_ret | apply fs_only_throw].
Qed.

Lemma fs_only_ensureDirectoryExists : fs_only env (FoodForm.ensureDirectoryExists env).
Proof.
  apply fs_only_bind; [apply fs_only_getInfoAsync |].
  intros []; [apply fs_only_ret | apply fs_only_makeDirectoryAsync].
Qed.

End Faults.

Lemma faulty_call_reported (env : Env) {A : Type} (st st' : State)
    (r : Result A) (i : nat) (c : FsCall) :
  reports_faults env st r st' ->
  (List.length (trace st) <= i)%nat ->
  trace st' !! i = Some c ->
  faulty env i c = true ->
  r = Throw (FsError c).
Proof.
  intros (calls & Ht & Hf) Hi Hl Hfault. rewrite Ht, lookup_app_r in Hl by lia.
  apply (Hf _ c Hl).
  now replace (List.length (trace st) + (i - List.length (trace st)))%nat
    with i by lia.
Qed.

Section AnyEnvironment.
Variable env : Env.
Abbreviation DATA_DIRECTORY := (FileSystem.DATA_DIRECTORY env).
Abbreviation FOODS_FILE_PATH := (FileSystem.FOODS_FILE_PATH env).

(** [ensureDirectoryExists] in any environment: it succeeds, the directory
    being there afterwards, or the call that failed is thrown. *)
Lemma ensureDirectoryExists_cases (st : State) :
  exists (r : Result unit) (st' : State),
    FoodForm.ensureDirectoryExists env st = (r, st')
    /\ files st' = files st /\ console st' = console st
    /\ (r = Ok tt /\ dirExists st' = true
        \/ exists c : FsCall,
             r = Throw (FsError c)
             /\ (c = GetInfo DATA_DIRECTORY \/ c = MakeDirectory DATA_DIRECTORY)
             /\ exists i : nat, faulty env i c = true).
Proof.
  unfold FoodForm.ensureDirectoryExists, FileSystem.getInfoAsync,
    FileSystem.makeDirectoryAsync, FileSystem.call, mbind, M_bind.
  rewrite String.eqb_refl.
  destruct (faulty env (List.length (trace st)) (GetInfo DATA_DIRECTORY))
    eqn:F1.
  { eexists _, _. split; [reflexivity |]. repeat split. right. eauto 6. }
  cbn [record_call dirExists]. destruct (dirExists st) eqn:Hd; cbn [negb].
  { eexists _, _. split; [reflexivity |]. repeat split. now left. }
  match goal with |- context [if ?f then _ else _] => destruct f eqn:F2 end.
  - eexists _, _. split; [reflexivity |]. repeat split. right. eauto 6.
  - eexists _, _. split; [reflexivity |]. repeat split. now left.
Qed.

(** [saveFoods] in any environment: it succeeds having written the
    document, or logs and throws the call that failed, no file changed. *)
Lemma saveFoods_cases (st : State) (foods : list FoodData) :
  let write := WriteAsString FOODS_FILE_PATH (JSON.stringify2 foods) in
  exists (r : Result unit) (st' : State),
    FoodForm.saveFoods env foods st = (r, st')
    /\ (r = Ok tt
        /\ files st' = <[FOODS_FILE_PATH := JSON.stringify2 foods]> (files st)
        /\ console st' = console st
        /\ (exists i : nat, faulty env i write = false)
        \/ exists c : FsCall,
             r = Throw (FsError c)
             /\ files st' = files st
             /\ console st'
                = (console st ++ [ConsoleError "Error saving foods:" (FsError c)])%list
             /\ (c = GetInfo DATA_DIRECTORY \/ c = MakeDirectory DATA_DIRECTORY
                 \/ c = write)
             /\ exists i : nat, faulty env i c = true).
Proof.
  intros write. unfold FoodForm.saveFoods, try_catch.
  destruct (ensureDirectoryExists_cases st)
    as (r1 & st1 & E1 & Hf1 & Hc1 & [[-> Hd1] | (c & -> & Hc & Hi)]).
  - unfold mbind at 1, M_bind at 1. rewrite E1.
    unfold FileSystem.writeAsStringAsync, FileSystem.call.
    fold write.
    destruct (faulty env (List.length (trace st1)) write) eqn:F.
    + eexists _, _. split; [reflexivity |]. right. exists write.
      cbn. rewrite Hf1, Hc1. repeat split; eauto.
    + unfold FileSystem.parent_exists. rewrite doc_in_dir.
      cbn [record_call dirExists]. rewrite Hd1.
      eexists _, _. split; [reflexivity |]. left.
      cbn. rewrite Hf1, Hc1. repeat split. eauto.
  - unfold mbind at 1, M_bind at 1. rewrite E1.
    eexists _, _. split; [reflexivity |]. right. exists c.
    cbn. rewrite Hf1, Hc1. repeat split; [tauto | exact Hi].
Qed.

(** [loadFoods] in any environment, when the document is there and cannot
    be read. *)
Lemma loadFoods_read_fails (st : State) :
  is_Some (files st !! FOODS_FILE_PATH) ->
  (forall i : nat, faulty env i (ReadAsString FOODS_FILE_PATH) = true) ->
  exists (st' : State) (c : FsCall),
    FoodForm.loadFoods env st = (Ok [], st')
    /\ files st' = files st
    /\ console st'
       = (console st ++ [ConsoleError "Error loading foods:" (FsError c)])%list
    /\ (c = GetInfo DATA_DIRECTORY \/ c = MakeDirectory DATA_DIRECTORY
        \/ c = GetInfo FOODS_FILE_PATH \/ c = ReadAsString FOODS_FILE_PATH).
Proof.
  intros Hdoc Hread. unfold FoodForm.loadFoods, try_catch.
  destruct (ensureDirectoryExists_cases st)
    as (r1 & st1 & E1 & Hf1 & Hc1 & [[-> Hd1] | (c & -> & Hc & _)]).
  - unfold mbind at 1, M_bind at 1. rewrite E1.
    unfold mbind at 1, M_bind at 1.
    unfold FileSystem.getInfoAsync at 1, FileSystem.call at 1.
    destruct (faulty env (List.length (trace st1)) (GetInfo FOODS_FILE_PATH)).
    + eexists _, _. split; [reflexivity |].
      cbn. rewrite Hf1, Hc1. repeat split. tauto.
    + rewrite doc_is_not_dir. cbn [record_call files].
      rewrite Hf1, bool_decide_eq_true_2 by exact Hdoc. cbn [negb].
      unfold mbind at 1, M_bind at 1.
      unfold FileSystem.readAsStringAsync, FileSystem.call.
      rewrite Hread.
      eexists _, _. split; [reflexivity |].
      cbn. rewrite Hf1, Hc1. repeat split. tauto.
  - unfold mbind at 1, M_bind at 1. rewrite E1.
    eexists _, _. split; [reflexivity |].
    cbn. rewrite Hf1, Hc1. repeat split. tauto.
Qed.

End AnyEnvironment.

(** A call that the environment made fail shows in what [loadFoods]
    returns and in what [saveFoods] throws. *)
Lemma loadFoods_reports (env : Env) (st : State) :
  exists (r : list FoodData) (st' : State),
    FoodForm.loadFoods env st = (Ok r, st')
    /\ dialogs st' = dialogs st
    /\ forall (i : nat) (c : FsCall),
         (List.length (trace st) <= i)%nat ->
         trace st' !! i = Some c ->
         faulty env i c = true ->
         r = []
         /\ console st'
            = (console st
               ++ [ConsoleError "Error loading foods:" (FsError c)])%list.
Proof.
  unfold FoodForm.loadFoods, try_catch.
  match goal with |- context [match ?b st with _ => _ end] =>
    set (body := b) end.
  assert (Hbody : fs_only env body).
  { apply fs_only_bind; [apply fs_only_ensureDirectoryExists |]. intros _.
    apply fs_only_bind; [apply fs_only_getInfoAsync |]. intros []; cbn [negb].
    - apply fs_only_bind; [apply fs_only_readAsStringAsync |].
      intros content. apply fs_only_JSON_parse.
    - apply fs_only_bind; [apply fs_only_writeAsStringAsync |]. intros _.
      apply fs_only_ret. }
  destruct (body st) as [[r|e] st1] eqn:E;
    destruct (Hbody _ _ _ E) as (Hc & Hd & Hrep).
  + exists r, st1. split; [reflexivity |]. split; [exact Hd |].
    intros i c Hi Hl Hfault.
    discriminate (faulty_call_reported env st st1 _ i c Hrep Hi Hl Hfault).
  + eexists [], _. split; [reflexivity |]. split; [exact Hd |].
    intros i c Hi Hl Hfault. split; [reflexivity |].
    cbn [console] in *. cbn [trace] in Hl.
    pose proof (faulty_call_reported env st st1 _ i c Hrep Hi Hl Hfault) as He.
    injection He as ->. now rewrite Hc.
Qed.

Lemma saveFoods_reports (env : Env) (st : State) (foods : list FoodData) :
  exists (r : Result unit) (st' : State),
    FoodForm.saveFoods env foods st = (r, st')
    /\ dialogs st' = dialogs st
    /\ forall (i : nat) (c : FsCall),
         (List.length (trace st) <= i)%nat ->
         trace st' !! i = Some c ->
         faulty env i c = true ->
         r = Throw (FsError c)
         /\ console st'
            = (console st
               ++ [ConsoleError "Error saving foods:" (FsError c)])%list.
Proof.
  unfold FoodForm.saveFoods, try_catch.
  match goal with |- context [match ?b st with _ => _ end] =>
    set (body := b) end.
  assert (Hbody : fs_only env body).
  { apply fs_only_bind; [apply fs_only_ensureDirectoryExists |]. intros _.
    apply fs_only_writeAsStringAsync. }
  destruct (body st) as [[[]|e] st1] eqn:E;
    destruct (Hbody _ _ _ E) as (Hc & Hd & Hrep).
  + exists (Ok tt), st1. split; [reflexivity |]. split; [exact Hd |].
    intros i c Hi Hl Hfault.
    discriminate (faulty_call_reported env st st1 _ i c Hrep Hi Hl Hfault).
  + eexists (Throw e), _. split; [reflexivity |]. split; [exact Hd |].
    intros i c Hi Hl Hfault. cbn [console] in *. cbn [trace] in Hl.
    pose proof (faulty_call_reported env st st1 _ i c Hrep Hi Hl Hfault) as He.
    injection He as ->. now rewrite Hc.
Qed.

(** C8. Loading never fails and shows no dialog. A call of the file system
    that the environment made fail makes it return the empty collection,
    the failure written to the console; so it is when the document is there
    and cannot be read, and the document is left as it is. When no call
    fails it returns the stored collection and logs nothing. Saving hands
    a failed call on to its caller, after writing it to the console: when
    the write of the document fails it throws, that very write if the
    calls before it did not fail, and no file is changed. It returns
    normally only when the document was written. *)
Theorem failures_swallowed_or_reported (env : Env) (st : State)
    (foods : list FoodData) :
  let doc := FileSystem.FOODS_FILE_PATH env in
  let write := WriteAsString doc (JSON.stringify2 foods) in
  (exists (r : list FoodData) (st' : State),
     FoodForm.loadFoods env st = (Ok r, st')
     /\ dialogs st' = dialogs st
     /\ (forall (i : nat) (c : FsCall),
          (List.length (trace st) <= i)%nat ->
          trace st' !! i = Some c ->
          faulty env i c = true ->
          r = []
          /\ console st'
             = (console st
                ++ [ConsoleError "Error loading foods:" (FsError c)])%list)
     /\ (is_Some (files st !! doc) ->
         (forall i : nat, faulty env i (ReadAsString doc) = true) ->
         r = [] /\ files st' = files st
         /\ exists c : FsCall,
              console st'
              = (console st
                 ++ [ConsoleError "Error loading foods:" (FsError c)])%list)
     /\ (fault_free env ->
         forall stored : list FoodData,
           persisted env st = Some stored ->
           r = stored /\ console st' = console st))
  /\ (exists (r : Result unit) (st' : State),
        FoodForm.saveFoods env foods st = (r, st')
        /\ dialogs st' = dialogs st
        /\ (forall (i : nat) (c : FsCall),
             (List.length (trace st) <= i)%nat ->
             trace st' !! i = Some c ->
             faulty env i c = true ->
             r = Throw (FsError c)
             /\ console st'
                = (console st
                   ++ [ConsoleError "Error saving foods:" (FsError c)])%list)
        /\ ((forall i : nat, faulty env i write = true) ->
            exists c : FsCall,
              r = Throw (FsError c) /\ files st' = files st
              /\ console st'
                 = (console st
                    ++ [ConsoleError "Error saving foods:" (FsError c)])%list
              /\ ((forall (i : nat) (path : string),
                     faulty env i (GetInfo path) = false
                     /\ faulty env i (MakeDirectory path) = false) ->
                  c = write))
        /\ (r = Ok tt ->
            files st' = <[doc := JSON.stringify2 foods]> (files st)
            /\ console st' = console st)
        /\ (fault_free env -> r = Ok tt)).
Proof.
  intros doc write. split.
  - destruct (loadFoods_reports env st) as (r & st' & E & Hd & Hrep).
    exists r, st'. split; [exact E |]. split; [exact Hd |].
    split; [exact Hrep |]. split.
    + intros Hdoc Hread.
      destruct (loadFoods_read_fails env st Hdoc Hread)
        as (st2 & c & E2 & Hf & Hc & _).
      rewrite E in E2. injection E2 as -> ->. eauto.
    + intros Hff stored Hp.
      destruct (loadFoods_ok env Hff st stored Hp)
        as (st2 & E2 & _ & _ & _ & _ & Hc & _).
      rewrite E in E2. injection E2 as -> ->. auto.
  - destruct (saveFoods_reports env st foods) as (r & st' & E & Hd & Hrep).
    exists r, st'. split; [exact E |]. split; [exact Hd |].
    split; [exact Hrep |].
    destruct (saveFoods_cases env st foods)
      as (r2 & st2 & E2 & Hcases).
    rewrite E in E2. injection E2 as <- <-.
    split; [| split].
    + intros Hwrite.
      destruct Hcases
        as [(_ & _ & _ & i & Hi) | (c & -> & Hf & Hc & Hwhich & i & Hi)].
      * fold doc in Hi. fold write in Hi. rewrite Hwrite in Hi. discriminate Hi.
      * exists c. split; [reflexivity |]. split; [exact Hf |].
        split; [exact Hc |]. intros Hrest.
        destruct Hwhich as [-> | [-> | ->]]; [| | reflexivity].
        -- rewrite (proj1 (Hrest _ _)) in Hi. discriminate Hi.
        -- rewrite (proj2 (Hrest _ _)) in Hi. discriminate Hi.
    + intros ->.
      destruct Hcases as [(_ & Hf & Hc & _) | (c & Hc & _)];
        [auto | discriminate Hc].
    + intros Hff. destruct (saveFoods_ok env Hff st foods) as (st2 & E2 & _).
      rewrite E in E2. now injection E2.
Qed.

Lemma failures_swallowed_or_reported_witness :
  let st := Sample.holding [Sample.apple_pie] in
  let doc := FileSystem.FOODS_FILE_PATH Sample.env in
  let write := WriteAsString doc (JSON.stringify2 [Sample.banana]) in
  fst (FoodForm.loadFoods Sample.env_broken st) = Ok []
  /\ fst (FoodForm.saveFoods Sample.env_broken [Sample.banana] st)
     = Throw (FsError write)
  /\ files (snd (FoodForm.saveFoods Sample.env_broken [Sample.banana] st))
     = files st
  /\ fst (FoodForm.loadFoods Sample.env st) = Ok [Sample.apple_pie]
  /\ fst (FoodForm.saveFoods Sample.env [Sample.banana] st) = Ok tt.
Proof.
  intros st doc write.
  destruct (failures_swallowed_or_reported Sample.env_broken st [Sample.banana])
    as [(r1 & st1 & E1 & _ & _ & Hread & _)
        (r2 & st2 & E2 & _ & _ & Hwrite & _)].
  destruct (failures_swallowed_or_reported Sample.env st [Sample.banana])
    as [(r3 & st3 & E3 & _ & _ & _ & Hgood)
        (r4 & st4 & E4 & _ & _ & _ & _ & Hsaved)].
  destruct Hread as (-> & _);
    [exists (JSON.stringify2 [Sample.apple_pie]); vm_compute; reflexivity
    | intros i; reflexivity |].
  destruct Hwrite as (c & -> & Hf & _ & Hc); [intros i; reflexivity |].
  rewrite Hc in * by (intros i path; split; reflexivity).
  destruct (Hgood ltac:(intros n c'; reflexivity) [Sample.apple_pie])
    as [-> _]; [vm_compute; reflexivity |].
  rewrite Hsaved in E4 by (intros n c'; reflexivity).
  rewrite E1, E2, E3, E4. repeat split. exact Hf.
Defined.

(** A read that fails: the reader returns the empty collection, though the
    document holds a record. A write that fails: [saveFoods] throws it. *)
Example failing_read_and_write :
  let st := Sample.holding [Sample.apple_pie] in
  let doc := FileSystem.FOODS_FILE_PATH Sample.env in
  (let '(r, st') := FoodForm.loadFoods Sample.env_unreadable st in
   r = Ok []
   /\ console st'
      = [ConsoleError "Error loading foods:" (FsError (ReadAsString doc))]
   /\ dialogs st' = []
   /\ persisted Sample.env st' = Some [Sample.apple_pie])
  /\ (let '(r, st') := FoodForm.saveFoods Sample.env_unwritable [] st in
      r = Throw (FsError (WriteAsString doc "[]"))
      /\ console st'
         = [ConsoleError "Error saving foods:"
              (FsError (WriteAsString doc "[]"))]
      /\ persisted Sample.env st' = Some [Sample.apple_pie]).
Proof. repeat split; vm_compute; reflexivity. Qed.

(** * Further properties *)

(** ** Category colours *)


(** X1. Each category of the picker has a colour of its own, none of them
    the fallback grey; any other category gets the fallback, unless it is
    the name of an inherited member. *)
Theorem category_colours (category : string) :
  (category ∈ FoodForm.FOOD_CATEGORIES ->
   exists hex : string,
     CategoryScreen.getCategoryColor category = CategoryScreen.Color hex
     /\ hex <> "#757575"
     /\ forall other : string,
          other ∈ FoodForm.FOOD_CATEGORIES ->
          CategoryScreen.getCategoryColor other = CategoryScreen.Color hex ->
          other = category)
  /\ (category ∉ FoodForm.FOOD_CATEGORIES ->
      category ∉ CategoryScreen.Object_prototype ->
      CategoryScreen.getCategoryColor category = CategoryScreen.Color "#757575").
Proof.
  split.
  - intros Hin. unfold FoodForm.FOOD_CATEGORIES in Hin.
    repeat (apply elem_of_cons in Hin as [-> | Hin]);
      [.. | now apply elem_of_nil in Hin];
      (eexists; split; [vm_compute; reflexivity |]; split; [discriminate |];
       intros other Ho Heq; unfold FoodForm.FOOD_CATEGORIES in Ho;
       repeat (apply elem_of_cons in Ho as [-> | Ho]);
       [.. | now apply elem_of_nil in Ho];
       first [reflexivity | vm_compute in Heq; discriminate Heq]).
  - intros Hnot Hproto. unfold CategoryScreen.getCategoryColor.
    assert (Hnone : CategoryScreen.colors !! category = None).
    { unfold CategoryScreen.colors. apply not_elem_of_list_to_map_1.
      exact Hnot. }
    rewrite Hnone. now rewrite bool_decide_eq_false_2.
Qed.

Lemma category_colours_witness :
  (exists hex : string,
     CategoryScreen.getCategoryColor "果蔬" = CategoryScreen.Color hex
     /\ hex <> "#757575"
     /\ forall other : string,
          other ∈ FoodForm.FOOD_CATEGORIES ->
          CategoryScreen.getCategoryColor other = CategoryScreen.Color hex ->
          other = "果蔬")
  /\ CategoryScreen.getCategoryColor "" = CategoryScreen.Color "#757575".
Proof.
  destruct (category_colours "果蔬") as [Hin _].
  destruct (category_colours "") as [_ Hout].
  split.
  - apply Hin. do 2 apply list_elem_of_further. apply list_elem_of_here.
  - apply Hout; intros H;
      repeat (apply elem_of_cons in H as [H | H]; [discriminate H |]);
      now apply elem_of_nil in H.
Defined.

(** ** Trimming *)

Lemma trimStart_strip (s : string) :
  JS.trimStart s
  = match JS.strip s with Some r => JS.trimStart r | None => s end.
Proof.
  destruct s as [|a r]; [reflexivity |]. cbn [JS.strip].
  destruct (JS.is_space1 a) eqn:E1; [cbn [JS.trimStart]; now rewrite E1 |].
  destruct r as [|b r]; [cbn [JS.trimStart]; now rewrite E1 |].
  destruct (JS.is_space2 a b) eqn:E2; [cbn [JS.trimStart]; now rewrite E1, E2 |].
  destruct r as [|c r]; [cbn [JS.trimStart]; now rewrite E1, E2 |].
  cbn [JS.trimStart]. rewrite E1, E2. now destruct (JS.is_space3 a b c).
Qed.

Lemma strip_shorter (s r : string) :
  JS.strip s = Some r -> (String.length r < String.length s)%nat.
Proof.
  destruct s as [|a [|b [|c t]]]; cbn [JS.strip];
    repeat (match goal with |- context [if ?x then _ else _] => destruct x end);
    intros [= <-]; cbn [String.length]; lia.
Qed.

Lemma strip_append (s r t : string) :
  JS.strip s = Some r -> JS.strip (s ++ t) = Some (r ++ t).
Proof.
  destruct s as [|a [|b [|c u]]]; cbn [JS.strip String.append];
    repeat (match goal with |- context [if ?x then _ else _] => destruct x end);
    intros [= <-]; try reflexivity.
Qed.

Lemma trimStart_stripped (s : string) : JS.strip (JS.trimStart s) = None.
Proof.
  remember (String.length s) as n eqn:Hn. revert s Hn.
  induction n as [n IH] using lt_wf_ind. intros s ->.
  rewrite trimStart_strip. destruct (JS.strip s) as [r|] eqn:E.
  - apply (IH (String.length r)); [now apply strip_shorter | reflexivity].
  - exact E.
Qed.

Lemma trimStart_fixed (s : string) : JS.strip s = None -> JS.trimStart s = s.
Proof. intros H. now rewrite trimStart_strip, H. Qed.

Lemma trimStart_idem (s : string) : JS.trimStart (JS.trimStart s) = JS.trimStart s.
Proof. apply trimStart_fixed, trimStart_stripped. Qed.

Lemma blank_true (s : string) : JS.blank s = true <-> JS.trimStart s = "".
Proof. unfold JS.blank. rewrite negb_true_iff. apply truthy_false. Qed.

Lemma trimStart_blank_append (s t : string) :
  JS.trimStart s = "" -> JS.trimStart (s ++ t) = JS.trimStart t.
Proof.
  remember (String.length s) as n eqn:Hn. revert s Hn.
  induction n as [n IH] using lt_wf_ind. intros s -> Hs.
  rewrite trimStart_strip in Hs. destruct (JS.strip s) as [r|] eqn:E.
  - rewrite (trimStart_strip (s ++ t)), (strip_append _ _ _ E).
    apply (IH (String.length r)); [now apply strip_shorter | reflexivity | exact Hs].
  - now subst s.
Qed.

Lemma trimEnd_cons (a : ascii) (r : string) :
  JS.trimEnd (String a r)
  = if JS.blank (String a r) then "" else String a (JS.trimEnd r).
Proof. reflexivity. Qed.

(** What [trimEnd] takes away is white space. *)
Lemma trimEnd_split (s : string) :
  exists w : string, s = JS.trimEnd s ++ w /\ JS.trimStart w = "".
Proof.
  induction s as [|a r (w & Hw & Hb)].
  - exists "". split; reflexivity.
  - rewrite trimEnd_cons. destruct (JS.blank (String a r)) eqn:E.
    + exists (String a r). split; [reflexivity | now apply blank_true].
    + exists w. split; [simpl; now rewrite <- Hw | exact Hb].
Qed.

Lemma trimEnd_idem (s : string) : JS.trimEnd (JS.trimEnd s) = JS.trimEnd s.
Proof.
  induction s as [|a r IH]; [reflexivity |]. rewrite trimEnd_cons.
  destruct (JS.blank (String a r)) eqn:E; [reflexivity |].
  rewrite trimEnd_cons, IH.
  destruct (JS.blank (String a (JS.trimEnd r))) eqn:E'; [| reflexivity].
  exfalso. apply blank_true in E'.
  destruct (trimEnd_split r) as (w & Hw & Hb).
  assert (JS.blank (String a r) = true); [| congruence].
  apply blank_true. rewrite Hw at 1.
  change (String a (JS.trimEnd r ++ w)) with (String a (JS.trimEnd r) ++ w).
  now rewrite trimStart_blank_append.
Qed.

Lemma strip_trimEnd (s : string) : JS.strip s = None -> JS.strip (JS.trimEnd s) = None.
Proof.
  intros H. destruct (JS.strip (JS.trimEnd s)) as [r|] eqn:E; [| reflexivity].
  destruct (trimEnd_split s) as (w & Hw & _).
  apply (strip_append _ _ w) in E. rewrite <- Hw in E. congruence.
Qed.

Lemma trim_idem (s : string) : JS.trim (JS.trim s) = JS.trim s.
Proof.
  unfold JS.trim.
  rewrite (trimStart_fixed (JS.trimEnd (JS.trimStart s)))
    by apply strip_trimEnd, trimStart_stripped.
  apply trimEnd_idem.
Qed.

Lemma toString_nonempty (n : N) : JS.toString n <> "".
Proof.
  unfold JS.toString. intros H.
  pose proof (NilZero.usu_gen (N.to_uint n)) as Hu. rewrite H in Hu.
  simpl in Hu. destruct Hu as [Hu | Hu]; discriminate Hu.
Qed.

Lemma or_else_nonempty (a b : string) : b <> "" -> JS.or_else a b <> "".
Proof. unfold JS.or_else. destruct a; simpl; congruence. Qed.

Lemma or_else_id (a b : string) : a <> "" -> JS.or_else a b = a.
Proof. unfold JS.or_else. destruct a; simpl; congruence. Qed.


Lemma submitted_id_nonempty (env : Env) (st : State)
    (initialData : option FoodData) :
  submitted_id env st initialData <> "".
Proof.
  unfold submitted_id.
  destruct (FoodForm.initial_id initialData) as [i|];
    [destruct (JS.truthy i) eqn:Hi |]; try apply toString_nonempty.
  now apply truthy_true.
Qed.

(** ** What the form writes *)

Lemma submitted_kept (env : Env) (st : State)
    (initialData : option FoodData) (form : FoodForm.Form.Fields) :
  valid_input form = true ->
  FoodForm.Form.category form <> "" ->
  kept (submitted env st initialData form)
  /\ weight (submitted env st initialData form) = FoodForm.Form.weight form.
Proof.
  intros (Hn & Hw & Hnum)%valid_input_spec Hcat.
  destruct (submitted_fields env st initialData form)
    as (Hname & Hc & Hcal & Hwt & Hp & Hcb & Hf & Hfi).
  assert (Hwt' : weight (submitted env st initialData form)
                 = FoodForm.Form.weight form)
    by (rewrite Hwt; now apply or_else_id).
  split; [| exact Hwt'].
  unfold kept. rewrite Hname, Hc, Hcal, Hwt', Hp, Hcb, Hf, Hfi.
  split; [exists (submitted_id env st initialData); split;
          [apply submitted_has_id | apply submitted_id_nonempty] |].
  split; [exact Hn |]. split; [apply trim_idem |]. split; [exact Hcat |].
  split; [exact Hw |]. split; [exact Hnum |].
  repeat (split; [now apply or_else_nonempty |]).
  unfold submitted.
  destruct (JS.truthy (FoodForm.Form.imageUri form)); eexists; reflexivity.
Qed.



Lemma upsert_Forall (P : FoodData -> Prop) (initialData : option FoodData)
    (newFood : FoodData) (foods : list FoodData) :
  Forall P foods -> P newFood ->
  Forall P (FoodForm.upsert initialData newFood foods).
Proof.
  intros Hall Hnew. unfold FoodForm.upsert.
  destruct (FoodForm.initial_id initialData) as [i|];
    [destruct (JS.truthy i);
     [destruct (negb _); [now apply Forall_insert | exact Hall] |] |];
    (apply Forall_app; split; [exact Hall | now constructor]).
Qed.

Lemma without_Forall (P : FoodData -> Prop) (wanted : string)
    (foods : list FoodData) :
  Forall P foods -> Forall P (without wanted foods).
Proof.
  intros Hall. rewrite Forall_forall in *. intros food Hin.
  apply Hall. unfold without in Hin. now apply list_elem_of_filter in Hin.
Qed.

(** X4. Submitting and deleting keep a collection of kept records one:
    if every stored record is in kept form, so is every record of the
    collection left by a submission, whatever the form holds beside a
    category, by a confirmed deletion from the form and by a deletion from
    the list. *)
Theorem operations_keep_records_kept (env : Env) (st : State)
    (foods : list FoodData) :
  fault_free env ->
  persisted env st = Some foods ->
  Forall kept foods ->
  (forall (initialData : option FoodData) (form : FoodForm.Form.Fields),
     FoodForm.Form.category form <> "" ->
     exists (st' : State) (foods' : list FoodData),
       FoodForm.handleSubmit env initialData form st = (Ok tt, st')
       /\ persisted env st' = Some foods' /\ Forall kept foods')
  /\ (forall (initialData : option FoodData) (wanted : string),
        FoodForm.initial_id initialData = Some wanted -> wanted <> "" ->
        exists (st' : State) (foods' : list FoodData),
          FoodForm.handleDelete env initialData FoodForm.Delete st = (Ok tt, st')
          /\ persisted env st' = Some foods' /\ Forall kept foods')
  /\ (forall wanted : string,
        exists (st' : State) (r : option (list FoodData))
               (foods' : list FoodData),
          CategoryScreen.deleteFood env wanted st = (Ok r, st')
          /\ persisted env st' = Some foods' /\ Forall kept foods').
Proof.
  intros Hff Hp Hall. split; [| split].
  - intros initialData form Hcat.
    destruct (handleSubmit_total env Hff st initialData form foods Hp)
      as (st' & E & [(Hvalid & _ & Hp') | (_ & Hp')]).
    + eexists st', _. split; [exact E |]. split; [exact Hp' |].
      apply upsert_Forall; [exact Hall |].
      now apply submitted_kept.
    + exists st', foods. auto.
  - intros initialData wanted Hid Hne.
    destruct (handleDelete_ok env Hff st initialData wanted foods Hid Hne Hp)
      as (st' & E & Hp' & _).
    eexists st', _. split; [exact E |]. split; [exact Hp' |].
    now apply without_Forall.
  - intros wanted.
    destruct (deleteFood_total env Hff st wanted foods Hp)
      as (st' & r & E & [Hp' | Hp']);
      eexists st', r, _; (split; [exact E |]); (split; [exact Hp' |]).
    + now apply without_Forall.
    + exact Hall.
Qed.

Lemma sample_kept (i name : string) :
  i <> "" -> name <> "" -> JS.trim name = name -> kept (Sample.food i name).
Proof.
  intros Hi Hn Ht. unfold kept, Sample.food; cbn.
  split; [eauto |]. split; [exact Hn |]. split; [exact Ht |].
  repeat (split; [first [discriminate | reflexivity] |]). eexists; reflexivity.
Qed.

Lemma operations_keep_records_kept_witness :
  let foods := [Sample.banana; Sample.cherry] in
  let st := Sample.holding foods in
  (exists (st' : State) (foods' : list FoodData),
     FoodForm.handleSubmit Sample.env None
       (Sample.form (Sample.wide_space ++ "Apple Pie")
          (Sample.nbsp ++ "100")) st = (Ok tt, st')
     /\ persisted Sample.env st' = Some foods'
     /\ List.length foods' = 3%nat /\ Forall kept foods')
  /\ (exists (st' : State) (foods' : list FoodData),
        FoodForm.handleDelete Sample.env (Some Sample.banana) FoodForm.Delete
          st = (Ok tt, st')
        /\ persisted Sample.env st' = Some foods' /\ Forall kept foods')
  /\ (exists (st' : State) (r : option (list FoodData))
             (foods' : list FoodData),
        CategoryScreen.deleteFood Sample.env "998" st = (Ok r, st')
        /\ persisted Sample.env st' = Some foods' /\ Forall kept foods').
Proof.
  intros foods st.
  destruct (operations_keep_records_kept Sample.env st foods)
    as (Hsubmit & Hdelete & Hlist).
  - intros n c. reflexivity.
  - vm_compute. reflexivity.
  - repeat constructor;
      (apply sample_kept; [discriminate | discriminate | reflexivity]).
  - split; [| split].
    + destruct (Hsubmit None
                  (Sample.form (Sample.wide_space ++ "Apple Pie")
                     (Sample.nbsp ++ "100")))
        as (st' & foods' & E & Hp & Hkept); [discriminate |].
      exists st', foods'. split; [exact E |]. split; [exact Hp |].
      split; [| exact Hkept].
      assert (Hrun : persisted Sample.env
                       (snd (FoodForm.handleSubmit Sample.env None
                               (Sample.form (Sample.wide_space ++ "Apple Pie")
                                  (Sample.nbsp ++ "100")) st))
                     = Some (foods
                             ++ [mkFood (Some "1000") "Apple Pie"
                                   default_category "0" (Sample.nbsp ++ "100")
                                   "0" "0" "0" "0" (Some "")])%list)
        by (vm_compute; reflexivity).
      rewrite E in Hrun. cbn [snd] in Hrun. rewrite Hp in Hrun.
      injection Hrun as ->. reflexivity.
    + apply (Hdelete (Some Sample.banana) "999"); [reflexivity | discriminate].
    + apply (Hlist "998").
Defined.

(** ** Editing without a change *)





(** ** Operations in sequence *)

Lemma without_fresh (wanted : string) (foods : list FoodData) :
  Forall (fun food => id food <> Some wanted) foods ->
  without wanted foods = foods.
Proof.
  unfold without. induction 1 as [|f foods Hf _ IH]; [reflexivity |].
  now rewrite filter_cons_True, IH.
Qed.

Lemma without_app_new (wanted : string) (foods : list FoodData)
    (newFood : FoodData) :
  id newFood = Some wanted ->
  without wanted (foods ++ [newFood]) = without wanted foods.
Proof.
  intros Hid. unfold without. rewrite filter_app, filter_cons_False.
  - rewrite filter_nil. apply app_nil_r.
  - intros H. contradiction.
Qed.

(** X6. A record created by the form and then deleted from the form takes
    with it every stored record of the same id: the collection comes back
    as it was exactly when the minted id was fresh. *)
Theorem create_then_delete (env : Env) (st : State)
    (initialData : option FoodData) (form : FoodForm.Form.Fields)
    (foods : list FoodData) :
  fault_free env ->
  FoodForm.has_id initialData = false ->
  valid_input form = true ->
  image_ready env st form = true ->
  persisted env st = Some foods ->
  let newFood := submitted env st initialData form in
  let newId := JS.toString (clock env (clockReads st)) in
  exists st1 st2 : State,
    FoodForm.handleSubmit env initialData form st = (Ok tt, st1)
    /\ FoodForm.handleDelete env (Some newFood) FoodForm.Delete st1 = (Ok tt, st2)
    /\ persisted env st2 = Some (without newId foods)
    /\ (without newId foods = foods <-> Some newId ∉ ids foods).
Proof.
  intros Hff Hnew Hvalid Hready Hp newFood newId.
  pose proof Hvalid as (Hn & Hw & Hnum)%valid_input_spec.
  destruct (handleSubmit_ok env Hff st initialData form foods Hn Hw Hnum
              Hready Hp) as (st1 & E1 & Hp1 & _).
  rewrite upsert_new in Hp1 by assumption.
  assert (Hid : id newFood = Some newId)
    by (unfold newFood, newId; now rewrite submitted_has_id, submitted_id_new).
  destruct (handleDelete_ok env Hff st1 (Some newFood) newId _ Hid
              (toString_nonempty _) Hp1) as (st2 & E2 & Hp2 & _).
  exists st1, st2. split; [exact E1 |]. split; [exact E2 |].
  split; [now rewrite Hp2, without_app_new |].
  split.
  - intros Heq Hin. apply list_elem_of_fmap in Hin as (f & Hf & Hin).
    pose proof (without_gone newId foods) as Hgone. rewrite Heq in Hgone.
    rewrite Forall_forall in Hgone. now apply (Hgone f Hin).
  - intros Hfresh. apply without_fresh, Forall_forall. intros f Hin Hf.
    apply Hfresh. apply list_elem_of_fmap. eauto.
Qed.

Lemma create_then_delete_witness :
  let st := Sample.holding [Sample.banana] in
  let form := Sample.form "Apple Pie" "100" in
  let newFood := submitted Sample.env st None form in
  let newId := JS.toString (clock Sample.env (clockReads st)) in
  exists st1 st2 : State,
    FoodForm.handleSubmit Sample.env None form st = (Ok tt, st1)
    /\ FoodForm.handleDelete Sample.env (Some newFood) FoodForm.Delete st1
       = (Ok tt, st2)
    /\ persisted Sample.env st2 = Some (without newId [Sample.banana])
    /\ (without newId [Sample.banana] = [Sample.banana]
        <-> Some newId ∉ ids [Sample.banana]).
Proof.
  apply (create_then_delete Sample.env (Sample.holding [Sample.banana]) None
           (Sample.form "Apple Pie" "100") [Sample.banana]).
  - intros n c. reflexivity.
  - reflexivity.
  - reflexivity.
  - reflexivity.
  - vm_compute. reflexivity.
Defined.

(** X7. The two screens work on one document: after a submission the
    list reads the collection the form left, which holds the submitted
    record when the form was valid and its image could be copied, and what
    the list writes after a deletion the form reads. *)
Theorem screens_share_document (env : Env) (st : State)
    (foods : list FoodData) :
  fault_free env ->
  persisted env st = Some foods ->
  (forall (initialData : option FoodData) (form : FoodForm.Form.Fields),
     exists (st' st'' : State) (foods' : list FoodData),
       FoodForm.handleSubmit env initialData form st = (Ok tt, st')
       /\ persisted env st' = Some foods'
       /\ CategoryScreen.loadFoods env st' = (Ok foods', st'')
       /\ (valid_input form = true -> image_ready env st form = true ->
           foods' = FoodForm.upsert initialData
                      (submitted env st initialData form) foods))
  /\ (forall wanted : string,
        dirExists st = true ->
        exists st' st'' : State,
          CategoryScreen.deleteFood env wanted st
          = (Ok (Some (without wanted foods)), st')
          /\ FoodForm.loadFoods env st' = (Ok (without wanted foods), st'')).
Proof.
  intros Hff Hp. split.
  - intros initialData form.
    destruct (handleSubmit_total env Hff st initialData form foods Hp)
      as (st' & E & [(Hvalid & Hready & Hp') | (Hnot & Hp')]);
      destruct (list_loadFoods_ok env Hff st' _ Hp') as (st'' & E' & _);
      eexists st', st'', _; (split; [exact E |]); (split; [exact Hp' |]);
      (split; [exact E' |]).
    + reflexivity.
    + intros Hv Hr. destruct Hnot; congruence.
  - intros wanted Hd.
    destruct (deleteFood_ok env Hff st wanted foods Hd Hp) as (st' & E & Hp').
    destruct (loadFoods_ok env Hff st' _ Hp') as (st'' & E' & _).
    eauto.
Qed.

Lemma screens_share_document_witness :
  let foods := [Sample.banana; Sample.cherry] in
  let st := Sample.holding foods in
  (exists st' st'' : State,
     FoodForm.handleSubmit Sample.env None
       (Sample.form (Sample.wide_space ++ "Apple Pie") "100") st = (Ok tt, st')
     /\ CategoryScreen.loadFoods Sample.env st'
        = (Ok [Sample.banana; Sample.cherry; Sample.apple_pie], st''))
  /\ (exists st' st'' : State,
        FoodForm.handleSubmit Sample.env None
          (Sample.form Sample.wide_space "100") st = (Ok tt, st')
        /\ CategoryScreen.loadFoods Sample.env st' = (Ok foods, st''))
  /\ (exists st' st'' : State,
        CategoryScreen.deleteFood Sample.env "999" st
        = (Ok (Some [Sample.cherry]), st')
        /\ FoodForm.loadFoods Sample.env st' = (Ok [Sample.cherry], st'')).
Proof.
  intros foods st.
  destruct (screens_share_document Sample.env st foods) as [Hsubmit Hdelete].
  - intros n c. reflexivity.
  - vm_compute. reflexivity.
  - split; [| split].
    + destruct (Hsubmit None
                  (Sample.form (Sample.wide_space ++ "Apple Pie") "100"))
        as (st' & st'' & foods' & E & _ & E' & Hfoods).
      rewrite Hfoods in E' by reflexivity. eauto.
    + destruct (Hsubmit None (Sample.form Sample.wide_space "100"))
        as (st' & st'' & foods' & E & Hp & E' & _).
      assert (Hrun : persisted Sample.env
                       (snd (FoodForm.handleSubmit Sample.env None
                               (Sample.form Sample.wide_space "100") st))
                     = Some foods) by (vm_compute; reflexivity).
      rewrite E in Hrun. cbn [snd] in Hrun. rewrite Hp in Hrun.
      injection Hrun as ->. eauto.
    + apply (Hdelete "999"). reflexivity.
Defined.

(** ** Files other than the document *)

Section OtherFiles.
Variable env : Env.
Hypothesis Hff : fault_free env.
Abbreviation DATA_DIRECTORY := (FileSystem.DATA_DIRECTORY env).
Abbreviation FOODS_FILE_PATH := (FileSystem.FOODS_FILE_PATH env).

Lemma loadFoods_other_files (st : State) (foods : list FoodData) :
  persisted env st = Some foods ->
  exists st' : State,
    FoodForm.loadFoods env st = (Ok foods, st')
    /\ persisted env st' = Some foods
    /\ same_screen st st'
    /\ forall path : string,
         path <> FOODS_FILE_PATH -> files st' !! path = files st !! path.
Proof.
  intros Hp.
  destruct (loadFoods_ok env Hff st foods Hp)
    as (st' & E & _ & Hp' & Hsome & Hnone & Hu).
  exists st'. split; [exact E |]. split; [exact Hp' |]. split; [exact Hu |].
  intros path Hne. destruct (files st !! FOODS_FILE_PATH) as [doc|] eqn:Hdoc.
  - now rewrite Hsome by (eexists; reflexivity).
  - rewrite Hnone by reflexivity. now apply lookup_insert_ne.
Qed.

Lemma saveFoods_other_files (st : State) (foods : list FoodData) :
  exists st' : State,
    FoodForm.saveFoods env foods st = (Ok tt, st')
    /\ persisted env st' = Some foods
    /\ same_screen st st'
    /\ forall path : string,
         path <> FOODS_FILE_PATH -> files st' !! path = files st !! path.
Proof.
  destruct (saveFoods_ok env Hff st foods) as (st' & E & _ & Hf & Hp' & Hu).
  exists st'. split; [exact E |]. split; [exact Hp' |]. split; [exact Hu |].
  intros path Hne. rewrite Hf. now apply lookup_insert_ne.
Qed.

Lemma store_image_copies (newId : string) (form : FoodForm.Form.Fields)
    (st : State) (content : string) :
  JS.truthy (FoodForm.Form.imageUri form) = true ->
  dirExists st = true ->
  files st !! FoodForm.Form.imageUri form = Some content ->
  let copy := DATA_DIRECTORY
              ++ (newId ++ "_" ++ JS.toString (clock env (clockReads st))
                  ++ ".jpg") in
  exists st' : State,
    FoodForm.store_image env (FoodForm.build newId form) newId form st
    = (Ok (FoodForm.with_image (FoodForm.build newId form) copy), st')
    /\ files st' = <[copy := content]> (files st).
Proof.
  intros Ht Hd Hsrc copy. unfold FoodForm.store_image. rewrite Ht.
  erewrite bind_ok by reflexivity.
  eexists. split.
  - erewrite bind_ok; [reflexivity |].
    apply (call_ok env Hff). cbn [record_call files dirExists]. rewrite Hsrc.
    cbn [mbind option_bind]. unfold FileSystem.parent_exists.
    rewrite startsWith_append. cbn [dirExists]. rewrite Hd. reflexivity.
  - reflexivity.
Qed.

End OtherFiles.

(** X9. Where the data directory and the picked file exist, a valid
    submission with a picked image copies the image into the data directory
    under a name made of the id and the clock reading, and the record put
    into the saved collection refers to the copy; the picked file and every
    other file but the document stay as they were. *)
Theorem submit_copies_image (env : Env) (st : State)
    (initialData : option FoodData) (form : FoodForm.Form.Fields)
    (foods : list FoodData) (content : string) :
  fault_free env ->
  valid_input form = true ->
  JS.truthy (FoodForm.Form.imageUri form) = true ->
  dirExists st = true ->
  files st !! FoodForm.Form.imageUri form = Some content ->
  FoodForm.Form.imageUri form <> FileSystem.FOODS_FILE_PATH env ->
  persisted env st = Some foods ->
  let newFood := submitted env st initialData form in
  let copy := image_copy env st initialData in
  exists st' : State,
    FoodForm.handleSubmit env initialData form st = (Ok tt, st')
    /\ persisted env st' = Some (FoodForm.upsert initialData newFood foods)
    /\ (FoodForm.has_id initialData = false ->
        persisted env st' = Some (foods ++ [newFood])%list)
    /\ imageUri newFood = Some copy
    /\ JS.startsWith (FileSystem.DATA_DIRECTORY env) copy = true
    /\ copy <> FileSystem.FOODS_FILE_PATH env
    /\ files st' !! copy = Some content
    /\ files st' !! FoodForm.Form.imageUri form = Some content
    /\ forall path : string,
         path <> FileSystem.FOODS_FILE_PATH env -> path <> copy ->
         files st' !! path = files st !! path.
Proof.
  intros Hff (Hn & Hw & Hnum)%valid_input_spec Ht Hd Hsrc Huri Hp newFood copy.
  set (newId := submitted_id env st initialData).
  set (st1 := snd (console_log "Submitting with ID:"
                     (FoodForm.initial_id initialData)
                     (snd (setIsLoading true st)))).
  destruct (new_id_ok env initialData st1) as (st2 & E2 & Hc2 & Hd2 & Hf2 & _).
  assert (Hcopy2 : FileSystem.DATA_DIRECTORY env
                   ++ (newId ++ "_" ++ JS.toString (clock env (clockReads st2))
                       ++ ".jpg") = copy)
    by (unfold copy, image_copy; now rewrite Hc2).
  destruct (store_image_copies env Hff newId form st2 content Ht)
    as (st3 & E3 & Hf3);
    [now rewrite Hd2 | now rewrite Hf2 |]. rewrite Hcopy2 in E3, Hf3.
  assert (Hcopy : copy <> FileSystem.FOODS_FILE_PATH env)
    by apply image_is_not_doc.
  assert (Hp3 : persisted env st3 = Some foods).
  { unfold persisted. rewrite Hf3, lookup_insert_ne by exact Hcopy.
    rewrite Hf2. exact Hp. }
  destruct (loadFoods_other_files env Hff st3 foods Hp3)
    as (st4 & E4 & _ & _ & Hf4).
  destruct (saveFoods_other_files env Hff st4
              (FoodForm.upsert initialData newFood foods))
    as (st5 & E5 & Hp5 & _ & Hf5).
  assert (Himg : imageUri newFood = Some copy)
    by (unfold newFood; now rewrite submitted_image, Ht).
  assert (Hnew : FoodForm.with_image (FoodForm.build newId form) copy = newFood).
  { unfold newFood, submitted. rewrite Ht. reflexivity. }
  assert (Hother : forall path : string,
            path <> FileSystem.FOODS_FILE_PATH env ->
            files st5 !! path = <[copy := content]> (files st) !! path).
  { intros path Hne. rewrite Hf5, Hf4 by exact Hne. rewrite Hf3, Hf2.
    reflexivity. }
  eexists.
  split; [| split; [| split; [| split; [| split; [| split; [| split;
    [| split]]]]]]].
  - unfold FoodForm.handleSubmit.
    erewrite bind_ok by (now apply validateForm_ok). cbn [negb].
    eapply try_finally_ok; [| reflexivity]. apply try_catch_ok.
    erewrite bind_ok by reflexivity. erewrite bind_ok by reflexivity.
    erewrite bind_ok by exact E2. fold newId.
    erewrite bind_ok by exact E3. rewrite Hnew.
    erewrite bind_ok by exact E4.
    erewrite bind_ok by exact E5. reflexivity.
  - exact Hp5.
  - intros Hnone. cbn. change (persisted env st5 = Some (foods ++ [newFood])%list).
    rewrite Hp5. now rewrite upsert_new.
  - exact Himg.
  - apply startsWith_append.
  - exact Hcopy.
  - cbn. rewrite Hother by exact Hcopy. apply lookup_insert_eq.
  - cbn. rewrite Hother by exact Huri.
    destruct (decide (copy = FoodForm.Form.imageUri form)) as [<- | Hne].
    + apply lookup_insert_eq.
    + rewrite lookup_insert_ne by exact Hne. exact Hsrc.
  - intros path Hne Hnc. cbn. rewrite Hother by exact Hne.
    apply lookup_insert_ne. congruence.
Qed.

Lemma submit_copies_image_witness :
  let st := Sample.holding_photo [Sample.banana] in
  let form := FoodForm.pickImage (FoodForm.Picked Sample.photo)
                (Sample.form "Apple Pie" "100") in
  let copy := "file:///data/foods/1000_1001.jpg" in
  exists st' : State,
    FoodForm.handleSubmit Sample.env None form st = (Ok tt, st')
    /\ persisted Sample.env st'
       = Some [Sample.banana;
               mkFood (Some "1000") "Apple Pie" default_category "0" "100"
                 "0" "0" "0" "0" (Some copy)]
    /\ files st' !! copy = Some "JPEG"
    /\ files st' !! Sample.photo = Some "JPEG".
Proof.
  intros st form copy.
  destruct (submit_copies_image Sample.env st None form [Sample.banana] "JPEG")
    as (st' & E & _ & Hp & _ & _ & _ & Hcopy & Hphoto & _).
  - intros n c. reflexivity.
  - reflexivity.
  - reflexivity.
  - reflexivity.
  - vm_compute. reflexivity.
  - discriminate.
  - vm_compute. reflexivity.
  - exists st'. split; [exact E |]. split; [apply Hp; reflexivity |].
    split; [exact Hcopy | exact Hphoto].
Defined.



(** X10. Deleting a record deletes no file: after a confirmed deletion
    from the form, or a deletion from the list, every file other than the
    document, the image copy of the deleted record among them, is still
    there with its content. *)
Theorem delete_keeps_other_files (env : Env) (st : State) (wanted : string)
    (foods : list FoodData) (path : string) :
  fault_free env ->
  persisted env st = Some foods ->
  path <> FileSystem.FOODS_FILE_PATH env ->
  (forall initialData : option FoodData,
     FoodForm.initial_id initialData = Some wanted -> wanted <> "" ->
     exists st' : State,
       FoodForm.handleDelete env initialData FoodForm.Delete st = (Ok tt, st')
       /\ files st' !! path = files st !! path)
  /\ (dirExists st = true ->
      exists (r : option (list FoodData)) (st' : State),
        CategoryScreen.deleteFood env wanted st = (Ok r, st')
        /\ files st' !! path = files st !! path).
Proof.
  intros Hff Hp Hne. split.
  - intros initialData Hid Hw%truthy_true. unfold FoodForm.handleDelete.
    rewrite Hid, Hw. unfold FoodForm.confirmDelete.
    set (st1 := snd (setIsLoading true
                       (snd (show (Titled "確認刪除" "確定要刪除這個食物嗎？") st)))).
    assert (Hp1 : persisted env st1 = Some foods) by exact Hp.
    destruct (loadFoods_other_files env Hff st1 foods Hp1)
      as (st2 & E2 & _ & _ & Hf2).
    destruct (saveFoods_other_files env Hff st2 (without wanted foods))
      as (st3 & E3 & _ & _ & Hf3).
    eexists. split.
    + apply try_catch_ok. erewrite bind_ok by reflexivity.
      eapply try_finally_ok; [| reflexivity]. apply try_catch_ok.
      erewrite bind_ok by reflexivity. erewrite bind_ok by exact E2.
      erewrite bind_ok by exact E3. reflexivity.
    + cbn. now rewrite Hf3, Hf2.
  - intros Hd.
    destruct (list_loadFoods_ok env Hff st foods Hp) as (st1 & E1 & Hd1 & Hf1 & _).
    eexists _, _. split.
    + unfold CategoryScreen.deleteFood. apply try_catch_ok.
      erewrite bind_ok by exact E1.
      erewrite bind_ok; [reflexivity |].
      rewrite literal_path. apply (write_doc env Hff). now rewrite Hd1.
    + cbn [with_fs record_call files]. rewrite lookup_insert_ne by congruence.
      now rewrite Hf1.
Qed.

Lemma delete_keeps_other_files_witness :
  let st := Sample.holding_photo [Sample.apple_pie] in
  (forall initialData : option FoodData,
     FoodForm.initial_id initialData = Some "1000" -> "1000" <> "" ->
     exists st' : State,
       FoodForm.handleDelete Sample.env initialData FoodForm.Delete st
       = (Ok tt, st')
       /\ files st' !! Sample.photo = files st !! Sample.photo)
  /\ (dirExists st = true ->
      exists (r : option (list FoodData)) (st' : State),
        CategoryScreen.deleteFood Sample.env "1000" st = (Ok r, st')
        /\ files st' !! Sample.photo = files st !! Sample.photo).
Proof.
  apply (delete_keeps_other_files Sample.env
           (Sample.holding_photo [Sample.apple_pie]) "1000"
           [Sample.apple_pie] Sample.photo).
  - intros n c. reflexivity.
  - vm_compute. reflexivity.
  - discriminate.
Defined.

(** ** Outcomes in any environment *)

Section Quiet.
Variable env : Env.

Lemma quiet_ret {A} (a : A) : quiet (mret a : M A).
Proof. intros st r st' [= <- <-]. split; reflexivity. Qed.

Lemma quiet_throw {A} (e : Error) : quiet (@throw A e).
Proof. intros st r st' [= <- <-]. split; reflexivity. Qed.

Lemma quiet_bind {A B} (m : M A) (k : A -> M B) :
  quiet m -> (forall a : A, quiet (k a)) -> quiet (m ≫= k).
Proof.
  intros Hm Hk st r st' E. unfold mbind, M_bind in E.
  destruct (m st) as [[a|e] st1] eqn:E1; destruct (Hm _ _ _ E1) as [Hd Hb].
  - destruct (Hk a _ _ _ E) as [Hd' Hb']. split; congruence.
  - injection E as <- <-. split; assumption.
Qed.

Lemma quiet_try_catch {A} (body : M A) (handler : Error -> M A) :
  quiet body -> (forall e : Error, quiet (handler e)) ->
  quiet (try_catch body handler).
Proof.
  intros Hb Hh st r st' E. unfold try_catch in E.
  destruct (body st) as [[a|e] st1] eqn:E1; destruct (Hb _ _ _ E1) as [Hd Hr].
  - injection E as <- <-. split; assumption.
  - destruct (Hh e _ _ _ E) as [Hd' Hr']. split; congruence.
Qed.

Lemma quiet_call {A} (c : FsCall) (run : State -> option (A * State)) :
  (forall (st : State) (a : A) (st2 : State),
     run st = Some (a, st2) ->
     dialogs st2 = dialogs st /\ routerBack st2 = routerBack st) ->
  quiet (FileSystem.call env c run).
Proof.
  intros Hrun st r st' E. unfold FileSystem.call in E.
  destruct (faulty env _ c); [injection E as <- <-; split; reflexivity |].
  destruct (run (record_call c st)) as [[a st2]|] eqn:Er.
  - injection E as <- <-. exact (Hrun _ _ _ Er).
  - injection E as <- <-. split; reflexivity.
Qed.

Lemma quiet_getInfoAsync (path : string) :
  quiet (FileSystem.getInfoAsync env path).
Proof. apply quiet_call. intros st a st2 [= _ <-]. split; reflexivity. Qed.

Lemma quiet_makeDirectoryAsync (path : string) :
  quiet (FileSystem.makeDirectoryAsync env path).
Proof.
  apply quiet_call. intros st [] st2 H. injection H as <-.
  destruct (String.eqb path _); split; reflexivity.
Qed.

Lemma quiet_writeAsStringAsync (path content : string) :
  quiet (FileSystem.writeAsStringAsync env path content).
Proof.
  apply quiet_call. intros st [] st2 H.
  destruct (FileSystem.parent_exists env st path); [| discriminate H].
  injection H as <-. split; reflexivity.
Qed.

Lemma quiet_readAsStringAsync (path : string) :
  quiet (FileSystem.readAsStringAsync env path).
Proof.
  apply quiet_call. intros st a st2 H.
  destruct (files st !! path); [| discriminate H].
  injection H as _ <-. split; reflexivity.
Qed.

Lemma quiet_copyAsync (from to : string) :
  quiet (FileSystem.copyAsync env from to).
Proof.
  apply quiet_call. intros st [] st2 H.
  destruct (files st !! from); [| discriminate H]. cbn in H.
  destruct (FileSystem.parent_exists env st to); [| discriminate H].
  injection H as <-. split; reflexivity.
Qed.

Lemma quiet_modify (f : State -> State) :
  (forall st : State,
     dialogs (f st) = dialogs st /\ routerBack (f st) = routerBack st) ->
  quiet (modify f).
Proof. intros Hf st r st' [= <- <-]. apply Hf. Qed.

Lemma quiet_console_error (label : string) (e : Error) :
  quiet (console_error label e).
Proof. apply quiet_modify. intros st. split; reflexivity. Qed.

Lemma quiet_console_log (label : string) (v : option string) :
  quiet (console_log label v).
Proof. apply quiet_modify. intros st. split; reflexivity. Qed.

Lemma quiet_setIsLoading (b : bool) : quiet (setIsLoading b).
Proof. apply quiet_modify. intros st. split; reflexivity. Qed.

Lemma quiet_Date_now : quiet (FileSystem.Date_now env).
Proof. intros st r st' [= <- <-]. split; reflexivity. Qed.

Lemma quiet_ensureDirectoryExists : quiet (FoodForm.ensureDirectoryExists env).
Proof.
  apply quiet_bind; [apply quiet_getInfoAsync |].
  intros []; [apply quiet_ret | apply quiet_makeDirectoryAsync].
Qed.

Lemma quiet_loadFoods : quiet (FoodForm.loadFoods env).
Proof.
  apply quiet_try_catch.
  - apply quiet_bind; [apply quiet_ensureDirectoryExists |]. intros _.
    apply quiet_bind; [apply quiet_getInfoAsync |]. intros []; cbn [negb].
    + apply quiet_bind; [apply quiet_readAsStringAsync |]. intros content.
      unfold FileSystem.JSON_parse.
      destruct (JSON.parse content); [apply quiet_ret | apply quiet_throw].
    + apply quiet_bind; [apply quiet_writeAsStringAsync |]. intros _.
      apply quiet_ret.
  - intros e. apply quiet_bind; [apply quiet_console_error |]. intros _.
    apply quiet_ret.
Qed.

Lemma quiet_saveFoods (foods : list FoodData) :
  quiet (FoodForm.saveFoods env foods).
Proof.
  apply quiet_try_catch.
  - apply quiet_bind; [apply quiet_ensureDirectoryExists |]. intros _.
    apply quiet_writeAsStringAsync.
  - intros e. apply quiet_bind; [apply quiet_console_error |]. intros _.
    apply quiet_throw.
Qed.

Lemma quiet_new_id (initialData : option FoodData) :
  quiet (FoodForm.new_id env initialData).
Proof.
  unfold FoodForm.new_id.
  destruct (FoodForm.initial_id initialData) as [i|];
    [destruct (JS.truthy i); [apply quiet_ret |] |];
    (apply quiet_bind; [apply quiet_Date_now | intros now; apply quiet_ret]).
Qed.

Lemma quiet_store_image (newFood : FoodData) (newId : string)
    (form : FoodForm.Form.Fields) :
  quiet (FoodForm.store_image env newFood newId form).
Proof.
  unfold FoodForm.store_image.
  destruct (JS.truthy (FoodForm.Form.imageUri form)); [| apply quiet_ret].
  apply quiet_bind; [apply quiet_Date_now |]. intros now.
  apply quiet_bind; [apply quiet_copyAsync |]. intros _. apply quiet_ret.
Qed.

Lemma reports_bind {A} (done : Dialog) (m : M A) (k : A -> M unit) :
  quiet m -> (forall a : A, reports done (k a)) -> reports done (m ≫= k).
Proof.
  intros Hm Hk st r st' E. unfold mbind, M_bind in E.
  destruct (m st) as [[a|e] st1] eqn:E1; destruct (Hm _ _ _ E1) as [Hd Hb].
  - destruct (Hk a _ _ _ E) as [(-> & Hd' & Hb') | (e & -> & Hd' & Hb')].
    + left. repeat split; congruence.
    + right. exists e. repeat split; congruence.
  - injection E as <- <-. right. exists e. repeat split; assumption.
Qed.

Lemma reports_done (done : Dialog) : reports done (show done;;; router_back).
Proof. intros st r st' [= <- <-]. left. repeat split. Qed.

End Quiet.

(** X11. Whatever the file system does, a submission that passes
    validation never throws and ends with the busy flag down and exactly
    one more dialog: the record is reported saved and the screen goes
    back, or the save is reported failed, with the error on the console,
    and the screen stays. *)
Theorem submission_outcome (env : Env) (st : State)
    (initialData : option FoodData) (form : FoodForm.Form.Fields) :
  valid_input form = true ->
  exists st' : State,
    FoodForm.handleSubmit env initialData form st = (Ok tt, st')
    /\ isLoading st' = false
    /\ ((dialogs st' = (dialogs st ++ [Plain saved_message])%list
         /\ routerBack st' = S (routerBack st))
        \/ (dialogs st' = (dialogs st ++ [Plain failed_message])%list
            /\ routerBack st' = routerBack st
            /\ exists e : Error,
                 last (console st')
                 = Some (ConsoleError "Error in handleSubmit:" e))).
Proof.
  intros (Hn & Hw & Hnum)%valid_input_spec. unfold FoodForm.handleSubmit.
  erewrite bind_ok by (now apply validateForm_ok). cbn [negb].
  unfold try_finally, try_catch.
  match goal with |- context [match ?b st with _ => _ end] =>
    set (body := b) end.
  assert (Hbody : reports (Plain saved_message) body).
  { apply reports_bind; [apply quiet_setIsLoading |]. intros _.
    apply reports_bind; [apply quiet_console_log |]. intros _.
    apply reports_bind; [apply quiet_new_id |]. intros newId.
    apply reports_bind; [apply quiet_store_image |]. intros newFood.
    apply reports_bind; [apply quiet_loadFoods |]. intros foods.
    apply reports_bind; [apply quiet_saveFoods |]. intros _.
    apply reports_done. }
  destruct (body st) as [r st1] eqn:E.
  destruct (Hbody _ _ _ E) as [(-> & Hd & Hb) | (e & -> & Hd & Hb)].
  - eexists. split; [reflexivity |]. split; [reflexivity |]. left.
    split; assumption.
  - eexists. split; [reflexivity |]. split; [reflexivity |]. right.
    cbn. rewrite Hd, Hb. repeat split. exists e. apply last_snoc.
Qed.

Lemma submission_outcome_witness :
  let st := Sample.holding [Sample.banana] in
  exists st' : State,
    FoodForm.handleSubmit Sample.env_unwritable None
      (Sample.form "Apple Pie" "100") st = (Ok tt, st')
    /\ isLoading st' = false
    /\ ((dialogs st' = (dialogs st ++ [Plain saved_message])%list
         /\ routerBack st' = S (routerBack st))
        \/ (dialogs st' = (dialogs st ++ [Plain failed_message])%list
            /\ routerBack st' = routerBack st
            /\ exists e : Error,
                 last (console st')
                 = Some (ConsoleError "Error in handleSubmit:" e))).
Proof.
  apply (submission_outcome Sample.env_unwritable
           (Sample.holding [Sample.banana]) None
           (Sample.form "Apple Pie" "100")).
  reflexivity.
Defined.

(** A failed write: the failure is reported and the document keeps its
    record. *)
Example failed_submission :
  let st' := snd (FoodForm.handleSubmit Sample.env_unwritable None
                    (Sample.form "Apple Pie" "100")
                    (Sample.holding [Sample.banana])) in
  dialogs st' = [Plain failed_message]
  /\ routerBack st' = 0%nat
  /\ persisted Sample.env st' = Some [Sample.banana].
Proof. repeat split; vm_compute; reflexivity. Qed.

(** X12. The delete button acts only on a record with an id and only once
    the user has confirmed: without an id nothing at all happens, and on
    cancel the confirmation dialog is all there is. In neither case is the
    file system called. *)
Theorem delete_needs_id_and_confirmation (env : Env) (st : State)
    (initialData : option FoodData) (choice : FoodForm.Choice) :
  (FoodForm.has_id initialData = false ->
   FoodForm.handleDelete env initialData choice st = (Ok tt, st))
  /\ (FoodForm.has_id initialData = true ->
      FoodForm.handleDelete env initialData FoodForm.Cancel st
      = (Ok tt, snd (show confirm_dialog st)))
  /\ trace (snd (show confirm_dialog st)) = trace st
  /\ files (snd (show confirm_dialog st)) = files st.
Proof.
  unfold FoodForm.handleDelete, FoodForm.has_id.
  destruct (FoodForm.initial_id initialData) as [i|];
    [destruct (JS.truthy i) |]; repeat split; try discriminate.
Qed.

Lemma delete_needs_id_and_confirmation_witness :
  let st := Sample.holding [Sample.apple_pie] in
  FoodForm.handleDelete Sample.env
    (Some (mkFood None "Apple Pie" default_category "0" "100" "0" "0" "0" "0"
             None))
    FoodForm.Delete st = (Ok tt, st)
  /\ FoodForm.handleDelete Sample.env (Some Sample.apple_pie) FoodForm.Cancel st
     = (Ok tt, snd (show confirm_dialog st)).
Proof.
  split.
  - apply (delete_needs_id_and_confirmation Sample.env
             (Sample.holding [Sample.apple_pie])
             (Some (mkFood None "Apple Pie" default_category "0" "100" "0" "0"
                      "0" "0" None)) FoodForm.Delete).
    reflexivity.
  - apply (delete_needs_id_and_confirmation Sample.env
             (Sample.holding [Sample.apple_pie]) (Some Sample.apple_pie)
             FoodForm.Cancel).
    reflexivity.
Defined.

(** X13. Whatever the file system does, a confirmed deletion never throws
    and ends with the busy flag down: after the confirmation dialog comes
    either the dialog that reports the deletion, and the screen goes back,
    or the dialog that reports the failure, and the screen stays. *)
Theorem deletion_outcome (env : Env) (st : State)
    (initialData : option FoodData) :
  FoodForm.has_id initialData = true ->
  exists st' : State,
    FoodForm.handleDelete env initialData FoodForm.Delete st = (Ok tt, st')
    /\ isLoading st' = false
    /\ ((dialogs st' = (dialogs st ++ [confirm_dialog; deleted_dialog])%list
         /\ routerBack st' = S (routerBack st))
        \/ (dialogs st'
            = (dialogs st ++ [confirm_dialog; delete_failed_dialog])%list
            /\ routerBack st' = routerBack st)).
Proof.
  unfold FoodForm.has_id, FoodForm.handleDelete.
  destruct (FoodForm.initial_id initialData) as [wanted|]; [| discriminate].
  intros ->. unfold FoodForm.confirmDelete.
  unfold try_catch at 1. erewrite bind_ok by reflexivity.
  unfold try_finally, try_catch.
  match goal with |- context [match ?b ?s with _ => _ end] =>
    set (body := b); set (st0 := s) end.
  assert (Hbody : reports deleted_dialog body).
  { apply reports_bind; [apply quiet_setIsLoading |]. intros _.
    apply reports_bind; [apply quiet_loadFoods |]. intros foods.
    apply reports_bind; [apply quiet_saveFoods |]. intros _.
    apply reports_done. }
  destruct (body st0) as [r st1] eqn:E.
  destruct (Hbody _ _ _ E) as [(-> & Hd & Hb) | (e & -> & Hd & Hb)].
  - eexists. split; [reflexivity |]. split; [reflexivity |]. left.
    cbn. rewrite Hd, Hb. subst st0. cbn. rewrite <- app_assoc. split; reflexivity.
  - eexists. split; [reflexivity |]. split; [reflexivity |]. right.
    cbn. rewrite Hd, Hb. subst st0. cbn. rewrite <- app_assoc. split; reflexivity.
Qed.

Lemma deletion_outcome_witness :
  let st := Sample.holding [Sample.apple_pie] in
  exists st' : State,
    FoodForm.handleDelete Sample.env_unwritable (Some Sample.apple_pie)
      FoodForm.Delete st = (Ok tt, st')
    /\ isLoading st' = false
    /\ ((dialogs st' = (dialogs st ++ [confirm_dialog; deleted_dialog])%list
         /\ routerBack st' = S (routerBack st))
        \/ (dialogs st'
            = (dialogs st ++ [confirm_dialog; delete_failed_dialog])%list
            /\ routerBack st' = routerBack st)).
Proof.
  apply (deletion_outcome Sample.env_unwritable
           (Sample.holding [Sample.apple_pie]) (Some Sample.apple_pie)).
  reflexivity.
Defined.

(** ** Loading changes no stored data *)

Section KeepsFiles.
Variable env : Env.

Lemma keeps_files_ret {A} (a : A) : keeps_files (mret a : M A).
Proof. now intros st r st' [= <- <-]. Qed.

Lemma keeps_files_throw {A} (e : Error) : keeps_files (@throw A e).
Proof. now intros st r st' [= <- <-]. Qed.

Lemma keeps_files_bind {A B} (m : M A) (k : A -> M B) :
  keeps_files m -> (forall a : A, keeps_files (k a)) -> keeps_files (m ≫= k).
Proof.
  intros Hm Hk st r st' E. unfold mbind, M_bind in E.
  destruct (m st) as [[a|e] st1] eqn:E1; pose proof (Hm _ _ _ E1) as H1.
  - pose proof (Hk a _ _ _ E). congruence.
  - now injection E as <- <-.
Qed.

Lemma keeps_files_try_catch {A} (body : M A) (handler : Error -> M A) :
  keeps_files body -> (forall e : Error, keeps_files (handler e)) ->
  keeps_files (try_catch body handler).
Proof.
  intros Hb Hh st r st' E. unfold try_catch in E.
  destruct (body st) as [[a|e] st1] eqn:E1; pose proof (Hb _ _ _ E1) as H1.
  - now injection E as <- <-.
  - pose proof (Hh e _ _ _ E). congruence.
Qed.

Lemma keeps_files_call {A} (c : FsCall) (run : State -> option (A * State)) :
  (forall (st : State) (a : A) (st2 : State),
     run st = Some (a, st2) -> files st2 = files st) ->
  keeps_files (FileSystem.call env c run).
Proof.
  intros Hrun st r st' E. unfold FileSystem.call in E.
  destruct (faulty env _ c); [now injection E as <- <- |].
  destruct (run (record_call c st)) as [[a st2]|] eqn:Er.
  - injection E as <- <-. exact (Hrun _ _ _ Er).
  - now injection E as <- <-.
Qed.

Lemma keeps_files_getInfoAsync (path : string) :
  keeps_files (FileSystem.getInfoAsync env path).
Proof. apply keeps_files_call. now intros st a st2 [= _ <-]. Qed.

Lemma keeps_files_makeDirectoryAsync (path : string) :
  keeps_files (FileSystem.makeDirectoryAsync env path).
Proof.
  apply keeps_files_call. intros st [] st2 H. injection H as <-.
  now destruct (String.eqb path _).
Qed.

Lemma keeps_files_readAsStringAsync (path : string) :
  keeps_files (FileSystem.readAsStringAsync env path).
Proof.
  apply keeps_files_call. intros st a st2 H.
  destruct (files st !! path); [| discriminate H]. now injection H as _ <-.
Qed.

Lemma keeps_files_JSON_parse (content : string) :
  keeps_files (FileSystem.JSON_parse content).
Proof.
  unfold FileSystem.JSON_parse.
  destruct (JSON.parse content);
    [apply keeps_files_ret | apply keeps_files_throw].
Qed.

Lemma keeps_files_console_error {A} (label : string) (e : Error) (a : A) :
  keeps_files (console_error label e;;; mret a).
Proof. now intros st r st' [= <- <-]. Qed.

Lemma keeps_files_ensureDirectoryExists :
  keeps_files (FoodForm.ensureDirectoryExists env).
Proof.
  apply keeps_files_bind; [apply keeps_files_getInfoAsync |].
  intros []; [apply keeps_files_ret | apply keeps_files_makeDirectoryAsync].
Qed.

Lemma keeps_files_list_loadFoods : keeps_files (CategoryScreen.loadFoods env).
Proof.
  unfold CategoryScreen.loadFoods. cbv zeta. apply keeps_files_try_catch.
  - apply keeps_files_bind; [apply keeps_files_getInfoAsync |].
    intros []; cbn [negb]; [| apply keeps_files_ret].
    apply keeps_files_bind; [apply keeps_files_readAsStringAsync |].
    intros content. apply keeps_files_JSON_parse.
  - intros e. apply keeps_files_console_error.
Qed.

(** What [getInfoAsync] answers for the document, when it answers. *)
Lemma getInfo_doc_answer (st st' : State) (b : bool) :
  FileSystem.getInfoAsync env (FileSystem.FOODS_FILE_PATH env) st = (Ok b, st') ->
  b = bool_decide (is_Some (files st !! FileSystem.FOODS_FILE_PATH env)).
Proof.
  unfold FileSystem.getInfoAsync, FileSystem.call. rewrite doc_is_not_dir.
  destruct (faulty env _ _); [discriminate |]. now intros [= <- _].
Qed.

Lemma write_files (path content : string) (st st' : State) (r : Result unit) :
  FileSystem.writeAsStringAsync env path content st = (r, st') ->
  files st' = files st \/ files st' = <[path := content]> (files st).
Proof.
  unfold FileSystem.writeAsStringAsync, FileSystem.call.
  destruct (faulty env _ _); [intros [= _ <-]; now left |].
  destruct (FileSystem.parent_exists env _ path);
    intros [= _ <-]; [now right | now left].
Qed.

End KeepsFiles.

(** X14. Loading never harms what is stored, whatever the file system
    does: after the reader of the form every file there was is still there
    with its content, and the reader of the list screen leaves files and
    directory exactly as they were. *)
Theorem loading_keeps_files (env : Env) (st : State) (path content : string) :
  files st !! path = Some content ->
  files (snd (FoodForm.loadFoods env st)) !! path = Some content
  /\ files (snd (CategoryScreen.loadFoods env st)) = files st.
Proof.
  intros Hfile. split.
  - unfold FoodForm.loadFoods, try_catch.
    match goal with |- context [match ?b st with _ => _ end] =>
      set (body := b) end.
    assert (Hbody : forall r st',
              body st = (r, st') -> files st' !! path = Some content).
    { intros r st' E. subst body. unfold mbind, M_bind in E.
      destruct (FoodForm.ensureDirectoryExists env st) as [[[]|e] st1] eqn:E1;
        pose proof (keeps_files_ensureDirectoryExists env _ _ _ E1) as Hf1;
        [| injection E as _ <-; now rewrite Hf1].
      destruct (FileSystem.getInfoAsync env _ st1) as [[b|e] st2] eqn:E2;
        pose proof (keeps_files_getInfoAsync env _ _ _ _ E2) as Hf2;
        [| injection E as _ <-; now rewrite Hf2, Hf1].
      apply getInfo_doc_answer in E2. destruct b; cbn [negb] in E.
      - destruct (FileSystem.readAsStringAsync env _ st2) as [[c|e] st3] eqn:E3;
          pose proof (keeps_files_readAsStringAsync env _ _ _ _ E3) as Hf3;
          [| injection E as _ <-; now rewrite Hf3, Hf2, Hf1].
        pose proof (keeps_files_JSON_parse c _ _ _ E) as Hf4.
        now rewrite Hf4, Hf3, Hf2, Hf1.
      - destruct (FileSystem.writeAsStringAsync env _ _ st2) as [[[]|e] st3] eqn:E3;
          injection E as _ <-;
          (destruct (write_files env _ _ _ _ _ E3) as [-> | ->];
           [now rewrite Hf2, Hf1 |]);
          (rewrite lookup_insert_ne; [now rewrite Hf2, Hf1 |]);
          intros <-; symmetry in E2; apply bool_decide_eq_false_1 in E2;
          apply E2; rewrite Hf1, Hfile; eexists; reflexivity. }
    destruct (body st) as [r st1] eqn:E. specialize (Hbody _ _ eq_refl).
    destruct r; exact Hbody.
  - destruct (CategoryScreen.loadFoods env st) as [r st'] eqn:E.
    exact (keeps_files_list_loadFoods env _ _ _ E).
Qed.

Lemma loading_keeps_files_witness :
  let st := Sample.holding_photo [Sample.banana] in
  files (snd (FoodForm.loadFoods Sample.env_unreadable st)) !! Sample.photo
  = Some "JPEG"
  /\ files (snd (CategoryScreen.loadFoods Sample.env_unreadable st)) = files st.
Proof.
  apply (loading_keeps_files Sample.env_unreadable
           (Sample.holding_photo [Sample.banana]) Sample.photo "JPEG").
  vm_compute. reflexivity.
Defined.

(** ** A document that cannot be read *)

Section WritesReliable.
Variable env : Env.
Hypothesis Hrel : writes_reliable env.
Abbreviation DATA_DIRECTORY := (FileSystem.DATA_DIRECTORY env).
Abbreviation FOODS_FILE_PATH := (FileSystem.FOODS_FILE_PATH env).

Lemma getInfo_reliable (n : nat) (path : string) :
  faulty env n (GetInfo path) = false.
Proof.
  destruct (faulty env n (GetInfo path)) eqn:H; [| reflexivity].
  destruct (Hrel _ _ H) as [[p Hp] | (f & t & Hc)]; discriminate.
Qed.

Lemma makeDirectory_reliable (n : nat) (path : string) :
  faulty env n (MakeDirectory path) = false.
Proof.
  destruct (faulty env n (MakeDirectory path)) eqn:H; [| reflexivity].
  destruct (Hrel _ _ H) as [[p Hp] | (f & t & Hc)]; discriminate.
Qed.

Lemma write_reliable (n : nat) (path content : string) :
  faulty env n (WriteAsString path content) = false.
Proof.
  destruct (faulty env n (WriteAsString path content)) eqn:H; [| reflexivity].
  destruct (Hrel _ _ H) as [[p Hp] | (f & t & Hc)]; discriminate.
Qed.

Lemma ensureDirectoryExists_reliable (st : State) :
  exists st' : State,
    FoodForm.ensureDirectoryExists env st = (Ok tt, st')
    /\ dirExists st' = true /\ files st' = files st /\ same_screen st st'.
Proof.
  unfold FoodForm.ensureDirectoryExists, FileSystem.getInfoAsync,
    FileSystem.makeDirectoryAsync, FileSystem.call, mbind, M_bind.
  rewrite getInfo_reliable, String.eqb_refl. cbn [record_call dirExists].
  destruct (dirExists st) eqn:Hd; cbn [negb].
  - eexists. split; [reflexivity |]. cbn. repeat split. exact Hd.
  - rewrite makeDirectory_reliable. eexists. split; [reflexivity |].
    cbn. repeat split.
Qed.

Lemma saveFoods_reliable (st : State) (foods : list FoodData) :
  exists st' : State,
    FoodForm.saveFoods env foods st = (Ok tt, st')
    /\ persisted env st' = Some foods /\ same_screen st st'.
Proof.
  destruct (ensureDirectoryExists_reliable st) as (st1 & E1 & Hd1 & Hf1 & Hu1).
  eexists. split; [| split].
  - unfold FoodForm.saveFoods. apply try_catch_ok.
    erewrite bind_ok by exact E1.
    unfold FileSystem.writeAsStringAsync, FileSystem.call.
    rewrite write_reliable. unfold FileSystem.parent_exists.
    rewrite doc_in_dir. cbn [record_call dirExists]. rewrite Hd1. reflexivity.
  - eapply (persisted_insert _ _ _ foods "  "); [reflexivity |]. reflexivity.
  - exact Hu1.
Qed.

(** The reader of the form on a document it cannot read. *)
Lemma loadFoods_unreadable (st : State) (doc : string) :
  files st !! FOODS_FILE_PATH = Some doc ->
  (forall n : nat, faulty env n (ReadAsString FOODS_FILE_PATH) = true) ->
  exists (st' : State) (e : Error),
    FoodForm.loadFoods env st = (Ok [], st')
    /\ files st' = files st
    /\ dialogs st' = dialogs st /\ routerBack st' = routerBack st
    /\ last (console st') = Some (ConsoleError "Error loading foods:" e).
Proof.
  intros Hdoc Hbad.
  destruct (ensureDirectoryExists_reliable st) as (st1 & E1 & Hd1 & Hf1 & Hu1).
  destruct Hu1 as (Hc1 & Hdl1 & _ & Hb1).
  unfold FoodForm.loadFoods, try_catch. erewrite bind_ok by exact E1.
  unfold FileSystem.getInfoAsync at 1. unfold FileSystem.call at 1.
  unfold mbind at 1. unfold M_bind at 1.
  rewrite getInfo_reliable, doc_is_not_dir. cbn [record_call files].
  rewrite Hf1, Hdoc, bool_decide_eq_true_2 by (eexists; reflexivity).
  cbn [negb]. unfold mbind, M_bind, FileSystem.readAsStringAsync,
    FileSystem.call.
  destruct (faulty env _ (ReadAsString FOODS_FILE_PATH)) eqn:Hfault.
  - eexists _, _. split; [reflexivity |]. cbn.
    rewrite Hf1, Hdl1, Hb1. repeat split. apply last_snoc.
  - now rewrite Hbad in Hfault.
Qed.

End WritesReliable.

(** X15. When the document is there but its reading fails, while the
    other calls of the file system work, the failure is swallowed and the
    next save starts from nothing, whatever the document holds: a valid
    submission without an image reports success and leaves a document that
    holds the new record alone, or no record at all for an edit; a
    confirmed deletion reports success and leaves the empty collection. *)
Theorem unreadable_document_is_replaced (env : Env) (st : State)
    (doc : string) :
  writes_reliable env ->
  files st !! FileSystem.FOODS_FILE_PATH env = Some doc ->
  (forall n : nat,
     faulty env n (ReadAsString (FileSystem.FOODS_FILE_PATH env)) = true) ->
  (forall (initialData : option FoodData) (form : FoodForm.Form.Fields),
     valid_input form = true -> FoodForm.Form.imageUri form = "" ->
     exists st' : State,
       FoodForm.handleSubmit env initialData form st = (Ok tt, st')
       /\ persisted env st'
          = Some (if FoodForm.has_id initialData then []
                  else [submitted env st initialData form])
       /\ dialogs st' = (dialogs st ++ [Plain saved_message])%list)
  /\ (forall initialData : option FoodData,
        FoodForm.has_id initialData = true ->
        exists st' : State,
          FoodForm.handleDelete env initialData FoodForm.Delete st = (Ok tt, st')
          /\ persisted env st' = Some []
          /\ dialogs st'
             = (dialogs st ++ [confirm_dialog; deleted_dialog])%list).
Proof.
  intros Hrel Hdoc Hbad. split.
  - intros initialData form (Hn & Hw & Hnum)%valid_input_spec Himg.
    set (st1 := snd (console_log "Submitting with ID:"
                       (FoodForm.initial_id initialData)
                       (snd (setIsLoading true st)))).
    destruct (new_id_ok env initialData st1) as (st2 & E2 & Hc2 & Hd2 & Hf2 & Hu2).
    assert (Hdoc2 : files st2 !! FileSystem.FOODS_FILE_PATH env = Some doc)
      by (rewrite Hf2; exact Hdoc).
    destruct (loadFoods_unreadable env Hrel st2 doc Hdoc2 Hbad)
      as (st3 & e & E3 & _ & Hdl3 & Hb3 & _).
    set (newFood := submitted env st initialData form).
    destruct (saveFoods_reliable env Hrel st3
                (FoodForm.upsert initialData newFood []))
      as (st4 & E4 & Hp4 & Hu4).
    assert (Hnew : FoodForm.build (submitted_id env st1 initialData) form
                   = newFood)
      by (unfold newFood, submitted; now rewrite Himg).
    eexists. split; [| split].
    + unfold FoodForm.handleSubmit.
      erewrite bind_ok by (now apply validateForm_ok). cbn [negb].
      eapply try_finally_ok; [| reflexivity]. apply try_catch_ok.
      erewrite bind_ok by reflexivity. erewrite bind_ok by reflexivity.
      erewrite bind_ok by exact E2.
      unfold FoodForm.store_image. rewrite Himg. cbn [JS.truthy].
      erewrite bind_ok by reflexivity. rewrite Hnew.
      erewrite bind_ok by exact E3.
      erewrite bind_ok by exact E4. reflexivity.
    + cbn. unfold persisted in *. cbn [files]. rewrite Hp4. f_equal.
      unfold FoodForm.upsert, FoodForm.has_id.
      destruct (FoodForm.initial_id initialData) as [i|]; [| reflexivity].
      destruct (JS.truthy i); reflexivity.
    + cbn. destruct Hu4 as (_ & -> & _). rewrite Hdl3.
      destruct Hu2 as (_ & -> & _). reflexivity.
  - intros initialData Hid. unfold FoodForm.has_id in Hid.
    unfold FoodForm.handleDelete.
    destruct (FoodForm.initial_id initialData) as [wanted|]; [| discriminate].
    rewrite Hid. unfold FoodForm.confirmDelete.
    set (st1 := snd (setIsLoading true (snd (show confirm_dialog st)))).
    assert (Hdoc1 : files st1 !! FileSystem.FOODS_FILE_PATH env = Some doc)
      by exact Hdoc.
    destruct (loadFoods_unreadable env Hrel st1 doc Hdoc1 Hbad)
      as (st2 & e & E2 & _ & Hdl2 & Hb2 & _).
    destruct (saveFoods_reliable env Hrel st2 (without wanted []))
      as (st3 & E3 & Hp3 & Hu3).
    eexists. split; [| split].
    + apply try_catch_ok. erewrite bind_ok by reflexivity.
      eapply try_finally_ok; [| reflexivity]. apply try_catch_ok.
      erewrite bind_ok by reflexivity. erewrite bind_ok by exact E2.
      erewrite bind_ok by exact E3. reflexivity.
    + exact Hp3.
    + cbn. destruct Hu3 as (_ & -> & _). rewrite Hdl2. cbn.
      now rewrite <- app_assoc.
Qed.

Lemma unreadable_document_is_replaced_witness :
  let foods := [Sample.banana; Sample.cherry] in
  let st := Sample.holding foods in
  persisted Sample.env st = Some foods
  /\ (exists st' : State,
        FoodForm.handleSubmit Sample.env_unreadable None
          (Sample.form "Apple Pie" "100") st = (Ok tt, st')
        /\ persisted Sample.env st' = Some [Sample.apple_pie]
        /\ dialogs st' = [Plain saved_message])
  /\ (exists st' : State,
        FoodForm.handleSubmit Sample.env_unreadable (Some Sample.banana)
          (Sample.form "Banana" "100") st = (Ok tt, st')
        /\ persisted Sample.env st' = Some []
        /\ dialogs st' = [Plain saved_message])
  /\ (exists st' : State,
        FoodForm.handleDelete Sample.env_unreadable (Some Sample.banana)
          FoodForm.Delete st = (Ok tt, st')
        /\ persisted Sample.env st' = Some []
        /\ dialogs st' = [confirm_dialog; deleted_dialog]).
Proof.
  intros foods st.
  destruct (unreadable_document_is_replaced Sample.env_unreadable st
              (JSON.stringify2 foods)) as [Hsubmit Hdelete].
  - intros n c H. destruct c; try discriminate H. left. eauto.
  - vm_compute. reflexivity.
  - intros n. reflexivity.
  - split; [vm_compute; reflexivity |]. split; [| split].
    + apply (Hsubmit None (Sample.form "Apple Pie" "100")); reflexivity.
    + apply (Hsubmit (Some Sample.banana) (Sample.form "Banana" "100"));
        reflexivity.
    + apply (Hdelete (Some Sample.banana)). reflexivity.
Defined.

(** A read that fails while three records are stored: the submission
    reports success and one record is left. *)
Example failed_read_loses_records :
  let st := Sample.holding [Sample.banana; Sample.food "998" "cherry";
                            Sample.food "997" "date"] in
  let st' := snd (FoodForm.handleSubmit Sample.env_unreadable None
                    (Sample.form "Apple Pie" "100") st) in
  persisted Sample.env st = Some [Sample.banana; Sample.food "998" "cherry";
                                  Sample.food "997" "date"]
  /\ persisted Sample.env st' = Some [Sample.apple_pie]
  /\ dialogs st' = [Plain saved_message].
Proof. repeat split; vm_compute; reflexivity. Qed.

(** ** Save, then load *)

(** X16. What is saved is what is loaded: in any state, on a fresh
    installation too, saving a collection and loading it again returns
    that collection, with the data directory in place. *)
Theorem load_after_save (env : Env) (st : State) (foods : list FoodData) :
  fault_free env ->
  exists st' : State,
    (FoodForm.saveFoods env foods;;; FoodForm.loadFoods env) st = (Ok foods, st')
    /\ dirExists st' = true
    /\ files st' !! FileSystem.FOODS_FILE_PATH env
       = Some (JSON.stringify2 foods).
Proof.
  intros Hff.
  destruct (saveFoods_ok env Hff st foods) as (st1 & E1 & Hd1 & Hf1 & Hp1 & _).
  destruct (loadFoods_ok env Hff st1 foods Hp1)
    as (st2 & E2 & Hd2 & _ & Hsome & _).
  exists st2. split; [| split].
  - erewrite bind_ok by exact E1. exact E2.
  - exact Hd2.
  - rewrite Hsome; rewrite Hf1, lookup_insert_eq; [reflexivity |].
    eexists; reflexivity.
Qed.

Lemma load_after_save_witness :
  exists st' : State,
    (FoodForm.saveFoods Sample.env [Sample.apple_pie];;;
     FoodForm.loadFoods Sample.env) Sample.fresh
    = (Ok [Sample.apple_pie], st')
    /\ dirExists st' = true
    /\ files st' !! FileSystem.FOODS_FILE_PATH Sample.env
       = Some (JSON.stringify2 [Sample.apple_pie]).
Proof.
  apply (load_after_save Sample.env Sample.fresh [Sample.apple_pie]).
  intros n c. reflexivity.
Defined.

(** ** Weights that pass validation *)

Lemma strip_digit (c : ascii) (s : string) :
  JS.is_digit c = true -> JS.strip (String c s) = None.
Proof.
  intros H.
  assert (H1 : JS.is_space1 c = false)
    by (destruct c as [[] [] [] [] [] [] [] []]; try reflexivity; discriminate H).
  assert (H2 : forall b, JS.is_space2 c b = false).
  { intros b. unfold JS.is_space2.
    destruct c as [[] [] [] [] [] [] [] []]; try reflexivity; discriminate H. }
  assert (H3 : forall b d, JS.is_space3 c b d = false).
  { intros b d. unfold JS.is_space3.
    destruct c as [[] [] [] [] [] [] [] []]; try reflexivity; discriminate H. }
  cbn [JS.strip]. rewrite H1. destruct s as [|b [|d r]]; rewrite ?H2, ?H3; reflexivity.
Qed.

Lemma trimEnd_digits (s : string) :
  JS.all_chars JS.is_digit s = true -> JS.trimEnd s = s.
Proof.
  induction s as [|c s IH]; [reflexivity |]. cbn [JS.all_chars].
  intros [Hc Hs]%andb_prop. rewrite trimEnd_cons, (IH Hs).
  unfold JS.blank. rewrite trimStart_fixed by now apply strip_digit. reflexivity.
Qed.

Lemma trim_digits (c : ascii) (s : string) :
  JS.is_digit c = true -> JS.all_chars JS.is_digit s = true ->
  JS.trim (String c s) = String c s.
Proof.
  intros Hc Hs. unfold JS.trim. rewrite trimStart_fixed by now apply strip_digit.
  apply trimEnd_digits. cbn [JS.all_chars]. now rewrite Hc, Hs.
Qed.

Lemma skip_digits_all (s : string) :
  JS.all_chars JS.is_digit s = true -> JS.skip_digits s = "".
Proof.
  induction s as [|c s IH]; [reflexivity |]. cbn [JS.all_chars JS.skip_digits].
  intros [Hc Hs]%andb_prop. rewrite Hc. auto.
Qed.

Lemma digits_are_numeric (c : ascii) (s : string) :
  JS.all_chars JS.is_digit (String c s) = true ->
  JS.isNaN_Number (String c s) = false.
Proof.
  intros Hall. pose proof Hall as [Hc Hs]%andb_prop.
  unfold JS.isNaN_Number, JS.is_numeric_literal.
  rewrite trim_digits by assumption.
  assert (Hu : JS.unsigned_decimal (JS.drop_sign (String c s)) = true).
  { assert (Hd : JS.drop_sign (String c s) = String c s)
      by (destruct c as [[] [] [] [] [] [] [] []]; vm_compute in Hc;
          first [discriminate Hc | reflexivity]).
    rewrite Hd. unfold JS.unsigned_decimal.
    assert (He : String.eqb (String c s) "Infinity" = false)
      by (destruct c as [[] [] [] [] [] [] [] []]; vm_compute in Hc;
          first [discriminate Hc | reflexivity]).
    rewrite He. cbn [JS.starts_with_digit]. rewrite Hc.
    now rewrite skip_digits_all. }
  rewrite Hu, orb_true_r. reflexivity.
Qed.

(** X18. A form with a name that is not blank and a weight written in
    decimal digits passes validation, whatever its other fields hold: they
    are not looked at. *)
Theorem digits_pass_validation (form : FoodForm.Form.Fields) :
  JS.trim (FoodForm.Form.foodName form) <> "" ->
  FoodForm.Form.weight form <> "" ->
  JS.all_chars JS.is_digit (FoodForm.Form.weight form) = true ->
  forall st : State, FoodForm.validateForm form st = (Ok true, st).
Proof.
  intros Hn Hw Hd st. apply validateForm_ok; [exact Hn | exact Hw |].
  destruct (FoodForm.Form.weight form) as [|c s]; [contradiction |].
  now apply digits_are_numeric.
Qed.

Lemma digits_pass_validation_witness :
  FoodForm.validateForm
    (FoodForm.Form.mkFields " Apple Pie" "many" "0100" "?" "" "" "" ""
       default_category) Sample.fresh
  = (Ok true, Sample.fresh).
Proof.
  apply (digits_pass_validation
           (FoodForm.Form.mkFields " Apple Pie" "many" "0100" "?" "" "" "" ""
              default_category)).
  - discriminate.
  - discriminate.
  - reflexivity.
Defined.
